(** * ClickORM: condition compiler, type mapper, validator and schema
    construction, embedded from the TypeScript sources

    - [src/core/types.ts]        : [DataType], [ColumnDefinition],
                                   [isRawExpression], [isWhereOperator]
    - [src/utils/type-mapper.ts] : [getClickHouseType], [toClickHouseValue],
                                   [fromClickHouseValue], [validateValue],
                                   [inferClickHouseType], [getDefaultValue],
                                   [areTypesCompatible]
    - [src/utils/validator.ts]   : [validateSchema], [validateColumnDefinition],
                                   [validateData], [validatePartialData],
                                   [validateTableName], [validateWhereCondition],
                                   [sanitizeInput], [isValidIPv4],
                                   [applyValidationRules]
    - [src/core/schema.ts]       : [TableSchema] (constructor, column lists,
                                   [toCreateTableSQL], [addColumn],
                                   [removeColumn]), [SchemaBuilder]
    - [src/query/where.ts]       : [WhereBuilder]
    - [src/core/model.ts]        : [buildWhereClause], [paramsArrayToObject]

    Functions that throw return a [Result]; the builder's mutable fields
    ([params], [paramCounter]) are threaded explicitly.  The conversions of
    the host ([String], [Number], [BigInt], [new Date], [join]) are modelled
    with their throw on an object that cannot be converted. *)

From Stdlib Require Import String Ascii List ZArith QArith Lia Bool.
From Stdlib Require Import DecimalString DecimalNat.
Import ListNotations.

Set Warnings "-register-all".
Close Scope Q_scope.
Open Scope list_scope.
Open Scope string_scope.

(* ================================================================== *)
(** * Host values *)

(** A JavaScript number.  Every finite double is a rational, so finite
    numbers are carried as [Q]; the three non-finite doubles are separate
    constructors.  (Negative zero behaves as zero in every operation used
    by the sources.) *)
Inductive JsNumber : Type :=
| Finite (q : Q)
| NaN
| PosInfinity
| NegInfinity.

(** Plain data values, as they travel through the ORM: primitives, [Date]
    instances (carrying their time value, [NaN] for an invalid date), arrays
    and plain objects.  An object is the list of its own enumerable
    string-keyed properties in [Object.entries] order, with distinct keys,
    and inherits from [Object.prototype]; no value is callable, so an own
    property named [toString] hides the inherited method behind data. *)
Inductive JsValue : Type :=
| VUndefined
| VNull
| VBool (b : bool)
| VNumber (n : JsNumber)
| VBigInt (z : Z)
| VString (s : string)
| VDate (t : JsNumber)
| VArray (elems : list JsValue)
| VObject (props : list (string * JsValue)).

(** The result of the [typeof] operator on the values above. *)
Inductive TypeTag : Type :=
| TUndefined | TObject | TBoolean | TNumber | TBigInt | TString.

Definition typeof (v : JsValue) : TypeTag :=
  match v with
  | VUndefined => TUndefined
  | VNull => TObject
  | VBool _ => TBoolean
  | VNumber _ => TNumber
  | VBigInt _ => TBigInt
  | VString _ => TString
  | VDate _ => TObject
  | VArray _ => TObject
  | VObject _ => TObject
  end.

Definition typeofString (v : JsValue) : string :=
  match typeof v with
  | TUndefined => "undefined"
  | TObject => "object"
  | TBoolean => "boolean"
  | TNumber => "number"
  | TBigInt => "bigint"
  | TString => "string"
  end.

Definition TypeTag_eqb (a b : TypeTag) : bool :=
  match a, b with
  | TUndefined, TUndefined | TObject, TObject | TBoolean, TBoolean
  | TNumber, TNumber | TBigInt, TBigInt | TString, TString => true
  | _, _ => false
  end.

(** [value === null || value === undefined] *)
Definition isNullish (v : JsValue) : bool :=
  match v with
  | VUndefined | VNull => true
  | _ => false
  end.

(* ------------------------------------------------------------------ *)
(** ** Numbers *)

Definition ofZ (z : Z) : JsNumber := Finite (inject_Z z).
Definition ofNat (n : nat) : JsNumber := ofZ (Z.of_nat n).

(** [Number.isInteger] *)
Definition Number_isInteger (n : JsNumber) : bool :=
  match n with
  | Finite q => (Qnum q mod Zpos (Qden q) =? 0)%Z
  | _ => false
  end.

(** [isNaN] on a number *)
Definition Number_isNaN (n : JsNumber) : bool :=
  match n with
  | NaN => true
  | _ => false
  end.

(** [a <= b] *)
Definition num_le (a b : JsNumber) : bool :=
  match a, b with
  | NaN, _ | _, NaN => false
  | NegInfinity, _ => true
  | _, PosInfinity => true
  | Finite x, Finite y => Qle_bool x y
  | _, _ => false
  end.

(** [a < b] *)
Definition num_lt (a b : JsNumber) : bool :=
  match a, b with
  | NaN, _ | _, NaN => false
  | Finite x, Finite y => negb (Qle_bool y x)
  | NegInfinity, NegInfinity => false
  | NegInfinity, _ => true
  | PosInfinity, _ => false
  | Finite _, PosInfinity => true
  | Finite _, NegInfinity => false
  end.

(** [a >= b] and [a > b] *)
Definition num_ge (a b : JsNumber) : bool := num_le b a.
Definition num_gt (a b : JsNumber) : bool := num_lt b a.

(** The integral part of a rational, rounding toward zero. *)
Definition Qtrunc (q : Q) : Z := (Qnum q ÷ Zpos (Qden q))%Z.

(** [Number.MAX_SAFE_INTEGER] and [Number.MIN_SAFE_INTEGER] *)
Definition MAX_SAFE_INTEGER : Z := (2 ^ 53 - 1)%Z.
Definition MIN_SAFE_INTEGER : Z := (- (2 ^ 53 - 1))%Z.

(** ToBoolean *)
Definition number_truthy (n : JsNumber) : bool :=
  match n with
  | Finite q => negb (Qnum q =? 0)%Z
  | NaN => false
  | PosInfinity | NegInfinity => true
  end.

Definition truthy (v : JsValue) : bool :=
  match v with
  | VUndefined | VNull => false
  | VBool b => b
  | VNumber n => number_truthy n
  | VBigInt z => negb (z =? 0)%Z
  | VString s => negb (s =? "")
  | VDate _ | VArray _ | VObject _ => true
  end.

(** An optional boolean flag read in a condition: [undefined] is falsy. *)
Definition flag (o : option bool) : bool :=
  match o with
  | Some b => b
  | None => false
  end.

(* ------------------------------------------------------------------ *)
(** ** Strings *)

(** Decimal rendering of array indices, counters and bigints. *)
Definition dec_nat (n : nat) : string := NilEmpty.string_of_uint (Nat.to_uint n).
Definition dec_N (n : N) : string := NilEmpty.string_of_uint (N.to_uint n).
Definition dec_Z (z : Z) : string := NilZero.string_of_int (Z.to_int z).

(** [Array.prototype.join] on strings *)
Fixpoint join (sep : string) (parts : list string) : string :=
  match parts with
  | [] => ""
  | [p] => p
  | p :: rest => p ++ sep ++ join sep rest
  end.

(** [xs.map((x, i) => f(x, i))], counting from [i] *)
Fixpoint mapi_from {A B : Type} (i : nat) (f : A -> nat -> B) (xs : list A) : list B :=
  match xs with
  | [] => []
  | x :: rest => f x i :: mapi_from (S i) f rest
  end.

(** The one-character strings of a string, in order. *)
Fixpoint chars (s : string) : list string :=
  match s with
  | EmptyString => []
  | String.String c rest => String.String c EmptyString :: chars rest
  end.

(** Own property lookup on an object literal. *)
Fixpoint lookup {A : Type} (key : string) (props : list (string * A)) : option A :=
  match props with
  | [] => None
  | (k, v) :: rest => if k =? key then Some v else lookup key rest
  end.

(** [Object.keys] / [Object.entries]; [None] stands for the [TypeError]
    thrown on [null] and [undefined]. *)
Definition Object_entries (v : JsValue) : option (list (string * JsValue)) :=
  match v with
  | VUndefined | VNull => None
  | VBool _ | VNumber _ | VBigInt _ | VDate _ => Some []
  | VString s => Some (mapi_from 0 (fun c i => (dec_nat i, VString c)) (chars s))
  | VArray xs => Some (mapi_from 0 (fun x i => (dec_nat i, x)) xs)
  | VObject props => Some props
  end.

Definition Object_keys (v : JsValue) : option (list string) :=
  option_map (map fst) (Object_entries v).

(** [Array.isArray] *)
Definition Array_isArray (v : JsValue) : bool :=
  match v with
  | VArray _ => true
  | _ => false
  end.

(** [value instanceof Date] *)
Definition instanceofDate (v : JsValue) : bool :=
  match v with
  | VDate _ => true
  | _ => false
  end.

(* ================================================================== *)
(** * src/core/types.ts *)

Module DataType.

Inductive t : Type :=
| UInt8 | UInt16 | UInt32 | UInt64 | Int8 | Int16 | Int32 | Int64
| Float32 | Float64 | Decimal
| String | FixedString
| Date | Date32 | DateTime | DateTime64
| Boolean
| UUID
| Enum8 | Enum16
| Array | Tuple | Map | Nested | JSON
| Nullable | LowCardinality | IPv4 | IPv6.

(** The string value of each enum member. *)
Definition toString (d : t) : string :=
  match d with
  | UInt8 => "UInt8" | UInt16 => "UInt16" | UInt32 => "UInt32" | UInt64 => "UInt64"
  | Int8 => "Int8" | Int16 => "Int16" | Int32 => "Int32" | Int64 => "Int64"
  | Float32 => "Float32" | Float64 => "Float64" | Decimal => "Decimal"
  | String => "String" | FixedString => "FixedString"
  | Date => "Date" | Date32 => "Date32" | DateTime => "DateTime"
  | DateTime64 => "DateTime64"
  | Boolean => "Boolean"
  | UUID => "UUID"
  | Enum8 => "Enum8" | Enum16 => "Enum16"
  | Array => "Array" | Tuple => "Tuple" | Map => "Map" | Nested => "Nested"
  | JSON => "JSON"
  | Nullable => "Nullable" | LowCardinality => "LowCardinality"
  | IPv4 => "IPv4" | IPv6 => "IPv6"
  end.

End DataType.

(** The [default] of a column: a literal or a zero-argument producer. *)
Inductive DefaultValue : Type :=
| Literal (v : JsValue)
| Generator (f : unit -> JsValue).

Module Col.

(** [interface ColumnDefinition]; an optional field that is absent is [None]. *)
Record ColumnDefinition : Type := mk {
  type : DataType.t;
  nullable : option bool;
  primaryKey : option bool;
  unique : option bool;
  default : option DefaultValue;
  autoIncrement : option bool;
  comment : option string;
  elementType : option DataType.t;
  precision : option JsNumber;
  scale : option JsNumber;
  length : option JsNumber;
  enumValues : option (list string)
}.

(** [{ type: t }] *)
Definition ofType (t : DataType.t) : ColumnDefinition :=
  mk t None None None None None None None None None None None.

End Col.

Abbreviation ColumnDefinition := Col.ColumnDefinition.

(** [type SchemaDefinition]: column name to definition, in key order. *)
Definition SchemaDefinition : Type := list (string * ColumnDefinition).

(* ------------------------------------------------------------------ *)
(** ** src/core/errors.ts *)

(** The payload passed as an error's [value]. *)
Inductive ErrorValue : Type :=
| OfValue (v : JsValue)
| OfColumn (c : ColumnDefinition).

(** The repository's error classes used here, and the host's own. *)
Inductive Error : Type :=
| ValidationError (message : string) (field : option string)
                  (value : JsValue) (constraint : option string)
| TypeMappingError (message : string) (sourceType targetType : option string)
                   (value : ErrorValue)
| TypeError
| RangeError
| SyntaxError.

Definition isValidationError (e : Error) : bool :=
  match e with
  | ValidationError _ _ _ _ => true
  | _ => false
  end.

Definition isTypeMappingError (e : Error) : bool :=
  match e with
  | TypeMappingError _ _ _ _ => true
  | _ => false
  end.

Definition errorMessage (e : Error) : string :=
  match e with
  | ValidationError m _ _ _ => m
  | TypeMappingError m _ _ _ => m
  | TypeError => "TypeError"
  | RangeError => "RangeError"
  | SyntaxError => "SyntaxError"
  end.

(** A call that returns normally or throws. *)
Inductive Result (A : Type) : Type :=
| OK (a : A)
| Err (e : Error).

Arguments OK {A} a.
Arguments Err {A} e.

Definition rbind {A B : Type} (r : Result A) (k : A -> Result B) : Result B :=
  match r with
  | OK a => k a
  | Err e => Err e
  end.

Definition isErr {A : Type} (r : Result A) : bool :=
  match r with
  | OK _ => false
  | Err _ => true
  end.

Declare Scope result_scope.
Delimit Scope result_scope with result.
Notation "x <- e ;; k" := (rbind e (fun x => k))
  (at level 61, e at next level, right associativity) : result_scope.

(** [xs.map(f)] for an [f] that may throw *)
Fixpoint mapResult {A B : Type} (f : A -> Result B) (xs : list A) : Result (list B) :=
  match xs with
  | [] => OK []
  | x :: rest =>
      rbind (f x) (fun y => rbind (mapResult f rest) (fun ys => OK (y :: ys)))
  end.

(* ================================================================== *)
(** * Host primitives

    Built-ins of the JavaScript host whose results the sources pass along
    without inspecting them.  The definitions below take them as given. *)

Record Host : Type := {
  (** [Number.prototype.toString], as used by template literals *)
  Number_toString : JsNumber -> string;
  (** the string-to-number conversion of [Number(s)] *)
  StringToNumber : string -> JsNumber;
  (** the string-to-bigint conversion of [BigInt(s)]; [None] when the text
      is no integer literal *)
  StringToBigInt : string -> option Z;
  (** the double nearest to an integer beyond the safe range *)
  RoundToDouble : Z -> JsNumber;
  (** [Date.parse] *)
  Date_parse : string -> JsNumber;
  (** [Date.prototype.toString] on a time value *)
  Date_toString : JsNumber -> string;
  (** [JSON.parse]; [None] when it throws *)
  JSON_parse : string -> option JsValue
}.

Section TypeMapper.

Variable host : Host.

Local Open Scope result_scope.

(** An own property named [toString] stands where the conversions look for
    the method; being data, it is not callable. *)
Definition shadowsToString (props : list (string * JsValue)) : bool :=
  match lookup "toString" props with
  | Some _ => true
  | None => false
  end.

(** ToString ([String(value)], template literals, the elements of
    [Array.prototype.join]).  An object is converted by its [toString]
    method: the inherited one gives ["[object Object]"]; with an own
    [toString] property, which is not callable, the conversion falls back on
    [valueOf], which gives no primitive, and throws a [TypeError]. *)
Fixpoint ToString (v : JsValue) : Result string :=
  match v with
  | VUndefined => OK "undefined"
  | VNull => OK "null"
  | VBool true => OK "true"
  | VBool false => OK "false"
  | VNumber n => OK (Number_toString host n)
  | VBigInt z => OK (dec_Z z)
  | VString s => OK s
  | VDate t => OK (Date_toString host t)
  | VArray xs =>
      parts <- mapResult (fun x => if isNullish x then OK "" else ToString x) xs ;;
      OK (join "," parts)
  | VObject props =>
      if shadowsToString props then Err TypeError else OK "[object Object]"
  end.

(** [xs.join(sep)] on an array of values *)
Definition Array_join (sep : string) (xs : list JsValue) : Result string :=
  parts <- mapResult (fun x => if isNullish x then OK "" else ToString x) xs ;;
  OK (join sep parts).

(** ToPrimitive with hint number: a [Date] gives its time value, other
    objects their string form ([valueOf] gives the object itself). *)
Definition ToPrimitive_number (v : JsValue) : Result JsValue :=
  match v with
  | VDate t => OK (VNumber t)
  | VArray _ | VObject _ => s <- ToString v ;; OK (VString s)
  | _ => OK v
  end.

(** ToPrimitive with the default hint: a [Date] prefers its string form. *)
Definition ToPrimitive_default (v : JsValue) : Result JsValue :=
  match v with
  | VDate _ | VArray _ | VObject _ => s <- ToString v ;; OK (VString s)
  | _ => OK v
  end.

(** [Number(z)] for a bigint [z]: exact on the safe range. *)
Definition BigInt_toNumber (z : Z) : JsNumber :=
  if ((MIN_SAFE_INTEGER <=? z) && (z <=? MAX_SAFE_INTEGER))%Z
  then ofZ z
  else RoundToDouble host z.

(** [Number(p)] on a primitive *)
Definition PrimitiveToNumber (p : JsValue) : JsNumber :=
  match p with
  | VUndefined => NaN
  | VNull => ofZ 0
  | VBool true => ofZ 1
  | VBool false => ofZ 0
  | VNumber n => n
  | VBigInt z => BigInt_toNumber z
  | VString s => StringToNumber host s
  | _ => NaN
  end.

(** [Number(value)] *)
Definition ToNumber (v : JsValue) : Result JsNumber :=
  p <- ToPrimitive_number v ;;
  OK (PrimitiveToNumber p).

(** [BigInt(value)]: a number must be integral ([RangeError] otherwise), a
    string must parse ([SyntaxError] otherwise), [null] and [undefined] are
    refused ([TypeError]). *)
Definition ToBigInt (v : JsValue) : Result Z :=
  p <- ToPrimitive_number v ;;
  match p with
  | VNumber n =>
      match n with
      | Finite q => if Number_isInteger n then OK (Qtrunc q) else Err RangeError
      | _ => Err RangeError
      end
  | VBigInt z => OK z
  | VBool true => OK 1%Z
  | VBool false => OK 0%Z
  | VString s =>
      match StringToBigInt host s with
      | Some z => OK z
      | None => Err SyntaxError
      end
  | _ => Err TypeError
  end.

(** TimeClip: a time value beyond 8.64e15 ms is invalid, others are
    truncated to an integer. *)
Definition TimeClip (n : JsNumber) : JsNumber :=
  match n with
  | Finite q =>
      if Qle_bool (inject_Z (-8640000000000000)) q
         && Qle_bool q (inject_Z 8640000000000000)
      then ofZ (Qtrunc q)
      else NaN
  | _ => NaN
  end.

(** [new Date(value)] for a single argument. *)
Definition Date_construct (v : JsValue) : Result JsValue :=
  match v with
  | VDate t => OK (VDate t)
  | _ =>
      p <- ToPrimitive_default v ;;
      match p with
      | VString s => OK (VDate (Date_parse host s))
      | VBigInt _ => Err TypeError
      | _ => OK (VDate (TimeClip (PrimitiveToNumber p)))
      end
  end.

(* ------------------------------------------------------------------ *)
(** ** src/utils/type-mapper.ts *)

(** [n || d] on an optional number *)
Definition orNumber (o : option JsNumber) (d : JsNumber) : JsNumber :=
  match o with
  | Some n => if number_truthy n then n else d
  | None => d
  end.

(** [enumValues.map((v, i) => `'${v}' = ${i + 1}`).join(', ')] *)
Definition enumDef (enumValues : list string) : string :=
  join ", " (mapi_from 0 (fun v i => "'" ++ v ++ "' = " ++ dec_nat (i + 1)) enumValues).

Definition getClickHouseType (column : ColumnDefinition) : Result string :=
  let baseType := Col.type column in
  typeStr <-
    match baseType with
    | DataType.FixedString =>
        OK ("FixedString(" ++ Number_toString host (orNumber (Col.length column) (ofZ 255)) ++ ")")
    | DataType.Decimal =>
        OK ("Decimal(" ++ Number_toString host (orNumber (Col.precision column) (ofZ 10))
              ++ ", " ++ Number_toString host (orNumber (Col.scale column) (ofZ 2)) ++ ")")
    | DataType.DateTime64 =>
        OK ("DateTime64(" ++ Number_toString host (orNumber (Col.precision column) (ofZ 3)) ++ ")")
    | DataType.Array =>
        match Col.elementType column with
        | None =>
            Err (TypeMappingError "Array type requires elementType"
                   (Some (DataType.toString baseType)) None (OfColumn column))
        | Some elementType => OK ("Array(" ++ DataType.toString elementType ++ ")")
        end
    | DataType.LowCardinality =>
        match Col.elementType column with
        | None =>
            Err (TypeMappingError "LowCardinality type requires elementType"
                   (Some (DataType.toString baseType)) None (OfColumn column))
        | Some elementType => OK ("LowCardinality(" ++ DataType.toString elementType ++ ")")
        end
    | DataType.Enum8 | DataType.Enum16 =>
        match Col.enumValues column with
        | None | Some [] =>
            Err (TypeMappingError "Enum type requires enumValues"
                   (Some (DataType.toString baseType)) None (OfColumn column))
        | Some enumValues =>
            let enumType :=
              match baseType with
              | DataType.Enum8 => "Enum8"
              | _ => "Enum16"
              end in
            OK (enumType ++ "(" ++ enumDef enumValues ++ ")")
        end
    | _ => OK (DataType.toString baseType)
    end ;;
  OK (if flag (Col.nullable column) then "Nullable(" ++ typeStr ++ ")" else typeStr).

Definition fromClickHouseValue (value : JsValue) (dataType : DataType.t) : Result JsValue :=
  if isNullish value then OK VNull
  else
    match dataType with
    | DataType.UInt8 | DataType.UInt16 | DataType.UInt32
    | DataType.Int8 | DataType.Int16 | DataType.Int32
    | DataType.Float32 | DataType.Float64 | DataType.Decimal =>
        n <- ToNumber value ;; OK (VNumber n)
    | DataType.UInt64 | DataType.Int64 =>
        bigintVal <- match value with
                     | VBigInt z => OK z
                     | _ => ToBigInt value
                     end ;;
        if ((bigintVal <=? MAX_SAFE_INTEGER) && (bigintVal >=? MIN_SAFE_INTEGER))%Z
        then OK (VNumber (BigInt_toNumber bigintVal))
        else OK (VBigInt bigintVal)
    | DataType.Boolean => OK (VBool (truthy value))
    | DataType.String | DataType.FixedString | DataType.UUID
    | DataType.IPv4 | DataType.IPv6 | DataType.Enum8 | DataType.Enum16 =>
        s <- ToString value ;; OK (VString s)
    | DataType.Date | DataType.Date32 | DataType.DateTime | DataType.DateTime64 =>
        if instanceofDate value then OK value else Date_construct value
    | DataType.Array =>
        if negb (Array_isArray value)
        then Err (TypeMappingError "Expected array value from ClickHouse"
                    (Some (typeofString value)) (Some "Array") (OfValue value))
        else OK value
    | DataType.JSON | DataType.Map =>
        match value with
        | VString s =>
            match JSON_parse host s with
            | Some parsed => OK parsed
            | None => Err SyntaxError
            end
        | _ => OK value
        end
    | _ => OK value
    end.

(** [isInteger(value)]: [typeof value === 'number' && Number.isInteger(value)] *)
Definition isInteger (value : JsValue) : bool :=
  match value with
  | VNumber n => Number_isInteger n
  | _ => false
  end.

(** [isInteger(value) && Number(value) >= lo && Number(value) <= hi];
    [Number(value)] is evaluated on an integral number only. *)
Definition integerInRange (value : JsValue) (lo hi : Z) : Result bool :=
  if isInteger value
  then n <- ToNumber value ;; OK (num_ge n (ofZ lo) && num_le n (ofZ hi))
  else OK false.

Definition validateValue (value : JsValue) (column : ColumnDefinition) : Result bool :=
  if isNullish value then
    if negb (flag (Col.nullable column))
    then Err (TypeMappingError "Value cannot be null for non-nullable column"
                (Some (typeofString value))
                (Some (DataType.toString (Col.type column))) (OfValue value))
    else OK true
  else
    match Col.type column with
    | DataType.UInt8 => integerInRange value 0 255
    | DataType.UInt16 => integerInRange value 0 65535
    | DataType.UInt32 => integerInRange value 0 4294967295
    | DataType.Int8 => integerInRange value (-128) 127
    | DataType.Int16 => integerInRange value (-32768) 32767
    | DataType.Int32 => integerInRange value (-2147483648) 2147483647
    | DataType.Float32 | DataType.Float64 | DataType.Decimal =>
        OK match value with
           | VNumber n => negb (Number_isNaN n)
           | _ => false
           end
    | DataType.Int64 | DataType.UInt64 =>
        OK (TypeTag_eqb (typeof value) TBigInt || TypeTag_eqb (typeof value) TNumber)
    | DataType.Boolean => OK (TypeTag_eqb (typeof value) TBoolean)
    | DataType.String | DataType.FixedString | DataType.UUID
    | DataType.IPv4 | DataType.IPv6 =>
        match value with
        | VString s =>
            match Col.type column, Col.length column with
            | DataType.FixedString, Some len =>
                if number_truthy len
                then OK (num_le (ofNat (String.length s)) len)
                else OK true
            | _, _ => OK true
            end
        | _ => OK false
        end
    | DataType.Date | DataType.Date32 | DataType.DateTime | DataType.DateTime64 =>
        if instanceofDate value then OK true
        else s <- ToString value ;; OK (negb (Number_isNaN (Date_parse host s)))
    | DataType.Array => OK (Array_isArray value)
    | DataType.JSON | DataType.Map =>
        OK (TypeTag_eqb (typeof value) TObject && negb (isNullish value))
    | DataType.Enum8 | DataType.Enum16 =>
        match value with
        | VString s =>
            match Col.enumValues column with
            | Some enumValues => OK (existsb (String.eqb s) enumValues)
            | None => OK true
            end
        | _ => OK false
        end
    | _ => OK true
    end.

End TypeMapper.

(* ================================================================== *)
(** * src/utils/validator.ts *)

Definition isLetter (c : ascii) : bool :=
  let n := N_of_ascii c in
  ((65 <=? n) && (n <=? 90) || (97 <=? n) && (n <=? 122))%N.

Definition isDigit (c : ascii) : bool :=
  let n := N_of_ascii c in
  ((48 <=? n) && (n <=? 57))%N.

Definition isUnderscore (c : ascii) : bool := (N_of_ascii c =? 95)%N.

Fixpoint allChars (p : ascii -> bool) (s : string) : bool :=
  match s with
  | EmptyString => true
  | String.String c rest => p c && allChars p rest
  end.

(** [/^[a-zA-Z_][a-zA-Z0-9_]*$/.test(identifier)] *)
Definition isValidIdentifier (identifier : string) : bool :=
  match identifier with
  | EmptyString => false
  | String.String c rest =>
      (isLetter c || isUnderscore c)
      && allChars (fun d => isLetter d || isDigit d || isUnderscore d) rest
  end.

(** A [ValidationError] built from a message alone, or a message and a field. *)
Definition validationError (message : string) : Error :=
  ValidationError message None VUndefined None.

Definition validationErrorAt (message field : string) : Error :=
  ValidationError message (Some field) VUndefined None.

(** [void] functions return [tt] when they do not throw. *)
Definition check (failed : bool) (e : Error) : Result unit :=
  if failed then Err e else OK tt.

(** [!n] on an optional number *)
Definition missingNumber (o : option JsNumber) : bool :=
  match o with
  | Some n => negb (number_truthy n)
  | None => true
  end.

Definition isIntegerType (t : DataType.t) : bool :=
  match t with
  | DataType.UInt8 | DataType.UInt16 | DataType.UInt32 | DataType.UInt64
  | DataType.Int8 | DataType.Int16 | DataType.Int32 | DataType.Int64 => true
  | _ => false
  end.

Section Validator.

Variable host : Host.

Local Open Scope result_scope.

(** [column.type] is an enum member, a non-empty string, so the leading
    [!column.type] test never fires and is left out. *)
Definition validateColumnDefinition (fieldName : string) (column : ColumnDefinition)
  : Result unit :=
  _ <- check (negb (isValidIdentifier fieldName))
         (validationErrorAt
            ("Invalid field name '" ++ fieldName
             ++ "'. Field names must start with a letter or underscore and contain only alphanumeric characters and underscores.")
            fieldName) ;;
  _ <- match Col.type column with
       | DataType.FixedString =>
           check (missingNumber (Col.length column)
                  || match Col.length column with
                     | Some n => num_le n (ofZ 0)
                     | None => false
                     end)
             (validationErrorAt
                ("FixedString column '" ++ fieldName ++ "' requires a positive length")
                fieldName)
       | DataType.Decimal =>
           _ <- check (missingNumber (Col.precision column)
                       || match Col.precision column with
                          | Some n => num_le n (ofZ 0)
                          | None => false
                          end)
                  (validationErrorAt
                     ("Decimal column '" ++ fieldName ++ "' requires a positive precision")
                     fieldName) ;;
           check match Col.scale column, Col.precision column with
                 | Some sc, Some pr => num_lt sc (ofZ 0) || num_gt sc pr
                 | _, _ => false
                 end
             (validationErrorAt
                ("Decimal column '" ++ fieldName ++ "' scale must be between 0 and precision")
                fieldName)
       | DataType.Array | DataType.LowCardinality =>
           check match Col.elementType column with
                 | None => true
                 | Some _ => false
                 end
             (validationErrorAt
                (DataType.toString (Col.type column) ++ " column '" ++ fieldName
                 ++ "' requires elementType")
                fieldName)
       | DataType.Enum8 | DataType.Enum16 =>
           match Col.enumValues column with
           | None | Some [] =>
               Err (validationErrorAt
                      ("Enum column '" ++ fieldName ++ "' requires enumValues") fieldName)
           | Some enumValues =>
               let maxValues :=
                 match Col.type column with
                 | DataType.Enum8 => 256%N
                 | _ => 65536%N
                 end in
               check (maxValues <? N.of_nat (List.length enumValues))%N
                 (validationErrorAt
                    (DataType.toString (Col.type column) ++ " column '" ++ fieldName
                     ++ "' cannot have more than " ++ dec_N maxValues ++ " values")
                    fieldName)
           end
       | _ => OK tt
       end ;;
  _ <- check (flag (Col.primaryKey column) && flag (Col.nullable column))
         (validationErrorAt
            ("Primary key column '" ++ fieldName ++ "' cannot be nullable") fieldName) ;;
  check (flag (Col.autoIncrement column) && negb (isIntegerType (Col.type column)))
    (validationErrorAt
       ("Auto increment is only supported for integer types, but column '"
        ++ fieldName ++ "' is " ++ DataType.toString (Col.type column))
       fieldName).

(** [for (const [k, v] of entries) f(k, v)] for a [void] body that may throw *)
Fixpoint forEach {A : Type} (f : string -> A -> Result unit) (entries : list (string * A))
  : Result unit :=
  match entries with
  | [] => OK tt
  | (k, v) :: rest => _ <- f k v ;; forEach f rest
  end.

(** [fields.filter((field) => schema[field]?.primaryKey)] *)
Definition primaryKeysOf (schema : SchemaDefinition) (fields : list string) : list string :=
  filter (fun field =>
            match lookup field schema with
            | Some column => flag (Col.primaryKey column)
            | None => false
            end) fields.

Definition validateSchema (schema : SchemaDefinition) : Result unit :=
  let fields := map fst schema in
  _ <- check (List.length fields =? 0)%nat
         (validationError "Schema must have at least one field") ;;
  let primaryKeys := primaryKeysOf schema fields in
  _ <- check (1 <? List.length primaryKeys)%nat
         (validationError
            ("Multiple primary keys found: " ++ join ", " primaryKeys
             ++ ". Only one primary key is allowed.")) ;;
  forEach validateColumnDefinition schema.

(** [schemaFields.has(field)] *)
Definition hasField (schema : SchemaDefinition) (field : string) : bool :=
  existsb (String.eqb field) (map fst schema).

(** [data[field]], for a record that inherits no property under that
    name. *)
Definition getField (data : list (string * JsValue)) (field : string) : JsValue :=
  match lookup field data with
  | Some v => v
  | None => VUndefined
  end.

(** The unknown-field loop shared by [validateData] and [validatePartialData]. *)
Definition checkUnknownFields (data : list (string * JsValue)) (schema : SchemaDefinition)
  : Result unit :=
  forEach (fun field (_ : JsValue) =>
             check (negb (hasField schema field))
               (ValidationError ("Unknown field '" ++ field ++ "'")
                  (Some field) (getField data field) None))
    data.

Definition invalidValue (fieldName : string) (column : ColumnDefinition) (value : JsValue)
  : Error :=
  ValidationError
    ("Invalid value for field '" ++ fieldName ++ "': expected "
     ++ DataType.toString (Col.type column))
    (Some fieldName) value (Some "type").

Definition validateData (data : list (string * JsValue)) (schema : SchemaDefinition)
  : Result unit :=
  _ <- checkUnknownFields data schema ;;
  forEach (fun fieldName column =>
             let value := getField data fieldName in
             if isNullish value then
               check (negb (flag (Col.nullable column))
                      && match Col.default column with
                         | None => true
                         | Some _ => false
                         end
                      && negb (flag (Col.autoIncrement column)))
                 (ValidationError ("Field '" ++ fieldName ++ "' is required")
                    (Some fieldName) value (Some "required"))
             else
               valid <- validateValue host value column ;;
               check (negb valid) (invalidValue fieldName column value))
    schema.

Definition validatePartialData (data : list (string * JsValue)) (schema : SchemaDefinition)
  : Result unit :=
  _ <- checkUnknownFields data schema ;;
  forEach (fun fieldName value =>
             match lookup fieldName schema with
             | None => OK tt
             | Some column =>
                 _ <- check (flag (Col.primaryKey column))
                        (ValidationError
                           ("Cannot update primary key field '" ++ fieldName ++ "'")
                           (Some fieldName) value (Some "primaryKey")) ;;
                 if negb (isNullish value) then
                   valid <- validateValue host value column ;;
                   check (negb valid) (invalidValue fieldName column value)
                 else OK tt
             end)
    data.

Definition validateTableName (tableName : string) : Result unit :=
  _ <- check (tableName =? "")
         (validationError "Table name must be a non-empty string") ;;
  _ <- check (negb (isValidIdentifier tableName))
         (validationError
            ("Invalid table name '" ++ tableName
             ++ "'. Table names must start with a letter or underscore and contain only alphanumeric characters and underscores.")) ;;
  check (64 <? String.length tableName)%nat
    (validationError
       ("Table name '" ++ tableName ++ "' is too long. Maximum length is 64 characters.")).

(* ------------------------------------------------------------------ *)
(** ** src/core/schema.ts *)

(** The fields a [TableSchema] instance holds after construction. *)
Record TableSchema : Type := {
  name : string;
  schema : SchemaDefinition;
  columnNames : list string;
  primaryKeyColumn : option string
}.

(** [new TableSchema(name, schema)] *)
Definition TableSchema_new (name : string) (schema : SchemaDefinition) : Result TableSchema :=
  _ <- validateTableName name ;;
  _ <- validateSchema schema ;;
  let columnNames := map fst schema in
  let primaryKeys := primaryKeysOf schema columnNames in
  OK {| name := name;
        schema := schema;
        columnNames := columnNames;
        primaryKeyColumn := hd_error primaryKeys |}.

End Validator.

(* ================================================================== *)
(** * src/core/types.ts: type guards *)

(** [isRawExpression]: an object carrying [_brand === 'RawExpression'] *)
Definition isRawExpression (value : JsValue) : bool :=
  match value with
  | VObject props =>
      match lookup "_brand" props with
      | Some (VString brand) => brand =? "RawExpression"
      | _ => false
      end
  | _ => false
  end.

(** The operator vocabulary of [isWhereOperator]. *)
Definition validKeys : list string :=
  ["eq"; "ne"; "gt"; "gte"; "lt"; "lte"; "in"; "notIn"; "like"; "notLike";
   "ilike"; "between"; "isNull"; "notNull"].

(** [validKeys.includes(key)] *)
Definition includes (keys : list string) (key : string) : bool :=
  existsb (String.eqb key) keys.

(** [isWhereOperator]: a non-null object some key of which is in the
    vocabulary. *)
Definition isWhereOperator (value : JsValue) : bool :=
  if negb (TypeTag_eqb (typeof value) TObject) || isNullish value then false
  else
    match Object_keys value with
    | Some keys => existsb (includes validKeys) keys
    | None => false
    end.

(* ================================================================== *)
(** * src/query/where.ts *)

(** The part of [SQLBuilder] the condition compiler calls. *)
Record SQLBuilder : Type := {
  identifier : string -> Result string
}.

(** Modelled from the spec: [SQLBuilder.identifier] (src/utils/sql-builder.ts
    is not among the sources).  The identifier-quoting utility rejects, with
    a validation failure, any name outside the identifier grammar
    [^[A-Za-z_][A-Za-z0-9_]*$] and emits accepted names backtick-quoted. *)
Definition quoteIdentifier (field : string) : Result string :=
  if isValidIdentifier field
  then OK ("`" ++ field ++ "`")
  else Err (ValidationError ("Invalid SQL identifier: " ++ field)
              (Some "identifier") (VString field) None).

Definition specSQLBuilder : SQLBuilder := {| identifier := quoteIdentifier |}.

(** [this.params[paramName] = value] on an object literal. *)
Fixpoint setProperty (key : string) (v : JsValue) (props : list (string * JsValue))
  : list (string * JsValue) :=
  match props with
  | [] => [(key, v)]
  | (k, x) :: rest =>
      if k =? key then (k, v) :: rest else (k, x) :: setProperty key v rest
  end.

(** The mutable fields of a [WhereBuilder]. *)
Record BuilderState : Type := {
  this_params : list (string * JsValue);
  this_paramCounter : nat
}.

(** A method of the builder: reads and updates the fields, may throw. *)
Definition M (A : Type) : Type := BuilderState -> Result (A * BuilderState).

Definition ret {A : Type} (a : A) : M A := fun st => OK (a, st).

Definition throw {A : Type} (e : Error) : M A := fun _ => Err e.

Definition mbind {A B : Type} (m : M A) (k : A -> M B) : M B :=
  fun st =>
    match m st with
    | OK (a, st') => k a st'
    | Err e => Err e
    end.

Definition lift {A : Type} (r : Result A) : M A :=
  fun st =>
    match r with
    | OK a => OK (a, st)
    | Err e => Err e
    end.

Declare Scope builder_scope.
Delimit Scope builder_scope with builder.
Notation "x <- e ;; k" := (mbind e (fun x => k))
  (at level 61, e at next level, right associativity) : builder_scope.

(** [xs.map((x) => f(x))] for a callback that uses the builder. *)
Definition mapM {A B : Type} (f : A -> M B) : list A -> M (list B) :=
  fix go (xs : list A) : M (list B) :=
    match xs with
    | [] => ret []
    | x :: rest => (b <- f x ;; bs <- go rest ;; ret (b :: bs))%builder
    end.

(** What [build] returns. *)
Record BuildResult : Type := {
  sql : string;
  params : list (string * JsValue)
}.

Definition isAndKey (key : string) : bool := (key =? "and") || (key =? "$and").
Definition isOrKey (key : string) : bool := (key =? "or") || (key =? "$or").
Definition isNotKey (key : string) : bool := (key =? "not") || (key =? "$not").
Definition isCombinatorKey (key : string) : bool :=
  isAndKey key || isOrKey key || isNotKey key.

(** [.filter(Boolean)] on strings *)
Definition nonEmpty (s : string) : bool := negb (s =? "").

(** The fragments a loop pushed, given what each iteration pushed. *)
Definition pushed {A : Type} (parts : list (option A)) : list A :=
  flat_map (fun p => match p with Some s => [s] | None => [] end) parts.

Section WhereBuilder.

Variable host : Host.
Variable sqlBuilder : SQLBuilder.
Variable startingParamCount : nat.

Local Open Scope builder_scope.

Definition inferParamType (value : JsValue) : string :=
  if isNullish value then "Nullable(String)"
  else
    match value with
    | VNumber n => if Number_isInteger n then "Int32" else "Float64"
    | VBigInt _ => "Int64"
    | VString _ => "String"
    | VBool _ => "UInt8"
    | VDate _ => "DateTime"
    | VArray _ => "Array(String)"
    | _ => "String"
    end.

Definition addParam (value : JsValue) : M string :=
  fun st =>
    let paramName := "param" ++ dec_nat (this_paramCounter st) in
    OK ("{" ++ paramName ++ ":" ++ inferParamType value ++ "}",
        {| this_params := setProperty paramName value (this_params st);
           this_paramCounter := S (this_paramCounter st) |}).

(** One iteration of the loop of [processOperators]: the fragment pushed
    for the entry [op: value]. *)
Definition processOperator (fieldName op : string) (value : JsValue) : M string :=
  if op =? "eq" then
    match value with
    | VNull => ret (fieldName ++ " IS NULL")
    | _ => p <- addParam value ;; ret (fieldName ++ " = " ++ p)
    end
  else if op =? "ne" then
    match value with
    | VNull => ret (fieldName ++ " IS NOT NULL")
    | _ => p <- addParam value ;; ret (fieldName ++ " != " ++ p)
    end
  else if op =? "gt" then p <- addParam value ;; ret (fieldName ++ " > " ++ p)
  else if op =? "gte" then p <- addParam value ;; ret (fieldName ++ " >= " ++ p)
  else if op =? "lt" then p <- addParam value ;; ret (fieldName ++ " < " ++ p)
  else if op =? "lte" then p <- addParam value ;; ret (fieldName ++ " <= " ++ p)
  else if op =? "in" then
    match value with
    | VArray [] => ret "1=0"
    | VArray vs =>
        ps <- mapM addParam vs ;;
        ret (fieldName ++ " IN (" ++ join ", " ps ++ ")")
    | _ => throw (ValidationError "IN operator requires an array" None value None)
    end
  else if op =? "notIn" then
    match value with
    | VArray [] => ret "1=1"
    | VArray vs =>
        ps <- mapM addParam vs ;;
        ret (fieldName ++ " NOT IN (" ++ join ", " ps ++ ")")
    | _ => throw (ValidationError "NOT IN operator requires an array" None value None)
    end
  else if op =? "like" then p <- addParam value ;; ret (fieldName ++ " LIKE " ++ p)
  else if op =? "notLike" then p <- addParam value ;; ret (fieldName ++ " NOT LIKE " ++ p)
  else if op =? "ilike" then p <- addParam value ;; ret (fieldName ++ " ILIKE " ++ p)
  else if op =? "between" then
    match value with
    | VArray [lo; hi] =>
        p0 <- addParam lo ;;
        p1 <- addParam hi ;;
        ret (fieldName ++ " BETWEEN " ++ p0 ++ " AND " ++ p1)
    | _ =>
        throw (ValidationError "BETWEEN operator requires an array of 2 values"
                 None value None)
    end
  else if op =? "isNull" then
    ret (if truthy value then fieldName ++ " IS NULL" else fieldName ++ " IS NOT NULL")
  else if op =? "notNull" then
    ret (if truthy value then fieldName ++ " IS NOT NULL" else fieldName ++ " IS NULL")
  else throw (validationError ("Unknown operator: " ++ op)).

(** [processOperators]: every iteration pushes exactly one fragment. *)
Definition processOperators (fieldName : string) (operators : list (string * JsValue))
  : M string :=
  parts <- mapM (fun entry => processOperator fieldName (fst entry) (snd entry)) operators ;;
  ret (join " AND " parts).

(** [(value as RawExpression).sql]: whatever the object carries there,
    [undefined] if nothing. *)
Definition rawSql (value : JsValue) : JsValue :=
  match value with
  | VObject props =>
      match lookup "sql" props with
      | Some s => s
      | None => VUndefined
      end
  | _ => VUndefined
  end.

(** [processFieldCondition]: declared to return a string, it returns the
    [sql] of a raw expression as it is, and a string in the other cases. *)
Definition processFieldCondition (field : string) (value : JsValue) : M JsValue :=
  fieldName <- lift (identifier sqlBuilder field) ;;
  if isRawExpression value then ret (rawSql value)
  else if isNullish value then ret (VString (fieldName ++ " IS NULL"))
  else if isWhereOperator value then
    match Object_entries value with
    | Some operators =>
        text <- processOperators fieldName operators ;; ret (VString text)
    | None => throw TypeError
    end
  else p <- addParam value ;; ret (VString (fieldName ++ " = " ++ p)).

(** [conditions.map((c) => this.processCondition(c)).filter(Boolean)] joined
    and parenthesized; [value.map] is a [TypeError] unless [value] is an
    array. *)
Definition processGroup (recur : JsValue -> M string) (op : string) (value : JsValue)
  : M (option JsValue) :=
  match value with
  | VArray conditions =>
      results <- mapM recur conditions ;;
      let kept := filter nonEmpty results in
      ret (if (0 <? List.length kept)%nat
           then Some (VString ("(" ++ join op kept ++ ")"))
           else None)
  | _ => throw TypeError
  end.

(** The loop of [processCondition] over [Object.entries(condition)], with
    [recur] for the recursive call; each iteration pushes at most one
    fragment onto [parts]: a string, or the [sql] of a raw expression when
    it is truthy. *)
Definition processEntries (recur : JsValue -> M string)
  : list (string * JsValue) -> M (list (option JsValue)) :=
  fix loop (entries : list (string * JsValue)) : M (list (option JsValue)) :=
    match entries with
    | [] => ret []
    | (key, value) :: rest =>
        part <- (if isAndKey key then processGroup recur " AND " value
                 else if isOrKey key then processGroup recur " OR " value
                 else if isNotKey key then
                   notCondition <- recur value ;;
                   ret (if nonEmpty notCondition
                        then Some (VString ("NOT (" ++ notCondition ++ ")"))
                        else None)
                 else
                   fieldCondition <- processFieldCondition key value ;;
                   ret (if truthy fieldCondition then Some fieldCondition else None)) ;;
        parts <- loop rest ;;
        ret (part :: parts)
    end.

(** [processCondition]; the final [parts.join(' AND ')] converts each
    fragment to a string.  The entries of a value that is no plain object
    (array, string, number, ...) have index keys, never a combinator key, so
    the recursive call is not reached for them (see
    [processCondition_unfold]). *)
Fixpoint processCondition (condition : JsValue) : M string :=
  match condition with
  | VObject props =>
      parts <- processEntries processCondition props ;;
      lift (Array_join host " AND " (pushed parts))
  | _ =>
      match Object_entries condition with
      | Some entries =>
          parts <- processEntries (fun _ => throw TypeError) entries ;;
          lift (Array_join host " AND " (pushed parts))
      | None => throw TypeError
      end
  end.

Definition build (condition : JsValue) : Result BuildResult :=
  match processCondition condition
          {| this_params := []; this_paramCounter := startingParamCount |} with
  | OK (sql, st) =>
      OK {| sql := if nonEmpty sql then sql else "1=1";
            params := this_params st |}
  | Err e => Err e
  end.

End WhereBuilder.

(* ================================================================== *)
(** * Vocabulary of the statements *)

(** A host fragment for evaluating the functions on concrete inputs:
    integral numbers print in decimal (as the host prints them below 1e21)
    and decimal integer literals convert to bigints; the remaining
    primitives are not exercised by the examples. *)
Definition exampleHost : Host := {|
  Number_toString := fun n =>
    match n with
    | Finite q => dec_Z (Qtrunc q)
    | NaN => "NaN"
    | PosInfinity => "Infinity"
    | NegInfinity => "-Infinity"
    end;
  StringToNumber := fun _ => NaN;
  StringToBigInt := fun s => option_map Z.of_int (NilZero.int_of_string s);
  RoundToDouble := ofZ;
  Date_parse := fun _ => NaN;
  Date_toString := fun _ => "Invalid Date";
  JSON_parse := fun _ => None
|}.

(** The required parameter of a parameterized kind is absent: [length] for
    FixedString, [precision] for Decimal and DateTime64, [elementType] for
    Array and LowCardinality, [enumValues] for Enum8 and Enum16. *)
Definition missingRequiredParameter (column : ColumnDefinition) : bool :=
  match Col.type column with
  | DataType.FixedString =>
      match Col.length column with None => true | Some _ => false end
  | DataType.Decimal | DataType.DateTime64 =>
      match Col.precision column with None => true | Some _ => false end
  | DataType.Array | DataType.LowCardinality =>
      match Col.elementType column with None => true | Some _ => false end
  | DataType.Enum8 | DataType.Enum16 =>
      match Col.enumValues column with None => true | Some _ => false end
  | _ => false
  end.

(** The [Nullable(...)] wrapper applied last by [getClickHouseType]. *)
Definition wrapNullable (column : ColumnDefinition) (typeStr : string) : string :=
  if flag (Col.nullable column) then "Nullable(" ++ typeStr ++ ")" else typeStr.

(** [z] lies between [MIN_SAFE_INTEGER] and [MAX_SAFE_INTEGER] inclusive. *)
Definition isSafeInteger (z : Z) : bool :=
  ((MIN_SAFE_INTEGER <=? z) && (z <=? MAX_SAFE_INTEGER))%Z.

(** [typeof value] is ['number'] or ['bigint']. *)
Definition isNumberOrBigInt (value : JsValue) : bool :=
  match typeof value with
  | TNumber | TBigInt => true
  | _ => false
  end.

(** The names of the columns flagged [primaryKey], in schema order. *)
Definition primaryKeyColumns (schema : SchemaDefinition) : list string :=
  map fst (filter (fun entry => flag (Col.primaryKey (snd entry))) schema).

(** The message of the duplicate-primary-key failure. *)
Definition multiplePrimaryKeys (names : list string) : Error :=
  validationError
    ("Multiple primary keys found: " ++ join ", " names
     ++ ". Only one primary key is allowed.").

(** [String(value)] throws: the value is an object whose own [toString]
    property hides the method, or an array with such an element, at any
    depth. *)
Fixpoint unprintable (value : JsValue) : bool :=
  match value with
  | VArray xs => existsb unprintable xs
  | VObject props => shadowsToString props
  | _ => false
  end.

(** The date and time kinds. *)
Definition isDateKind (t : DataType.t) : bool :=
  match t with
  | DataType.Date | DataType.Date32 | DataType.DateTime | DataType.DateTime64 => true
  | _ => false
  end.

(** The validity check of the column converts the value to a string and
    the conversion throws: a date or time column, a value that is no [Date]
    and cannot be printed. *)
Definition validityThrows (value : JsValue) (column : ColumnDefinition) : bool :=
  isDateKind (Col.type column) && negb (instanceofDate value) && unprintable value.

(** The column's validity check returns [false] on the value. *)
Definition failsValidity (host : Host) (value : JsValue) (column : ColumnDefinition) : bool :=
  match validateValue host value column with
  | OK false => true
  | _ => false
  end.

(** An entry of a partial record that an update refuses: its column is the
    primary key, or its value is neither [null] nor [undefined] and the
    column's validity check returns [false] on it or throws. *)
Definition refusedUpdate (host : Host) (schema : SchemaDefinition)
           (entry : string * JsValue) : bool :=
  match lookup (fst entry) schema with
  | Some column =>
      flag (Col.primaryKey column)
      || negb (isNullish (snd entry))
         && (failsValidity host (snd entry) column
             || validityThrows (snd entry) column)
  | None => false
  end.

(** The name and the placeholder of the [i]-th parameter. *)
Definition paramName (i : nat) : string := "param" ++ dec_nat i.

Definition placeholder (i : nat) (value : JsValue) : string :=
  "{" ++ paramName i ++ ":" ++ inferParamType value ++ "}".

(** The placeholders and the parameter-map entries of a run of values bound
    in order from counter [start]: one per value. *)
Definition placeholders (start : nat) (values : list JsValue) : list string :=
  mapi_from start (fun v i => placeholder i v) values.

Definition boundParams (start : nat) (values : list JsValue) : list (string * JsValue) :=
  mapi_from start (fun v i => (paramName i, v)) values.

(** No parameter at or after the counter is bound yet. *)
Definition fresh (st : BuilderState) : Prop :=
  forall j, this_paramCounter st <= j -> lookup (paramName j) (this_params st) = None.

(** The builder's fields as [build] resets them. *)
Definition initialState (start : nat) : BuilderState :=
  {| this_params := []; this_paramCounter := start |}.

(** The condition tree [{ field: { op: value } }]. *)
Definition fieldOperator (field op : string) (value : JsValue) : JsValue :=
  VObject [(field, VObject [(op, value)])].

(** An operator entry whose value has the shape its operator demands:
    an array for [in] and [notIn], a two-element array for [between]. *)
Definition wellShaped (entry : string * JsValue) : bool :=
  let (op, value) := entry in
  if (op =? "in") || (op =? "notIn") then Array_isArray value
  else if op =? "between" then
    match value with
    | VArray [_; _] => true
    | _ => false
    end
  else true.

(** What [processOperators] throws on an [in], [notIn] or [between] entry
    whose value has not the shape the operator demands. *)
Definition malformedError (entry : string * JsValue) : Error :=
  let (op, value) := entry in
  ValidationError
    (if op =? "in" then "IN operator requires an array"
     else if op =? "notIn" then "NOT IN operator requires an array"
     else "BETWEEN operator requires an array of 2 values")
    None value None.

(** The first entry of a list that has not the shape its operator demands. *)
Definition firstMalformed (operators : list (string * JsValue))
  : option (string * JsValue) :=
  find (fun entry => negb (wellShaped entry)) operators.

(** The entries before the first key outside the vocabulary, and that key. *)
Fixpoint knownPrefix (operators : list (string * JsValue)) : list (string * JsValue) :=
  match operators with
  | [] => []
  | (op, value) :: rest =>
      if includes validKeys op then (op, value) :: knownPrefix rest else []
  end.

Definition firstUnknownKey (operators : list (string * JsValue)) : option string :=
  find (fun op => negb (includes validKeys op)) (map fst operators).

(** ** Sample inputs *)

Definition num (z : Z) : JsValue := VNumber (ofZ z).

(** [{ type: t, primaryKey: true }] and [{ type: t, nullable: true }] *)
Definition keyColumn (t : DataType.t) : ColumnDefinition :=
  Col.mk t None (Some true) None None None None None None None None None.

Definition nullableColumn (t : DataType.t) : ColumnDefinition :=
  Col.mk t (Some true) None None None None None None None None None None.

(** [{ id: UInt32 primaryKey, name: String, age: UInt8 nullable }] *)
Definition usersSchema : SchemaDefinition :=
  [("id", keyColumn DataType.UInt32);
   ("name", Col.ofType DataType.String);
   ("age", nullableColumn DataType.UInt8)].

(** Two columns flagged [primaryKey]. *)
Definition twoKeysSchema : SchemaDefinition :=
  [("id", keyColumn DataType.UInt32);
   ("code", keyColumn DataType.UInt32);
   ("name", Col.ofType DataType.String)].

(* ================================================================== *)
(** * src/utils/type-mapper.ts: the remaining functions *)

(** [a === b] on enum members, which are strings. *)
Definition DataType_eqb (a b : DataType.t) : bool :=
  DataType.toString a =? DataType.toString b.

(** [types.includes(t)] *)
Definition includesType (types : list DataType.t) (t : DataType.t) : bool :=
  existsb (DataType_eqb t) types.

Definition numericTypes : list DataType.t :=
  [DataType.UInt8; DataType.UInt16; DataType.UInt32; DataType.UInt64;
   DataType.Int8; DataType.Int16; DataType.Int32; DataType.Int64;
   DataType.Float32; DataType.Float64; DataType.Decimal].

Definition stringTypes : list DataType.t :=
  [DataType.String; DataType.FixedString; DataType.UUID].

Definition dateTypes : list DataType.t :=
  [DataType.Date; DataType.Date32; DataType.DateTime; DataType.DateTime64].

Definition areTypesCompatible (source target : DataType.t) : bool :=
  if DataType_eqb source target then true
  else if includesType numericTypes source && includesType numericTypes target then true
  else if includesType stringTypes source && includesType stringTypes target then true
  else if includesType dateTypes source && includesType dateTypes target then true
  else false.

Definition inferClickHouseType (value : JsValue) : DataType.t :=
  if isNullish value then DataType.Nullable
  else
    match value with
    | VNumber n => if Number_isInteger n then DataType.Int32 else DataType.Float64
    | VBigInt _ => DataType.Int64
    | VString _ => DataType.String
    | VBool _ => DataType.Boolean
    | VDate _ => DataType.DateTime
    | VArray _ => DataType.Array
    | _ => DataType.JSON
    end.

Definition getDefaultValue (dataType : DataType.t) : JsValue :=
  match dataType with
  | DataType.UInt8 | DataType.UInt16 | DataType.UInt32
  | DataType.Int8 | DataType.Int16 | DataType.Int32
  | DataType.Float32 | DataType.Float64 | DataType.Decimal => VNumber (ofZ 0)
  | DataType.UInt64 | DataType.Int64 => VBigInt 0
  | DataType.Boolean => VBool false
  | DataType.String | DataType.FixedString | DataType.UUID
  | DataType.IPv4 | DataType.IPv6 => VString ""
  | DataType.Date | DataType.Date32 | DataType.DateTime | DataType.DateTime64 =>
      VDate (ofZ 0)
  | DataType.Array => VArray []
  | DataType.JSON | DataType.Map => VObject []
  | _ => VNull
  end.

Section WireEncoding.

Variable host : Host.
(** [Date.prototype.toISOString] on a valid time value *)
Variable Date_toISOString : Q -> string.
(** [JSON.stringify] on an object; [None] when it throws *)
Variable JSON_stringify : JsValue -> option string.

Local Open Scope result_scope.

(** [date.toISOString()]: a [RangeError] on an invalid date. *)
Definition toISOString (t : JsNumber) : Result string :=
  match t with
  | Finite q => OK (Date_toISOString q)
  | _ => Err RangeError
  end.

Definition toClickHouseValue (value : JsValue) (dataType : DataType.t) : Result JsValue :=
  if isNullish value then OK VNull
  else
    match dataType with
    | DataType.UInt8 | DataType.UInt16 | DataType.UInt32
    | DataType.Int8 | DataType.Int16 | DataType.Int32
    | DataType.Float32 | DataType.Float64 | DataType.Decimal =>
        n <- ToNumber host value ;; OK (VNumber n)
    | DataType.UInt64 | DataType.Int64 =>
        match value with
        | VBigInt z => OK (VBigInt z)
        | _ => z <- ToBigInt host value ;; OK (VBigInt z)
        end
    | DataType.Boolean => OK (VBool (truthy value))
    | DataType.String | DataType.FixedString | DataType.UUID
    | DataType.IPv4 | DataType.IPv6 =>
        s <- ToString host value ;; OK (VString s)
    | DataType.Date | DataType.Date32 | DataType.DateTime | DataType.DateTime64 =>
        match value with
        | VDate t => iso <- toISOString t ;; OK (VString iso)
        | _ =>
            date <- Date_construct host value ;;
            match date with
            | VDate t => iso <- toISOString t ;; OK (VString iso)
            | _ => Err TypeError
            end
        end
    | DataType.Array =>
        if negb (Array_isArray value)
        then Err (TypeMappingError "Expected array value"
                    (Some (typeofString value)) (Some "Array") (OfValue value))
        else OK value
    | DataType.JSON | DataType.Map =>
        if negb (TypeTag_eqb (typeof value) TObject)
        then Err (TypeMappingError "Expected object value"
                    (Some (typeofString value)) (Some (DataType.toString dataType))
                    (OfValue value))
        else
          match JSON_stringify value with
          | Some text => OK (VString text)
          | None => Err TypeError
          end
    | _ => OK value
    end.

End WireEncoding.

(** ** Vocabulary for the type mapper's properties *)



(** The kinds for which [getDefaultValue] has a zero value (the others
    give [null]). *)
Definition hasZeroValue (t : DataType.t) : bool :=
  match t with
  | DataType.Enum8 | DataType.Enum16 | DataType.Tuple | DataType.Nested
  | DataType.Nullable | DataType.LowCardinality => false
  | _ => true
  end.

(** What [validateValue] answers on a value checked against the kind
    [inferClickHouseType] gives it: integers are inferred as Int32 whatever
    their size, and [NaN] as Float64. *)
Definition acceptedAsInferred (value : JsValue) : bool :=
  match value with
  | VNumber n =>
      if Number_isInteger n
      then num_ge n (ofZ (-2147483648)) && num_le n (ofZ 2147483647)
      else negb (Number_isNaN n)
  | _ => true
  end.

(** A value in the representation a kind's conversions keep unchanged:
    numbers for the 32-bit and floating kinds, safe integral numbers and
    bigints beyond the safe range for the 64-bit kinds, booleans, strings
    for the string-like and enum kinds, arrays for Array; anything for the
    kinds both conversions pass through. *)
Definition keptByConversions (dataType : DataType.t) (value : JsValue) : bool :=
  match dataType with
  | DataType.UInt8 | DataType.UInt16 | DataType.UInt32
  | DataType.Int8 | DataType.Int16 | DataType.Int32
  | DataType.Float32 | DataType.Float64 | DataType.Decimal =>
      match value with VNumber _ => true | _ => false end
  | DataType.UInt64 | DataType.Int64 =>
      match value with
      | VBigInt z => negb (isSafeInteger z)
      | _ => false
      end
  | DataType.Boolean => match value with VBool _ => true | _ => false end
  | DataType.String | DataType.FixedString | DataType.UUID
  | DataType.IPv4 | DataType.IPv6 | DataType.Enum8 | DataType.Enum16 =>
      match value with VString _ => true | _ => false end
  | DataType.Array => Array_isArray value
  | DataType.Tuple | DataType.Nested | DataType.Nullable | DataType.LowCardinality =>
      negb (isNullish value)
  | _ => false
  end.

(** The value has the wrong shape for a structural kind: no array for
    Array, no object for JSON and Map. *)
Definition wrongShape (dataType : DataType.t) (value : JsValue) : bool :=
  match dataType with
  | DataType.Array => negb (Array_isArray value)
  | DataType.JSON | DataType.Map => negb (TypeTag_eqb (typeof value) TObject)
  | _ => false
  end.

(* ================================================================== *)
(** * src/utils/validator.ts: the remaining validators *)

(** [input.replace(/\0/g, '')] *)
Fixpoint sanitizeInput (input : string) : string :=
  match input with
  | EmptyString => EmptyString
  | String.String c rest =>
      if Ascii.eqb c Ascii.zero then sanitizeInput rest
      else String.String c (sanitizeInput rest)
  end.

Module Rule.

(** [interface ValidationRule] *)
Record ValidationRule : Type := mk {
  validate : JsValue -> bool;
  message : string
}.

End Rule.

Definition createValidationRule (validate : JsValue -> bool) (message : string)
  : Rule.ValidationRule :=
  Rule.mk validate message.

Fixpoint applyValidationRules (value : JsValue) (rules : list Rule.ValidationRule)
         (fieldName : option string) : Result unit :=
  match rules with
  | [] => OK tt
  | rule :: rest =>
      if negb (Rule.validate rule value)
      then Err (ValidationError (Rule.message rule) fieldName value (Some "custom"))
      else applyValidationRules value rest fieldName
  end.

(** The operator list of [validateWhereCondition]. *)
Definition validOperators : list string :=
  ["eq"; "ne"; "gt"; "gte"; "lt"; "lte"; "in"; "notIn"; "like"; "notLike";
   "ilike"; "between"; "isNull"; "notNull"].

(** [for (const key of keys) body(key)] for a [void] body that may throw *)
Fixpoint forEachKey (body : string -> Result unit) (keys : list string) : Result unit :=
  match keys with
  | [] => OK tt
  | key :: rest => rbind (body key) (fun _ => forEachKey body rest)
  end.

Definition validateWhereCondition (condition : JsValue) : Result unit :=
  if isNullish condition then OK tt
  else if negb (TypeTag_eqb (typeof condition) TObject) then OK tt
  else
    match Object_keys condition with
    | Some keys =>
        forEachKey
          (fun key =>
             if (key =? "and") || (key =? "or") || (key =? "not") then OK tt
             else
               check (negb (includes validOperators key) && negb (isValidIdentifier key))
                 (ValidationError
                    ("Invalid WHERE condition operator or field: '" ++ key ++ "'")
                    (Some key) condition None))
          keys
    | None => Err TypeError
    end.

(** ** Vocabulary for the validator's properties *)

(** A column that a record may leave out or set to [null]: nullable, with
    a default, or auto-increment. *)
Definition mayBeOmitted (column : ColumnDefinition) : bool :=
  flag (Col.nullable column)
  || match Col.default column with Some _ => true | None => false end
  || flag (Col.autoIncrement column).

(** [data[fieldName]] in [validateData] finds an own property of the
    record or nothing: every column the record leaves out bears a name that
    no object inherits.  There [getField] is that property read. *)
Definition readsOwnFields (inheritedProperty : string -> bool)
           (data : list (string * JsValue)) (schema : SchemaDefinition) : bool :=
  forallb (fun field => includes (map fst data) field || negb (inheritedProperty field))
    (map fst schema).

(** What [validateData] demands of one column: its value in the record is
    [null] or [undefined] and the column may be omitted, or it passes the
    column's validity check. *)
Definition columnSatisfied (host : Host) (data : list (string * JsValue))
           (entry : string * ColumnDefinition) : bool :=
  let value := getField data (fst entry) in
  if isNullish value then mayBeOmitted (snd entry)
  else
    match validateValue host value (snd entry) with
    | OK true => true
    | _ => false
    end.

(** The first rule a value fails. *)
Definition firstFailedRule (value : JsValue) (rules : list Rule.ValidationRule)
  : option Rule.ValidationRule :=
  find (fun rule => negb (Rule.validate rule value)) rules.

(** The characters of a string. *)
Fixpoint charactersOf (s : string) : list ascii :=
  match s with
  | EmptyString => []
  | String.String c rest => c :: charactersOf rest
  end.

(* ================================================================== *)
(** * src/core/schema.ts: methods of [TableSchema] and [SchemaBuilder] *)

(** What a schema method throws: a [SchemaError] of its own, or the error
    of a validator it calls. *)
Inductive SchemaFailure : Type :=
| SchemaError (message : string) (tableName columnName : option string)
| Thrown (e : Error).

Inductive SchemaResult (A : Type) : Type :=
| Done (a : A)
| Failed (f : SchemaFailure).

Arguments Done {A} a.
Arguments Failed {A} f.

(** The line feed of the template literals. *)
Definition newline : string := String.String (ascii_of_nat 10) EmptyString.

(** [text.replace(/'/g, "''")] *)
Fixpoint escapeQuotes (text : string) : string :=
  match text with
  | EmptyString => EmptyString
  | String.String c rest =>
      if Ascii.eqb c "'"%char
      then String.String "'" (String.String "'" (escapeQuotes rest))
      else String.String c (escapeQuotes rest)
  end.

(** [{ ...object, [key]: value }]: an existing key keeps its place, a new
    one comes last. *)
Fixpoint setKey {A : Type} (key : string) (value : A) (props : list (string * A))
  : list (string * A) :=
  match props with
  | [] => [(key, value)]
  | (k, x) :: rest =>
      if k =? key then (k, value) :: rest else (k, x) :: setKey key value rest
  end.

(** [delete object[key]] *)
Definition deleteKey {A : Type} (key : string) (props : list (string * A))
  : list (string * A) :=
  filter (fun entry => negb (fst entry =? key)) props.

Module CreateTable.

(** The [options] of [toCreateTableSQL]; an absent option is [None]. *)
Record Options : Type := mk {
  engine : option string;
  orderBy : option (list string);
  partitionBy : option string;
  ifNotExists : option bool;
  settings : option (list (string * JsValue))
}.

(** No options given. *)
Definition none : Options := mk None None None None None.

End CreateTable.

(** [new TableSchema(name, schema)] inside a method. *)
Definition construct (tableName : string) (columns : SchemaDefinition)
  : SchemaResult TableSchema :=
  match TableSchema_new tableName columns with
  | OK ts => Done ts
  | Err e => Failed (Thrown e)
  end.

Section SchemaMethods.

Variable host : Host.
(** the property names every object inherits from [Object.prototype] *)
Variable inheritedProperty : string -> bool.

Local Open Scope result_scope.

(** [hasColumn]: [name in this.schema], which also sees inherited names. *)
Definition hasColumn (ts : TableSchema) (columnName : string) : bool :=
  hasField (schema ts) columnName || inheritedProperty columnName.



(** One iteration of the column loop of [toCreateTableSQL]. *)
Definition columnDef (entry : string * ColumnDefinition) : Result string :=
  colType <- getClickHouseType host (snd entry) ;;
  OK ("`" ++ fst entry ++ "` " ++ colType
      ++ match Col.comment (snd entry) with
         | Some text =>
             if nonEmpty text then " COMMENT '" ++ escapeQuotes text ++ "'" else ""
         | None => ""
         end).

(** The ordering clause: the explicit list, else the primary key, else the
    first column. *)
Definition orderByPart (ts : TableSchema) (options : CreateTable.Options) : string :=
  match CreateTable.orderBy options with
  | Some (col :: cols) =>
      "ORDER BY ("
      ++ join ", " (map (fun c => "`" ++ c ++ "`") (col :: cols)) ++ ")"
  | _ =>
      match primaryKeyColumn ts with
      | Some pk =>
          if nonEmpty pk then "ORDER BY `" ++ pk ++ "`"
          else "ORDER BY `" ++ hd "undefined" (columnNames ts) ++ "`"
      | None => "ORDER BY `" ++ hd "undefined" (columnNames ts) ++ "`"
      end
  end.

(** [`${key} = ${formattedValue}`] *)
Definition settingPart (entry : string * JsValue) : Result string :=
  formattedValue <- match snd entry with
                    | VString s => OK ("'" ++ s ++ "'")
                    | v => ToString host v
                    end ;;
  OK (fst entry ++ " = " ++ formattedValue).

Definition toCreateTableSQL (ts : TableSchema) (options : CreateTable.Options)
  : Result string :=
  columnDefs <- mapResult columnDef (schema ts) ;;
  settings <- match CreateTable.settings options with
              | Some (s :: ss) => mapResult settingPart (s :: ss)
              | _ => OK []
              end ;;
  OK (join newline
        (concat
           [["CREATE TABLE"];
            (if flag (CreateTable.ifNotExists options) then ["IF NOT EXISTS"] else []);
            ["`" ++ name ts ++ "`"];
            ["(" ++ newline ++ "  "
             ++ join ("," ++ newline ++ "  ") columnDefs ++ newline ++ ")"];
            ["ENGINE = "
             ++ match CreateTable.engine options with
                | Some e => if nonEmpty e then e else "MergeTree()"
                | None => "MergeTree()"
                end];
            [orderByPart ts options];
            match CreateTable.partitionBy options with
            | Some p => if nonEmpty p then ["PARTITION BY " ++ p] else []
            | None => []
            end;
            match settings with
            | [] => []
            | _ => ["SETTINGS " ++ join ", " settings]
            end])).

Definition toDropTableSQL (ts : TableSchema) (ifExists : bool) : string :=
  join " " (concat [["DROP TABLE"];
                    (if ifExists then ["IF EXISTS"] else []);
                    ["`" ++ name ts ++ "`"]]).

Definition addColumn (ts : TableSchema) (columnName : string) (definition : ColumnDefinition)
  : SchemaResult TableSchema :=
  if hasColumn ts columnName then
    Failed (SchemaError
              ("Column '" ++ columnName ++ "' already exists in table '" ++ name ts ++ "'")
              (Some (name ts)) (Some columnName))
  else
    match validateColumnDefinition columnName definition with
    | Err e => Failed (Thrown e)
    | OK _ => construct (name ts) (setKey columnName definition (schema ts))
    end.

Definition removeColumn (ts : TableSchema) (columnName : string)
  : SchemaResult TableSchema :=
  if negb (hasColumn ts columnName) then
    Failed (SchemaError
              ("Column '" ++ columnName ++ "' does not exist in table '" ++ name ts ++ "'")
              (Some (name ts)) (Some columnName))
  else construct (name ts) (deleteKey columnName (schema ts)).

End SchemaMethods.

(** Some setting among the options has a value that cannot be printed. *)
Definition unprintableSetting (options : CreateTable.Options) : bool :=
  match CreateTable.settings options with
  | Some entries => existsb (fun entry => unprintable (snd entry)) entries
  | None => false
  end.

(** [SchemaBuilder.column]: the builder's [columns] after the call.  The
    assignment [this.columns[name] = definition] under the name [__proto__]
    sets the prototype of [columns] and adds no property. *)
Definition SchemaBuilder_column (columns : SchemaDefinition) (columnName : string)
           (definition : ColumnDefinition) : Result SchemaDefinition :=
  rbind (validateColumnDefinition columnName definition)
    (fun _ => OK (if columnName =? "__proto__" then columns
                  else setKey columnName definition columns)).

(** [SchemaBuilder.enum(name, values)], without options. *)
Definition SchemaBuilder_enum (columns : SchemaDefinition) (columnName : string)
           (values : list string) : Result SchemaDefinition :=
  SchemaBuilder_column columns columnName
    (Col.mk (if (List.length values <=? 256)%nat then DataType.Enum8 else DataType.Enum16)
       None None None None None None None None None None (Some values)).

(* ================================================================== *)
(** * src/core/model.ts: how the model calls the condition compiler *)

(** [paramsArrayToObject]: [{ param0: values[0], param1: values[1], ... }] *)
Fixpoint paramsArrayToObject_from (index : nat) (values : list JsValue)
         (result : list (string * JsValue)) : list (string * JsValue) :=
  match values with
  | [] => result
  | value :: rest =>
      paramsArrayToObject_from (S index) rest
        (setProperty ("param" ++ dec_nat index) value result)
  end.

Definition paramsArrayToObject (values : list JsValue) : list (string * JsValue) :=
  paramsArrayToObject_from 0 values [].

(** [{ ...a, ...b }] *)
Definition spread (a b : list (string * JsValue)) : list (string * JsValue) :=
  fold_left (fun acc entry => setProperty (fst entry) (snd entry) acc) b a.

(** [Model.buildWhereClause]: one condition is compiled as it is, several
    (or none) as the children of an [and] group. *)
Definition Model_buildWhereClause (host : Host) (sqlBuilder : SQLBuilder)
           (whereConditions : list JsValue) (startingParamCount : nat)
  : Result BuildResult :=
  build host sqlBuilder startingParamCount
    match whereConditions with
    | [condition] => condition
    | _ => VObject [("and", VArray whereConditions)]
    end.

(** ** Vocabulary for the condition compiler's properties *)

(** The parameter names [param<start>], ..., [param<start+n-1>]. *)
Definition keysFrom (start n : nat) : list string := map paramName (seq start n).

(** The builder's parameter map holds exactly the parameters named from
    [start] up to its counter, in order. *)
Definition tracked (start : nat) (st : BuilderState) : Prop :=
  start <= this_paramCounter st
  /\ map fst (this_params st) = keysFrom start (this_paramCounter st - start).

(** A method keeps the parameter map tracked whenever it returns. *)
Definition keeps (start : nat) {A : Type} (m : M A) : Prop :=
  forall st a st', tracked start st -> m st = OK (a, st') -> tracked start st'.

(** What the loop of [processCondition] needs of its recursive call on one
    entry's value: it keeps the map tracked on the value and, if the value is
    an array, on each child. *)
Definition childrenKeep (start : nat) (recur : JsValue -> M string) (value : JsValue)
  : Prop :=
  keeps start (recur value)
  /\ match value with
     | VArray conditions => Forall (fun c => keeps start (recur c)) conditions
     | _ => True
     end.

(** A condition tree with its combinator keys respelled by [spelling],
    throughout: in the children of [and]/[or] groups and under [not]. *)
Fixpoint respell (spelling : string -> string) (condition : JsValue) : JsValue :=
  match condition with
  | VObject props =>
      VObject
        (map (fun entry =>
                let key := fst entry in
                let value := snd entry in
                if isAndKey key || isOrKey key then
                  (spelling key,
                   match value with
                   | VArray conditions => VArray (map (respell spelling) conditions)
                   | _ => value
                   end)
                else if isNotKey key then (spelling key, respell spelling value)
                else (key, value))
           props)
  | _ => condition
  end.

(** A respelling that keeps every combinator key a combinator of the same
    kind. *)
Definition keepsCombinators (spelling : string -> string) : Prop :=
  forall key,
    (isAndKey key = true -> isAndKey (spelling key) = true)
    /\ (isOrKey key = true -> isOrKey (spelling key) = true)
    /\ (isNotKey key = true -> isNotKey (spelling key) = true).

(** [and] for [$and] and back, likewise [or] and [not]. *)
Definition otherSpelling (key : string) : string :=
  if key =? "and" then "$and"
  else if key =? "$and" then "and"
  else if key =? "or" then "$or"
  else if key =? "$or" then "or"
  else if key =? "not" then "$not"
  else if key =? "$not" then "not"
  else key.

(** The SQL text of a result, if any. *)
Definition sqlOf (result : Result BuildResult) : option string :=
  match result with
  | OK built => Some (sql built)
  | Err _ => None
  end.

(** The operators that bind their value as one parameter, and the SQL
    symbol each compiles to. *)
Definition operatorSymbol (op : string) : option string :=
  if op =? "eq" then Some "="
  else if op =? "ne" then Some "!="
  else if op =? "gt" then Some ">"
  else if op =? "gte" then Some ">="
  else if op =? "lt" then Some "<"
  else if op =? "lte" then Some "<="
  else if op =? "like" then Some "LIKE"
  else if op =? "notLike" then Some "NOT LIKE"
  else if op =? "ilike" then Some "ILIKE"
  else None.

(** [value === null] *)
Definition isNull (value : JsValue) : bool :=
  match value with
  | VNull => true
  | _ => false
  end.

(** An array of exactly two elements. *)
Definition isPair (value : JsValue) : bool :=
  match value with
  | VArray [_; _] => true
  | _ => false
  end.

(** ** [isValidIPv4] *)

(** [ip.split('.')] *)
Fixpoint splitDots (s : string) : list string :=
  match s with
  | EmptyString => [EmptyString]
  | String.String c rest =>
      if Ascii.eqb c "."%char then EmptyString :: splitDots rest
      else
        match splitDots rest with
        | part :: parts => String.String c part :: parts
        | [] => [String.String c EmptyString]
        end
  end.

(** [\d{1,3}]: one to three digits *)
Definition isOctetText (part : string) : bool :=
  ((1 <=? String.length part) && (String.length part <=? 3))%nat
  && allChars isDigit part.

(** [/^(\d{1,3}\.){3}\d{1,3}$/.test(ip)]: four groups of one to three
    digits separated by dots (a digit never matches the dot, so the groups
    are the dot-separated parts). *)
Definition ipv4Regex_test (ip : string) : bool :=
  match splitDots ip with
  | [a; b; c; d] => isOctetText a && isOctetText b && isOctetText c && isOctetText d
  | _ => false
  end.

(** [Number(part)] on a string of digits *)
Definition digitsToNumber (part : string) : nat :=
  match NilEmpty.uint_of_string part with
  | Some digits => Nat.of_uint digits
  | None => 0
  end.

Definition isValidIPv4 (ip : string) : bool :=
  if negb (ipv4Regex_test ip) then false
  else
    forallb (fun part => (0 <=? part) && (part <=? 255))%nat
      (map digitsToNumber (splitDots ip)).

(** [a.b.c.d] with the four numbers in decimal *)
Definition dottedQuad (a b c d : nat) : string :=
  dec_nat a ++ "." ++ dec_nat b ++ "." ++ dec_nat c ++ "." ++ dec_nat d.

(** ** Further sample inputs *)

(** The names an object inherits from [Object.prototype] in the host. *)
Definition objectPrototypeNames (key : string) : bool :=
  includes
    ["constructor"; "__defineGetter__"; "__defineSetter__"; "hasOwnProperty";
     "__lookupGetter__"; "__lookupSetter__"; "isPrototypeOf";
     "propertyIsEnumerable"; "toString"; "valueOf"; "__proto__"; "toLocaleString"]
    key.

(** Stand-ins for [toISOString] and [JSON.stringify], not exercised by the
    examples. *)
Definition exampleISOString (t : Q) : string := "1970-01-01T00:00:00.000Z".
Definition exampleStringify (value : JsValue) : option string := Some "{}".

(** [{ type: FixedString, length: 5 }] *)
Definition fixedString5 : ColumnDefinition :=
  Col.mk DataType.FixedString None None None None None None None None None
    (Some (ofZ 5)) None.

(** [{ type: Decimal, precision: 10, scale: 0 }] *)
Definition decimal10_0 : ColumnDefinition :=
  Col.mk DataType.Decimal None None None None None None None
    (Some (ofZ 10)) (Some (ofZ 0)) None None.

(** [{ id: UInt32 primaryKey autoIncrement, name: String }] *)
Definition autoKeySchema : SchemaDefinition :=
  [("id", Col.mk DataType.UInt32 None (Some true) None None (Some true)
            None None None None None None);
   ("name", Col.ofType DataType.String)].

(** The [TableSchema] that [new TableSchema('users', usersSchema)] holds. *)
Definition usersTable : TableSchema :=
  {| name := "users";
     schema := usersSchema;
     columnNames := ["id"; "name"; "age"];
     primaryKeyColumn := Some "id" |}.

(** [usersTable] with a column [email: String] added. *)
Definition usersTableWithEmail : TableSchema :=
  {| name := "users";
     schema := (usersSchema ++ [("email", Col.ofType DataType.String)])%list;
     columnNames := ["id"; "name"; "age"; "email"];
     primaryKeyColumn := Some "id" |}.

(** A rule that accepts numbers only, and one that accepts nothing. *)
Definition numbersOnly : Rule.ValidationRule :=
  createValidationRule
    (fun value => match value with VNumber _ => true | _ => false end)
    "must be a number".

Definition neverValid : Rule.ValidationRule :=
  createValidationRule (fun _ => false) "always refused".

(* ================================================================== *)
(** * Host conversions: properties *)

(** Induction on values that reaches the elements of arrays and the values
    of properties. *)
Lemma JsValue_nested_ind (P : JsValue -> Prop) :
  P VUndefined -> P VNull -> (forall b, P (VBool b)) -> (forall n, P (VNumber n)) ->
  (forall z, P (VBigInt z)) -> (forall s, P (VString s)) -> (forall t, P (VDate t)) ->
  (forall elems, Forall P elems -> P (VArray elems)) ->
  (forall props, Forall (fun entry => P (snd entry)) props -> P (VObject props)) ->
  forall v, P v.
Proof.
  intros Hu Hn Hb Hnum Hz Hs Hd Ha Ho.
  fix IH 1. intros [| | b | n | z | s | t | elems | props].
  - exact Hu.
  - exact Hn.
  - apply Hb.
  - apply Hnum.
  - apply Hz.
  - apply Hs.
  - apply Hd.
  - apply Ha. induction elems as [|x rest IHrest]; constructor; [apply IH | exact IHrest].
  - apply Ho. induction props as [|[k x] rest IHrest]; constructor;
      [apply IH | exact IHrest].
Qed.

Lemma mapResult_isErr {A B : Type} (f : A -> Result B) (xs : list A) :
  isErr (mapResult f xs) = existsb (fun x => isErr (f x)) xs.
Proof.
  induction xs as [|x xs IH]; [reflexivity|]. cbn [mapResult existsb].
  destruct (f x) as [y|e]; [|reflexivity]. cbn [rbind isErr orb].
  rewrite <- IH. destruct (mapResult f xs); reflexivity.
Qed.

Lemma mapResult_throws_only {A B : Type} (f : A -> Result B) (P : Error -> Prop)
      (xs : list A) :
  Forall (fun x => forall e, f x = Err e -> P e) xs ->
  forall e, mapResult f xs = Err e -> P e.
Proof.
  induction 1 as [|x xs Hx _ IH]; intros e; [discriminate|]. cbn [mapResult].
  destruct (f x) as [y|e1] eqn:Hfx; cbn [rbind].
  - destruct (mapResult f xs) as [ys|e2]; [discriminate|].
    intros H. injection H as <-. apply IH. reflexivity.
  - intros H. injection H as <-. apply Hx. reflexivity.
Qed.

Lemma mapResult_ext {A B : Type} (f g : A -> Result B) (xs : list A) :
  Forall (fun x => f x = g x) xs -> mapResult f xs = mapResult g xs.
Proof.
  induction 1 as [|x xs Hx _ IH]; [reflexivity|]. cbn [mapResult].
  rewrite Hx, IH. reflexivity.
Qed.

Lemma mapResult_strings (f : JsValue -> Result string) (texts : list string) :
  (forall s, f (VString s) = OK s) ->
  mapResult f (map VString texts) = OK texts.
Proof.
  intros Hf. induction texts as [|s texts IH]; [reflexivity|].
  cbn [map mapResult]. rewrite Hf, IH. reflexivity.
Qed.

Section Conversions.

Variable host : Host.

Lemma ToString_array (xs : list JsValue) :
  ToString host (VArray xs) = Array_join host "," xs.
Proof. reflexivity. Qed.

(** [String(value)] throws exactly on the values that cannot be printed,
    whatever the host. *)
Lemma ToString_isErr (value : JsValue) :
  isErr (ToString host value) = unprintable value.
Proof.
  induction value as [| | b | n | z | s | t | elems IH | props IH]
    using JsValue_nested_ind; try reflexivity.
  - destruct b; reflexivity.
  - cbn [ToString unprintable].
    assert (H : isErr (mapResult (fun x => if isNullish x then OK "" else ToString host x)
                         elems)
                = existsb unprintable elems).
    { rewrite mapResult_isErr. induction IH as [|x xs Hx _ IHxs]; [reflexivity|].
      cbn [existsb]. rewrite IHxs. f_equal.
      destruct x; try reflexivity; exact Hx. }
    rewrite <- H. destruct (mapResult _ elems); reflexivity.
  - cbn [ToString unprintable]. destruct (shadowsToString props); reflexivity.
Qed.

(** What [String(value)] throws is a [TypeError]. *)
Lemma ToString_error (value : JsValue) (e : Error) :
  ToString host value = Err e -> e = TypeError.
Proof.
  revert e.
  induction value as [| | b | n | z | s | t | elems IH | props IH]
    using JsValue_nested_ind; intros e; try discriminate.
  - destruct b; discriminate.
  - cbn [ToString].
    destruct (mapResult (fun x => if isNullish x then OK "" else ToString host x) elems)
      as [parts|e1] eqn:Hparts; [discriminate|].
    cbn [rbind]. intros H. injection H as <-.
    revert Hparts. refine (mapResult_throws_only _ (fun e => e = TypeError) elems _ e1).
    apply Forall_forall. intros x Hin e0. rewrite Forall_forall in IH.
    destruct (isNullish x); [discriminate|]. apply IH. exact Hin.
  - cbn [ToString]. destruct (shadowsToString props); [|discriminate].
    intros H. injection H as <-. reflexivity.
Qed.

Lemma ToString_printable (value : JsValue) :
  unprintable value = false -> exists s, ToString host value = OK s.
Proof.
  intros H. rewrite <- ToString_isErr in H.
  destruct (ToString host value) as [s|e]; [eauto | discriminate H].
Qed.

Lemma Array_join_isErr (sep : string) (xs : list JsValue) :
  isErr (Array_join host sep xs) = existsb unprintable xs.
Proof.
  change (existsb unprintable xs) with (unprintable (VArray xs)).
  rewrite <- ToString_isErr. cbn [ToString]. unfold Array_join.
  destruct (mapResult _ xs); reflexivity.
Qed.

Lemma Array_join_error (sep : string) (xs : list JsValue) (e : Error) :
  Array_join host sep xs = Err e -> e = TypeError.
Proof.
  intros H. apply (ToString_error (VArray xs)). cbn [ToString].
  unfold Array_join in H.
  destruct (mapResult _ xs) as [parts|e1]; [discriminate H | exact H].
Qed.

(** Joining strings throws nothing. *)
Lemma Array_join_strings (sep : string) (texts : list string) :
  Array_join host sep (map VString texts) = OK (join sep texts).
Proof.
  unfold Array_join. rewrite mapResult_strings by reflexivity. reflexivity.
Qed.

(** The conversions to a primitive, to a number and to a date throw
    nothing but the [TypeError] of [String(value)]. *)
Lemma ToPrimitive_number_error (value : JsValue) (e : Error) :
  ToPrimitive_number host value = Err e -> e = TypeError.
Proof.
  destruct value as [| | b | n | z | s | t | elems | props]; try discriminate;
    unfold ToPrimitive_number;
    destruct (ToString host _) as [text|e1] eqn:Hs; try discriminate;
    cbn [rbind]; intros H; injection H as <-; exact (ToString_error _ _ Hs).
Qed.

Lemma ToNumber_error (value : JsValue) (e : Error) :
  ToNumber host value = Err e -> e = TypeError.
Proof.
  unfold ToNumber.
  destruct (ToPrimitive_number host value) as [p|e1] eqn:Hp; [discriminate|].
  cbn [rbind]. intros H. injection H as <-. exact (ToPrimitive_number_error _ _ Hp).
Qed.

Lemma Date_construct_cases (value : JsValue) :
  (exists t, Date_construct host value = OK (VDate t))
  \/ Date_construct host value = Err TypeError.
Proof.
  unfold Date_construct.
  destruct value as [| | b | n | z | s | t | elems | props]; simpl; eauto;
    destruct (mapResult _ _) as [parts|e] eqn:Hs || destruct (shadowsToString props);
    simpl; eauto.
  right. f_equal.
  apply (ToString_error (VArray elems)). cbn [ToString]. rewrite Hs. reflexivity.
Qed.

End Conversions.

(* ================================================================== *)
(** * Type mapper: properties *)

Section TypeMapperFacts.

Variable host : Host.

Lemma BigInt_toNumber_safe (z : Z) :
  isSafeInteger z = true -> BigInt_toNumber host z = ofZ z.
Proof.
  unfold BigInt_toNumber, isSafeInteger. intros ->. reflexivity.
Qed.

Lemma ToBigInt_not_nullish (v : JsValue) (z : Z) :
  ToBigInt host v = OK z -> isNullish v = false.
Proof.
  destruct v; simpl; try reflexivity; discriminate.
Qed.

Lemma ToBigInt_bigint (z : Z) : ToBigInt host (VBigInt z) = OK z.
Proof. reflexivity. Qed.

(** A value [BigInt()] refuses makes the 64-bit conversion throw the host's
    error. *)
Lemma fromClickHouseValue_int64_throws (v : JsValue) (e : Error) :
  isNullish v = false ->
  ToBigInt host v = Err e ->
  fromClickHouseValue host v DataType.Int64 = Err e
  /\ fromClickHouseValue host v DataType.UInt64 = Err e.
Proof.
  intros Hn He. unfold fromClickHouseValue. rewrite Hn.
  destruct v; simpl in *; try discriminate; rewrite ?He; auto.
Qed.

(** C1 (as amended): [getClickHouseType] on a parameterized column whose
    required parameter is absent.  Array and LowCardinality without
    [elementType], and Enum8 and Enum16 without [enumValues], throw a
    [TypeMappingError]; FixedString without [length], Decimal and DateTime64
    without [precision] do not throw: the type is rendered with the defaults
    255, 10 (and the given scale, else 2) and 3. *)
Theorem getClickHouseType_missing_parameter (column : ColumnDefinition) :
  missingRequiredParameter column = true ->
  match Col.type column with
  | DataType.Array =>
      getClickHouseType host column
      = Err (TypeMappingError "Array type requires elementType"
               (Some "Array") None (OfColumn column))
  | DataType.LowCardinality =>
      getClickHouseType host column
      = Err (TypeMappingError "LowCardinality type requires elementType"
               (Some "LowCardinality") None (OfColumn column))
  | DataType.Enum8 =>
      getClickHouseType host column
      = Err (TypeMappingError "Enum type requires enumValues"
               (Some "Enum8") None (OfColumn column))
  | DataType.Enum16 =>
      getClickHouseType host column
      = Err (TypeMappingError "Enum type requires enumValues"
               (Some "Enum16") None (OfColumn column))
  | DataType.FixedString =>
      getClickHouseType host column
      = OK (wrapNullable column
              ("FixedString(" ++ Number_toString host (ofZ 255) ++ ")"))
  | DataType.Decimal =>
      getClickHouseType host column
      = OK (wrapNullable column
              ("Decimal(" ++ Number_toString host (ofZ 10) ++ ", "
               ++ Number_toString host (orNumber (Col.scale column) (ofZ 2)) ++ ")"))
  | DataType.DateTime64 =>
      getClickHouseType host column
      = OK (wrapNullable column
              ("DateTime64(" ++ Number_toString host (ofZ 3) ++ ")"))
  | _ => False
  end.
Proof.
  unfold missingRequiredParameter, getClickHouseType, wrapNullable.
  destruct column as [ty nu pk un de au co el pr sc le en]; simpl.
  destruct ty; try discriminate; simpl.
  - destruct pr; [discriminate | reflexivity].
  - destruct le; [discriminate | reflexivity].
  - destruct pr; [discriminate | reflexivity].
  - destruct en; [discriminate | reflexivity].
  - destruct en; [discriminate | reflexivity].
  - destruct el; [discriminate | reflexivity].
  - destruct el; [discriminate | reflexivity].
Qed.

Lemma integerInRange_returns (value : JsValue) (lo hi : Z) :
  exists valid : bool, integerInRange host value lo hi = OK valid.
Proof.
  unfold integerInRange, isInteger.
  destruct value as [| | b | n | z | s | t | elems | props]; eauto.
  destruct (Number_isInteger n); simpl; eauto.
Qed.

(** On a value that is neither [null] nor [undefined], [validateValue]
    returns a boolean, unless the column is a date or time column and the
    value, no [Date], cannot be printed: then the [String(value)] inside the
    check throws its [TypeError]. *)
Lemma validateValue_not_null (value : JsValue) (column : ColumnDefinition) :
  isNullish value = false ->
  (validityThrows value column = true
   /\ validateValue host value column = Err TypeError)
  \/ (validityThrows value column = false
      /\ exists valid : bool, validateValue host value column = OK valid).
Proof.
  intros Hn. unfold validateValue, validityThrows. rewrite Hn.
  assert (Hdate :
            (negb (instanceofDate value) && unprintable value = true
             /\ (if instanceofDate value then OK true
                 else rbind (ToString host value)
                        (fun s => OK (negb (Number_isNaN (Date_parse host s)))))
                = Err TypeError)
            \/ (negb (instanceofDate value) && unprintable value = false
                /\ exists valid : bool,
                     (if instanceofDate value then OK true
                      else rbind (ToString host value)
                             (fun s => OK (negb (Number_isNaN (Date_parse host s)))))
                     = OK valid)).
  { destruct (instanceofDate value); [right; split; eauto|]. cbn [negb andb].
    rewrite <- (ToString_isErr host).
    destruct (ToString host value) as [s|e] eqn:Hs; cbn [isErr rbind].
    - right; split; eauto.
    - left; split; [reflexivity|]. rewrite (ToString_error host value e Hs). reflexivity. }
  destruct (Col.type column); cbn [isDateKind andb]; try exact Hdate;
    right; (split; [reflexivity|]); try apply integerInRange_returns; eauto.
  all: destruct value; eauto.
  all: try (destruct (Col.enumValues column); eauto; fail).
  all: destruct (Col.length column) as [len|]; eauto.
  all: destruct (number_truthy len); eauto.
Qed.


(** C8: under a 64-bit integer kind, a wire value that [BigInt()] converts
    to the integer [z] (any bigint, integral number, boolean or integer
    literal; never [null] or [undefined]) comes back as the plain number [z]
    exactly when [z] lies in the safe range, and as the bigint [z] itself
    otherwise. *)
Theorem fromClickHouseValue_int64 (value : JsValue) (dataType : DataType.t) (z : Z) :
  dataType = DataType.Int64 \/ dataType = DataType.UInt64 ->
  ToBigInt host value = OK z ->
  fromClickHouseValue host value dataType
  = OK (if isSafeInteger z then VNumber (ofZ z) else VBigInt z).
Proof.
  intros Hk Hz.
  assert (Hn := ToBigInt_not_nullish _ _ Hz).
  assert (Hb : match value with VBigInt b => OK b | _ => ToBigInt host value end = OK z).
  { destruct value; exact Hz. }
  assert (Hs : ((z <=? MAX_SAFE_INTEGER) && (z >=? MIN_SAFE_INTEGER))%Z = isSafeInteger z).
  { unfold isSafeInteger. rewrite Z.geb_leb. apply andb_comm. }
  unfold fromClickHouseValue. rewrite Hn.
  destruct Hk as [-> | ->]; rewrite Hb; simpl; rewrite Hs;
    destruct (isSafeInteger z) eqn:Hsafe;
    rewrite ?(BigInt_toNumber_safe _ Hsafe); reflexivity.
Qed.

(** C10: for an Int64 or UInt64 column and a value that is neither [null]
    nor [undefined], [validateValue] returns [true] exactly when the value's
    [typeof] is ['number'] or ['bigint']; no range or integrality test is
    made. *)
Theorem validateValue_int64 (value : JsValue) (column : ColumnDefinition) :
  Col.type column = DataType.Int64 \/ Col.type column = DataType.UInt64 ->
  isNullish value = false ->
  validateValue host value column = OK (isNumberOrBigInt value).
Proof.
  intros Hk Hn. unfold validateValue. rewrite Hn.
  destruct Hk as [-> | ->]; destruct value; try discriminate; reflexivity.
Qed.

End TypeMapperFacts.

(* ================================================================== *)
(** * Validator and schema construction: properties *)

Lemma lookup_NoDup_In {A : Type} (l : list (string * A)) (k : string) (v : A) :
  NoDup (map fst l) -> In (k, v) l -> lookup k l = Some v.
Proof.
  induction l as [|[k' v'] l IH]; simpl; intros Hnd Hin; [contradiction|].
  inversion Hnd as [|? ? Hnotin Hnd']; subst.
  destruct Hin as [Heq | Hin].
  - inversion Heq; subst. rewrite String.eqb_refl. reflexivity.
  - destruct (String.eqb_spec k' k) as [-> | Hne].
    + exfalso. apply Hnotin. apply (in_map fst) in Hin. exact Hin.
    + apply IH; assumption.
Qed.

Lemma filter_keys_entries {A : Type} (f : string -> bool) (g : string * A -> bool)
      (l : list (string * A)) :
  (forall entry, In entry l -> f (fst entry) = g entry) ->
  filter f (map fst l) = map fst (filter g l).
Proof.
  induction l as [|entry l IH]; simpl; intros Hfg; [reflexivity|].
  rewrite (Hfg entry) by (left; reflexivity).
  rewrite IH by (intros; apply Hfg; right; assumption).
  destruct (g entry); reflexivity.
Qed.

(** With distinct keys, [primaryKeysOf] on the schema's keys lists the
    columns flagged [primaryKey]. *)
Lemma primaryKeysOf_columns (schema : SchemaDefinition) :
  NoDup (map fst schema) ->
  primaryKeysOf schema (map fst schema) = primaryKeyColumns schema.
Proof.
  intros Hnd. unfold primaryKeysOf, primaryKeyColumns.
  apply filter_keys_entries. intros [k c] Hin; simpl.
  rewrite (lookup_NoDup_In schema k c Hnd Hin). reflexivity.
Qed.

Lemma check_cases (failed : bool) (e : Error) :
  check failed e = (if failed then Err e else OK tt).
Proof. reflexivity. Qed.

(** [validateTableName] returns or throws a [ValidationError]. *)
Lemma validateTableName_cases (tableName : string) :
  validateTableName tableName = OK tt
  \/ exists message, validateTableName tableName = Err (validationError message).
Proof.
  unfold validateTableName, check.
  destruct (tableName =? ""); simpl; [right; eauto|].
  destruct (isValidIdentifier tableName); simpl; [|right; eauto].
  destruct (64 <? String.length tableName)%nat; [right; eauto | left; reflexivity].
Qed.

Lemma validateSchema_too_many_keys (schema : SchemaDefinition) :
  NoDup (map fst schema) ->
  2 <= List.length (primaryKeyColumns schema) ->
  validateSchema schema = Err (multiplePrimaryKeys (primaryKeyColumns schema)).
Proof.
  intros Hnd Hlen. unfold validateSchema.
  rewrite (primaryKeysOf_columns schema Hnd).
  destruct schema as [|entry rest]; [simpl in Hlen; lia|].
  simpl (check (List.length _ =? 0)%nat _). simpl rbind.
  destruct (1 <? List.length (primaryKeyColumns (entry :: rest)))%nat eqn:Hlt.
  - reflexivity.
  - apply Nat.ltb_ge in Hlt. lia.
Qed.

(** C7: a schema definition (distinct column names) with two or more
    columns flagged [primaryKey] is refused by [validateSchema] with a
    [ValidationError] whose message lists all of them, and for every table
    name the [TableSchema] constructor throws a [ValidationError] instead of
    producing an object: that same error once the table name is accepted. *)
Theorem duplicate_primary_keys_rejected (schema : SchemaDefinition) :
  NoDup (map fst schema) ->
  2 <= List.length (primaryKeyColumns schema) ->
  validateSchema schema = Err (multiplePrimaryKeys (primaryKeyColumns schema))
  /\ forall tableName : string,
       exists e : Error,
         TableSchema_new tableName schema = Err e
         /\ isValidationError e = true
         /\ (validateTableName tableName = OK tt ->
             e = multiplePrimaryKeys (primaryKeyColumns schema)).
Proof.
  intros Hnd Hlen.
  assert (Hs := validateSchema_too_many_keys schema Hnd Hlen).
  split; [exact Hs|].
  intros tableName. unfold TableSchema_new.
  destruct (validateTableName_cases tableName) as [Hok | [message Herr]].
  - rewrite Hok; simpl. rewrite Hs; simpl.
    eexists; repeat split; reflexivity.
  - rewrite Herr; simpl.
    eexists; repeat split; try reflexivity.
    intros Habs; discriminate Habs.
Qed.

Section ValidatorFacts.

Variable host : Host.

Lemma checkUnknownFields_known (schema : SchemaDefinition)
      (mkError : string -> Error) (entries : list (string * JsValue)) :
  forallb (hasField schema) (map fst entries) = true ->
  forEach (fun field (_ : JsValue) => check (negb (hasField schema field)) (mkError field))
    entries = OK tt.
Proof.
  induction entries as [|[k v] rest IH]; simpl; intros Hall; [reflexivity|].
  apply andb_prop in Hall as [Hk Hrest].
  rewrite Hk; simpl. apply IH; exact Hrest.
Qed.

(** The second loop of [validatePartialData] throws exactly when it meets a
    refused entry; what it throws is a [ValidationError], or the [TypeError]
    of a validity check that threw. *)
Lemma partial_loop_raises (schema : SchemaDefinition) (entries : list (string * JsValue)) :
  let body := fun (fieldName : string) (value : JsValue) =>
    match lookup fieldName schema with
    | None => OK tt
    | Some column =>
        rbind (check (flag (Col.primaryKey column))
                 (ValidationError
                    ("Cannot update primary key field '" ++ fieldName ++ "'")
                    (Some fieldName) value (Some "primaryKey")))
          (fun _ =>
             if negb (isNullish value) then
               rbind (validateValue host value column)
                 (fun valid => check (negb valid) (invalidValue fieldName column value))
             else OK tt)
    end in
  isErr (forEach body entries) = existsb (refusedUpdate host schema) entries
  /\ (forall e, forEach body entries = Err e ->
                isValidationError e = true
                \/ (e = TypeError
                    /\ existsb (fun entry => unprintable (snd entry)) entries = true)).
Proof.
  intros body.
  induction entries as [|[k v] rest [IHr IHe]]; simpl.
  - split; [reflexivity | intros e He; discriminate He].
  - assert (IHe' : forall e, forEach body rest = Err e ->
                     isValidationError e = true
                     \/ (e = TypeError
                         /\ unprintable v
                            || existsb (fun entry => unprintable (snd entry)) rest = true)).
    { intros e He. destruct (IHe e He) as [Hv | [Ht Hu]]; [left; exact Hv|].
      right. split; [exact Ht|]. rewrite Hu. apply orb_true_r. }
    unfold refusedUpdate at 1; simpl fst; simpl snd.
    unfold body at 1 3.
    destruct (lookup k schema) as [column|]; simpl.
    + destruct (flag (Col.primaryKey column)); simpl.
      * split; [reflexivity|]. intros e He; inversion He; left; reflexivity.
      * unfold failsValidity.
        destruct (isNullish v) eqn:Hn; simpl.
        -- split; [exact IHr | exact IHe'].
        -- destruct (validateValue_not_null host v column Hn)
             as [[Ht Hv] | [Ht [valid Hv]]]; rewrite Hv, Ht; simpl.
           ++ split; [reflexivity|]. intros e He. injection He as <-.
              right. split; [reflexivity|].
              unfold validityThrows in Ht.
              apply andb_prop in Ht as [_ Hu]. rewrite Hu. reflexivity.
           ++ destruct valid; simpl.
              ** split; [exact IHr | exact IHe'].
              ** split; [reflexivity|]. intros e He; inversion He; left; reflexivity.
    + split; [exact IHr | exact IHe'].
Qed.


End ValidatorFacts.

(* ================================================================== *)
(** * Condition compiler: properties *)

(** ** Parameter names *)

Lemma dec_nat_inj (i j : nat) : dec_nat i = dec_nat j -> i = j.
Proof.
  unfold dec_nat. intros H.
  apply DecimalNat.Unsigned.to_uint_inj.
  assert (Hs : Some (Nat.to_uint i) = Some (Nat.to_uint j)).
  { rewrite <- !NilEmpty.usu. rewrite H. reflexivity. }
  congruence.
Qed.

Lemma paramName_inj (i j : nat) : paramName i = paramName j -> i = j.
Proof.
  unfold paramName. simpl. intros H. injection H as H. apply dec_nat_inj, H.
Qed.

Lemma paramName_neq (i j : nat) : i <> j -> (paramName i =? paramName j) = false.
Proof.
  intros Hne. apply String.eqb_neq. intros H. apply Hne, paramName_inj, H.
Qed.

(** ** Object literals *)

Lemma lookup_app {A : Type} (key : string) (ps qs : list (string * A)) :
  lookup key (ps ++ qs)%list
  = match lookup key ps with
    | Some v => Some v
    | None => lookup key qs
    end.
Proof.
  induction ps as [|[k v] ps IH]; simpl; [reflexivity|].
  destruct (k =? key); [reflexivity | exact IH].
Qed.

Lemma setProperty_fresh (key : string) (v : JsValue) (ps : list (string * JsValue)) :
  lookup key ps = None -> setProperty key v ps = (ps ++ [(key, v)])%list.
Proof.
  induction ps as [|[k x] ps IH]; simpl; [reflexivity|].
  destruct (k =? key); [discriminate|]. intros H. rewrite IH by exact H. reflexivity.
Qed.

Lemma mapi_from_length {A B : Type} (f : A -> nat -> B) (xs : list A) (i : nat) :
  List.length (mapi_from i f xs) = List.length xs.
Proof.
  revert i. induction xs as [|x xs IH]; simpl; intros i; [reflexivity|].
  rewrite IH. reflexivity.
Qed.

Lemma boundParams_values (values : list JsValue) (start : nat) :
  map snd (boundParams start values) = values.
Proof.
  unfold boundParams. revert start.
  induction values as [|v vs IH]; simpl; intros start; [reflexivity|].
  rewrite IH. reflexivity.
Qed.

Lemma nonEmpty_append (a : string) (c : ascii) (b : string) :
  nonEmpty (a ++ String.String c b) = true.
Proof. destruct a; reflexivity. Qed.

Lemma nonEmpty_infix (a b c : string) :
  nonEmpty b = true -> nonEmpty (a ++ b ++ c) = true.
Proof. destruct a, b; simpl; intros H; try discriminate H; reflexivity. Qed.

(** ** The builder's methods *)

Lemma fresh_initial (start : nat) :
  fresh {| this_params := []; this_paramCounter := start |}.
Proof. intros j _. reflexivity. Qed.

(** Binding a run of values from a fresh state appends one entry per value
    and advances the counter by their number. *)
Lemma addParam_run (values : list JsValue) (st : BuilderState) :
  fresh st ->
  mapM addParam values st
  = OK (placeholders (this_paramCounter st) values,
        {| this_params := (this_params st ++ boundParams (this_paramCounter st) values)%list;
           this_paramCounter := this_paramCounter st + List.length values |}).
Proof.
  revert st. induction values as [|v vs IH]; intros [ps c] Hf.
  - simpl. unfold ret. rewrite app_nil_r, Nat.add_0_r. reflexivity.
  - unfold fresh in Hf. cbn [this_params this_paramCounter] in Hf.
    cbn [mapM]. unfold mbind at 1. unfold addParam at 1.
    cbn [this_params this_paramCounter].
    change ("param" ++ dec_nat c) with (paramName c).
    rewrite setProperty_fresh by (apply (Hf c); lia).
    unfold mbind at 1. rewrite IH; cbn [this_params this_paramCounter].
    + unfold ret. rewrite <- app_assoc. cbn [List.length].
      rewrite Nat.add_succ_r. reflexivity.
    + intros j Hj. cbn [this_params this_paramCounter] in *. rewrite lookup_app.
      rewrite (Hf j) by lia. cbn [lookup].
      rewrite paramName_neq by lia. reflexivity.
Qed.

Lemma addParam_returns (values : list JsValue) (st : BuilderState) :
  exists r, mapM addParam values st = OK r.
Proof.
  revert st. induction values as [|v vs IH]; intros st; simpl.
  - eexists; reflexivity.
  - unfold mbind at 1. unfold addParam at 1.
    destruct (IH {| this_params :=
                      setProperty ("param" ++ dec_nat (this_paramCounter st)) v (this_params st);
                    this_paramCounter := S (this_paramCounter st) |}) as [[ps st'] Hr].
    unfold mbind at 1. rewrite Hr. eexists; reflexivity.
Qed.

(** ** Loops over the builder *)

Lemma mapM_cons {A B : Type} (f : A -> M B) (x : A) (xs : list A) (st : BuilderState) :
  mapM f (x :: xs) st
  = match f x st with
    | OK (b, st1) =>
        match mapM f xs st1 with
        | OK (bs, st2) => OK (b :: bs, st2)
        | Err e => Err e
        end
    | Err e => Err e
    end.
Proof.
  cbn [mapM]. unfold mbind at 1.
  destruct (f x st) as [[b st1]|e]; [|reflexivity].
  unfold mbind. destruct (mapM f xs st1) as [[bs st2]|e]; reflexivity.
Qed.

Lemma mapM_app_throws {A B : Type} (f : A -> M B) (pre rest : list A)
      (st : BuilderState) (e : Error) :
  mapM f pre st = Err e -> mapM f (pre ++ rest)%list st = Err e.
Proof.
  revert st. induction pre as [|x pre IH]; intros st.
  - discriminate.
  - cbn [app]. rewrite !mapM_cons.
    destruct (f x st) as [[b st1]|e1]; [|exact (fun H => H)].
    destruct (mapM f pre st1) as [[bs st2]|e2] eqn:Hpre; [discriminate|].
    intros H. injection H as ->. rewrite (IH st1 Hpre). reflexivity.
Qed.

Lemma mapM_app_stops {A B : Type} (f : A -> M B) (pre : list A) (x : A) (post : list A)
      (st st' : BuilderState) (bs : list B) (e : Error) :
  mapM f pre st = OK (bs, st') -> f x st' = Err e ->
  mapM f (pre ++ x :: post)%list st = Err e.
Proof.
  revert st bs. induction pre as [|y pre IH]; intros st bs.
  - intros H Hx. injection H as _ <-. cbn [app]. rewrite mapM_cons, Hx. reflexivity.
  - cbn [app]. rewrite !mapM_cons.
    destruct (f y st) as [[b st1]|e1]; [|discriminate].
    destruct (mapM f pre st1) as [[bs1 st2]|e2] eqn:Hpre; [|discriminate].
    intros H Hx. injection H as _ <-.
    rewrite (IH st1 bs1 Hpre Hx). reflexivity.
Qed.

Lemma mapM_throws_only {A B : Type} (f : A -> M B) (P : Error -> Prop) :
  (forall x st e, f x st = Err e -> P e) ->
  forall xs st e, mapM f xs st = Err e -> P e.
Proof.
  intros Hf xs. induction xs as [|x xs IH]; intros st e.
  - discriminate.
  - rewrite mapM_cons. destruct (f x st) as [[b st1]|e1] eqn:Hx.
    + destruct (mapM f xs st1) as [[bs st2]|e2] eqn:Hxs; [discriminate|].
      intros H. injection H as <-. exact (IH st1 e2 Hxs).
    + intros H. injection H as <-. exact (Hf x st e1 Hx).
Qed.

Lemma mapM_returns {A B : Type} (f : A -> M B) (xs : list A) :
  (forall x, In x xs -> forall st, exists r, f x st = OK r) ->
  forall st, exists r, mapM f xs st = OK r.
Proof.
  induction xs as [|x xs IH]; intros Hf st.
  - eexists; reflexivity.
  - destruct (Hf x (or_introl eq_refl) st) as [[b st1] Hx].
    destruct (IH (fun y Hy => Hf y (or_intror Hy)) st1) as [[bs st2] Hxs].
    rewrite mapM_cons, Hx, Hxs. eexists; reflexivity.
Qed.

(** ** Operator sets *)

Lemma isWhereOperator_object (operators : list (string * JsValue)) :
  isWhereOperator (VObject operators)
  = existsb (includes validKeys) (map fst operators).
Proof. reflexivity. Qed.

Lemma includes_In (keys : list string) (key : string) :
  includes keys key = true -> In key keys.
Proof.
  unfold includes. intros H. apply existsb_exists in H as [k [Hin Heq]].
  apply String.eqb_eq in Heq. subst. exact Hin.
Qed.

Ltac run_builder := cbv [mbind ret throw addParam validationError].

(** An operator entry compiles or throws a [ValidationError]. *)
Lemma processOperator_throws_only (fieldName op : string) (value : JsValue)
      (st : BuilderState) (e : Error) :
  processOperator fieldName op value st = Err e -> isValidationError e = true.
Proof.
  unfold processOperator.
  repeat match goal with
         | |- context [op =? ?s] => destruct (op =? s)
         end.
  all: destruct value as [| | b | n | z | s | t | elems | props];
    try (run_builder; intros H; first [discriminate H | injection H as <-; reflexivity]).
  all: destruct elems as [|x xs];
    try (run_builder; intros H; first [discriminate H | injection H as <-; reflexivity]).
  - unfold mbind. destruct (addParam_returns (x :: xs) st) as [[ps st'] Hr].
    rewrite Hr. unfold ret. discriminate.
  - unfold mbind. destruct (addParam_returns (x :: xs) st) as [[ps st'] Hr].
    rewrite Hr. unfold ret. discriminate.
  - destruct xs as [|y [|w rest]];
      run_builder; intros H; first [discriminate H | injection H as <-; reflexivity].
Qed.

(** An entry whose key is in the vocabulary and whose value has the shape
    the operator demands compiles. *)
Lemma processOperator_returns (fieldName op : string) (value : JsValue) (st : BuilderState) :
  includes validKeys op = true -> wellShaped (op, value) = true ->
  exists r, processOperator fieldName op value st = OK r.
Proof.
  intros Hop. apply includes_In in Hop. simpl in Hop.
  repeat destruct Hop as [Hop | Hop]; try contradiction; subst op;
    cbn [wellShaped String.eqb Ascii.eqb Bool.eqb orb]; intros Hshape;
    unfold processOperator; cbn [String.eqb Ascii.eqb Bool.eqb].
  all: try (destruct value; run_builder; eexists; reflexivity).
  - destruct value as [| | | | | | | [|x xs] |]; try discriminate Hshape.
    + eexists; reflexivity.
    + unfold mbind. destruct (addParam_returns (x :: xs) st) as [[ps st'] Hr].
      rewrite Hr. eexists; reflexivity.
  - destruct value as [| | | | | | | [|x xs] |]; try discriminate Hshape.
    + eexists; reflexivity.
    + unfold mbind. destruct (addParam_returns (x :: xs) st) as [[ps st'] Hr].
      rewrite Hr. eexists; reflexivity.
  - destruct value as [| | | | | | | [|x [|y [|w rest]]] |]; try discriminate Hshape.
    run_builder. eexists; reflexivity.
Qed.

(** An entry whose key is outside the vocabulary throws, naming the key. *)
Lemma processOperator_unknown (fieldName op : string) (value : JsValue) (st : BuilderState) :
  includes validKeys op = false ->
  processOperator fieldName op value st
  = Err (validationError ("Unknown operator: " ++ op)).
Proof.
  unfold includes, validKeys. cbn [existsb]. intros H.
  repeat (apply orb_false_elim in H; destruct H as [? H]).
  unfold processOperator.
  repeat match goal with
         | Hk : (op =? _) = false |- _ => rewrite Hk; clear Hk
         end.
  reflexivity.
Qed.

Lemma knownPrefix_known (operators : list (string * JsValue)) (entry : string * JsValue) :
  In entry (knownPrefix operators) -> includes validKeys (fst entry) = true.
Proof.
  induction operators as [|[op value] rest IH]; cbn [knownPrefix]; [contradiction|].
  destruct (includes validKeys op) eqn:Hop; [|contradiction].
  intros [<- | Hin]; [exact Hop | exact (IH Hin)].
Qed.

Lemma firstUnknownKey_split (operators : list (string * JsValue)) (k : string) :
  firstUnknownKey operators = Some k ->
  includes validKeys k = false
  /\ exists value post, operators = (knownPrefix operators ++ (k, value) :: post)%list.
Proof.
  unfold firstUnknownKey.
  induction operators as [|[op value] rest IH]; cbn [map fst find knownPrefix];
    [discriminate|].
  destruct (includes validKeys op) eqn:Hop; cbn [negb].
  - intros H. destruct (IH H) as [Hk [v [post Heq]]].
    split; [exact Hk|]. exists v, post. cbn [app]. rewrite <- Heq. reflexivity.
  - intros H. injection H as <-. split; [exact Hop|].
    exists value, rest. reflexivity.
Qed.

Section WhereBuilderFacts.

Variable host : Host.
Variable sqlBuilder : SQLBuilder.
Variable startingParamCount : nat.

Let initial : BuilderState := initialState startingParamCount.

(** [build] on a tree with one field entry: the fragment is pushed if it
    is truthy, and [join] converts it. *)
Lemma build_single_field (field : string) (value : JsValue) :
  isCombinatorKey field = false ->
  build host sqlBuilder startingParamCount (VObject [(field, value)])
  = match processFieldCondition sqlBuilder field value initial with
    | OK (fragment, st) =>
        rbind (Array_join host " AND " (if truthy fragment then [fragment] else []))
          (fun text => OK {| sql := if nonEmpty text then text else "1=1";
                             params := this_params st |})
    | Err e => Err e
    end.
Proof.
  intros Hc. unfold isCombinatorKey in Hc.
  apply orb_false_elim in Hc as [Hc Hn]. apply orb_false_elim in Hc as [Ha Ho].
  unfold build, processCondition, processEntries. rewrite Ha, Ho, Hn.
  change {| this_params := []; this_paramCounter := startingParamCount |} with initial.
  unfold mbind.
  destruct (processFieldCondition sqlBuilder field value initial) as [[fragment st]|e];
    [|reflexivity].
  unfold ret, lift. cbn [pushed flat_map app].
  destruct (truthy fragment); cbn [app];
    destruct (Array_join host " AND " _) as [text|e]; reflexivity.
Qed.

(** A field value classified as an operator set is handed whole to
    [processOperators]. *)
Lemma processFieldCondition_operators
      (field fieldName : string) (operators : list (string * JsValue)) (st : BuilderState) :
  identifier sqlBuilder field = OK fieldName ->
  isRawExpression (VObject operators) = false ->
  isWhereOperator (VObject operators) = true ->
  processFieldCondition sqlBuilder field (VObject operators) st
  = mbind (processOperators fieldName operators) (fun text => ret (VString text)) st.
Proof.
  intros Hi Hr Hw. unfold processFieldCondition, mbind at 1, lift.
  rewrite Hi, Hr, Hw. reflexivity.
Qed.

(** [build] on a tree with one string fragment. *)
Lemma build_text (field : string) (value : JsValue) (m : M string) :
  isCombinatorKey field = false ->
  processFieldCondition sqlBuilder field value initial
  = mbind m (fun text => ret (VString text)) initial ->
  build host sqlBuilder startingParamCount (VObject [(field, value)])
  = match m initial with
    | OK (fragment, st) =>
        OK {| sql := if nonEmpty fragment then fragment else "1=1";
              params := this_params st |}
    | Err e => Err e
    end.
Proof.
  intros Hc Hm. rewrite (build_single_field _ _ Hc), Hm. unfold mbind, ret.
  destruct (m initial) as [[fragment st]|e]; [|reflexivity].
  cbn [truthy]. change (negb (fragment =? "")) with (nonEmpty fragment).
  destruct (nonEmpty fragment) eqn:Hf; simpl; [rewrite Hf|]; reflexivity.
Qed.

(** [build] on a field whose value is an operator set. *)
Lemma build_operator_set (field fieldName : string) (operators : list (string * JsValue)) :
  isCombinatorKey field = false ->
  identifier sqlBuilder field = OK fieldName ->
  isRawExpression (VObject operators) = false ->
  isWhereOperator (VObject operators) = true ->
  build host sqlBuilder startingParamCount (VObject [(field, VObject operators)])
  = match processOperators fieldName operators initial with
    | OK (fragment, st) =>
        OK {| sql := if nonEmpty fragment then fragment else "1=1";
              params := this_params st |}
    | Err e => Err e
    end.
Proof.
  intros Hc Hi Hr Hw. apply (build_text _ _ _ Hc).
  apply processFieldCondition_operators; assumption.
Qed.

(** C9: a condition tree without entries (the empty object, and any other
    value [Object.entries] finds empty) compiles to the always-true
    predicate [1=1] with an empty parameter map, whatever the starting
    counter. *)
Theorem build_empty (condition : JsValue) :
  Object_entries condition = Some [] ->
  build host sqlBuilder startingParamCount condition
  = OK {| sql := "1=1"; params := [] |}.
Proof.
  intros Hentries.
  destruct condition as [| | b | n | z | s | t | elems | props];
    try discriminate Hentries; try reflexivity.
  - destruct s; [reflexivity | discriminate Hentries].
  - destruct elems; [reflexivity | discriminate Hentries].
  - injection Hentries as ->. reflexivity.
Qed.

(** [processOperators] on an operator set with one entry. *)
Lemma processOperators_single (fieldName op : string) (value : JsValue) (st : BuilderState) :
  processOperators fieldName [(op, value)] st = processOperator fieldName op value st.
Proof.
  unfold processOperators, mbind, ret. cbn [mapM fst snd]. unfold mbind, ret.
  destruct (processOperator fieldName op value st) as [[part st']|e]; reflexivity.
Qed.

(** A non-empty [in] or [notIn] binds its elements in order. *)
Lemma processOperator_array (fieldName : string) (v : JsValue) (vs : list JsValue)
      (st : BuilderState) :
  processOperator fieldName "in" (VArray (v :: vs)) st
  = match mapM addParam (v :: vs) st with
    | OK (ps, st') => OK (fieldName ++ " IN (" ++ join ", " ps ++ ")", st')
    | Err e => Err e
    end
  /\ processOperator fieldName "notIn" (VArray (v :: vs)) st
     = match mapM addParam (v :: vs) st with
       | OK (ps, st') => OK (fieldName ++ " NOT IN (" ++ join ", " ps ++ ")", st')
       | Err e => Err e
       end.
Proof. split; reflexivity. Qed.

(** Whatever the builder's state, an empty [in] or [notIn] compiles to a
    constant and leaves the state as it is. *)
Lemma processOperator_empty_array (fieldName : string) (st : BuilderState) :
  processOperator fieldName "in" (VArray []) st = OK ("1=0", st)
  /\ processOperator fieldName "notIn" (VArray []) st = OK ("1=1", st).
Proof. split; reflexivity. Qed.

(** C2: compiling [{ field: { in: values } }] and
    [{ field: { notIn: values } }].  With an empty array the fragment is
    the constant [1=0], respectively [1=1], and the parameter map is empty;
    with a non-empty array one placeholder and one parameter are produced
    per element, named from the starting counter on. *)
Theorem in_notIn_parameters (field fieldName : string) (values : list JsValue) :
  isCombinatorKey field = false ->
  identifier sqlBuilder field = OK fieldName ->
  build host sqlBuilder startingParamCount (fieldOperator field "in" (VArray values))
  = OK {| sql := match values with
                 | [] => "1=0"
                 | _ => fieldName ++ " IN ("
                        ++ join ", " (placeholders startingParamCount values) ++ ")"
                 end;
          params := boundParams startingParamCount values |}
  /\ build host sqlBuilder startingParamCount (fieldOperator field "notIn" (VArray values))
     = OK {| sql := match values with
                    | [] => "1=1"
                    | _ => fieldName ++ " NOT IN ("
                           ++ join ", " (placeholders startingParamCount values) ++ ")"
                    end;
             params := boundParams startingParamCount values |}
  /\ List.length (boundParams startingParamCount values) = List.length values
  /\ map snd (boundParams startingParamCount values) = values.
Proof.
  intros Hc Hi. unfold fieldOperator.
  repeat split.
  - rewrite (build_operator_set field fieldName _ Hc Hi) by reflexivity.
    rewrite processOperators_single.
    destruct values as [|v vs]; [reflexivity|].
    rewrite (proj1 (processOperator_array _ _ _ _)).
    rewrite (addParam_run (v :: vs) initial (fresh_initial _)).
    cbn [this_params this_paramCounter initial initialState app].
    rewrite nonEmpty_infix by reflexivity. reflexivity.
  - rewrite (build_operator_set field fieldName _ Hc Hi) by reflexivity.
    rewrite processOperators_single.
    destruct values as [|v vs]; [reflexivity|].
    rewrite (proj2 (processOperator_array _ _ _ _)).
    rewrite (addParam_run (v :: vs) initial (fresh_initial _)).
    cbn [this_params this_paramCounter initial initialState app].
    rewrite nonEmpty_infix by reflexivity. reflexivity.
  - apply mapi_from_length.
  - apply boundParams_values.
Qed.

(** C4: for a boolean [b], [{ field: { isNull: b } }] and
    [{ field: { notNull: !b } }] compile to the same result: [IS NULL] when
    [b] is true, [IS NOT NULL] when it is false, with an empty parameter
    map. *)
Theorem isNull_notNull_complement (field fieldName : string) (b : bool) :
  isCombinatorKey field = false ->
  identifier sqlBuilder field = OK fieldName ->
  build host sqlBuilder startingParamCount (fieldOperator field "isNull" (VBool b))
  = OK {| sql := fieldName ++ (if b then " IS NULL" else " IS NOT NULL");
          params := [] |}
  /\ build host sqlBuilder startingParamCount (fieldOperator field "notNull" (VBool (negb b)))
     = build host sqlBuilder startingParamCount (fieldOperator field "isNull" (VBool b)).
Proof.
  intros Hc Hi. unfold fieldOperator.
  rewrite !(build_operator_set field fieldName _ Hc Hi) by reflexivity.
  destruct b; simpl; rewrite !nonEmpty_append; split; reflexivity.
Qed.

(** An [in], [notIn] or [between] entry whose value has not the shape the
    operator demands throws the operator's own error. *)
Lemma processOperator_malformed (fieldName op : string) (value : JsValue)
      (st : BuilderState) :
  includes validKeys op = true -> wellShaped (op, value) = false ->
  processOperator fieldName op value st = Err (malformedError (op, value)).
Proof.
  intros Hop. apply includes_In in Hop. simpl in Hop.
  repeat destruct Hop as [Hop | Hop]; try contradiction; subst op;
    cbn [wellShaped malformedError String.eqb Ascii.eqb Bool.eqb orb]; intros Hshape;
    try discriminate Hshape;
    unfold processOperator; cbn [String.eqb Ascii.eqb Bool.eqb].
  - destruct value; try discriminate Hshape; reflexivity.
  - destruct value; try discriminate Hshape; reflexivity.
  - destruct value as [| | | | | | | [|x [|y [|w rest]]] |];
      try discriminate Hshape; reflexivity.
Qed.

Lemma firstMalformed_split (operators : list (string * JsValue))
      (entry : string * JsValue) :
  firstMalformed operators = Some entry ->
  wellShaped entry = false
  /\ exists pre post,
       operators = (pre ++ entry :: post)%list /\ forallb wellShaped pre = true.
Proof.
  unfold firstMalformed.
  induction operators as [|x rest IH]; cbn [find]; [discriminate|].
  destruct (wellShaped x) eqn:Hx; cbn [negb].
  - intros H. destruct (IH H) as [He [pre [post [Heq Hpre]]]].
    split; [exact He|]. exists (x :: pre), post. cbn [app forallb].
    rewrite Heq, Hx, Hpre. split; reflexivity.
  - intros H. injection H as <-. split; [exact Hx|].
    exists [], rest. split; reflexivity.
Qed.

Lemma firstMalformed_none (operators : list (string * JsValue)) :
  firstMalformed operators = None -> forallb wellShaped operators = true.
Proof.
  unfold firstMalformed.
  induction operators as [|x rest IH]; cbn [find forallb]; [reflexivity|].
  destruct (wellShaped x); cbn [negb andb]; [exact IH | discriminate].
Qed.

(** C3 (as amended): a field value that is an object with at least one key
    in the operator vocabulary and a key outside it.  Branded as a raw
    expression, it is not compiled as an operator set: its [sql] is
    returned, and nothing is thrown for the key.  Otherwise it is classified
    as an operator set and compiled whole as one, and [build] throws a
    [ValidationError]: [Unknown operator: k] for the first key [k] outside
    the vocabulary when every entry before it is well-formed, and else the
    error of the first malformed [in], [notIn] or [between] entry, which
    does not name [k]. *)
Theorem operator_set_unknown_key
        (field fieldName : string) (operators : list (string * JsValue)) (k : string) :
  isCombinatorKey field = false ->
  identifier sqlBuilder field = OK fieldName ->
  existsb (includes validKeys) (map fst operators) = true ->
  firstUnknownKey operators = Some k ->
  isWhereOperator (VObject operators) = true
  /\ (isRawExpression (VObject operators) = true ->
      forall st, processFieldCondition sqlBuilder field (VObject operators) st
                 = OK (rawSql (VObject operators), st))
  /\ (isRawExpression (VObject operators) = false ->
      (forall st, processFieldCondition sqlBuilder field (VObject operators) st
                  = mbind (processOperators fieldName operators)
                      (fun text => ret (VString text)) st)
      /\ build host sqlBuilder startingParamCount (VObject [(field, VObject operators)])
         = Err match firstMalformed (knownPrefix operators) with
               | Some entry => malformedError entry
               | None => validationError ("Unknown operator: " ++ k)
               end).
Proof.
  intros Hc Hi Hany Hfirst.
  assert (Hw : isWhereOperator (VObject operators) = true)
    by (rewrite isWhereOperator_object; exact Hany).
  split; [exact Hw|]. split.
  - intros Hraw st. unfold processFieldCondition, mbind, lift.
    rewrite Hi, Hraw. reflexivity.
  - intros Hraw.
    split; [intros st; apply processFieldCondition_operators; assumption|].
    rewrite (build_operator_set field fieldName operators Hc Hi Hraw Hw).
    destruct (firstUnknownKey_split operators k Hfirst) as [Hk [value [post Hsplit]]].
    assert (Hknown := knownPrefix_known operators).
    remember (knownPrefix operators) as known eqn:Hknown_def. clear Hknown_def.
    set (compile := fun entry : string * JsValue =>
                      processOperator fieldName (fst entry) (snd entry)).
    assert (Hreturns : forall pre, (forall entry, In entry pre -> In entry known) ->
                         forallb wellShaped pre = true ->
                         forall st, exists r, mapM compile pre st = OK r).
    { intros pre Hsub Hshape. apply mapM_returns. intros [op v] Hin st.
      apply processOperator_returns.
      - exact (Hknown (op, v) (Hsub (op, v) Hin)).
      - rewrite forallb_forall in Hshape. exact (Hshape (op, v) Hin). }
    unfold processOperators. fold compile. unfold mbind.
    destruct (firstMalformed known) as [[op v]|] eqn:Hbad.
    + destruct (firstMalformed_split known (op, v) Hbad)
        as [Hshape [pre [post' [Heq Hpre]]]].
      assert (Hin : In (op, v) known) by (rewrite Heq; apply in_elt).
      destruct (Hreturns pre) with (st := initial) as [[parts st'] Hr];
        [intros entry He; rewrite Heq; apply in_or_app; left; exact He | exact Hpre |].
      assert (Hstop : mapM compile operators initial = Err (malformedError (op, v))).
      { rewrite Hsplit. apply mapM_app_throws. rewrite Heq.
        apply (mapM_app_stops compile pre (op, v) post' _ _ _ _ Hr).
        apply processOperator_malformed; [exact (Hknown (op, v) Hin) | exact Hshape]. }
      rewrite Hstop. reflexivity.
    + destruct (Hreturns known) with (st := initial) as [[parts st'] Hr];
        [intros entry He; exact He | exact (firstMalformed_none known Hbad) |].
      assert (Hstop : mapM compile operators initial
                      = Err (validationError ("Unknown operator: " ++ k))).
      { rewrite Hsplit. apply (mapM_app_stops compile known (k, value) post _ _ _ _ Hr).
        apply processOperator_unknown. exact Hk. }
      rewrite Hstop. reflexivity.
Qed.

(** ** The recursion of [processCondition] *)

Lemma uint_of_dec_nat (i : nat) :
  NilEmpty.uint_of_string (dec_nat i) = Some (Nat.to_uint i).
Proof. unfold dec_nat. apply NilEmpty.usu. Qed.

(** An index key is no combinator key. *)
Lemma isCombinatorKey_index (i : nat) : isCombinatorKey (dec_nat i) = false.
Proof.
  assert (Hne : forall s, NilEmpty.uint_of_string s = None -> (dec_nat i =? s) = false).
  { intros s Hs. apply String.eqb_neq. intros Heq.
    rewrite <- Heq, uint_of_dec_nat in Hs. discriminate Hs. }
  unfold isCombinatorKey, isAndKey, isOrKey, isNotKey.
  rewrite !Hne by reflexivity. reflexivity.
Qed.

Lemma index_entries_keys {A : Type} (g : A -> JsValue) (xs : list A) (i : nat)
      (entry : string * JsValue) :
  In entry (mapi_from i (fun x j => (dec_nat j, g x)) xs) ->
  isCombinatorKey (fst entry) = false.
Proof.
  revert i. induction xs as [|x xs IH]; intros i; cbn [mapi_from]; [contradiction|].
  intros [<- | Hin]; [apply isCombinatorKey_index | exact (IH (S i) Hin)].
Qed.

(** On entries without a combinator key the loop never makes the recursive
    call. *)
Lemma processEntries_fields (recur recur' : JsValue -> M string)
      (entries : list (string * JsValue)) (st : BuilderState) :
  (forall entry, In entry entries -> isCombinatorKey (fst entry) = false) ->
  processEntries sqlBuilder recur entries st
  = processEntries sqlBuilder recur' entries st.
Proof.
  revert st. induction entries as [|[key value] rest IH]; intros st Hkeys;
    [reflexivity|].
  assert (Hk := Hkeys (key, value) (or_introl eq_refl)). cbn [fst] in Hk.
  unfold isCombinatorKey in Hk.
  apply orb_false_elim in Hk as [Hk Hn]. apply orb_false_elim in Hk as [Ha Ho].
  cbn [processEntries]. rewrite Ha, Ho, Hn.
  unfold mbind at 1 4.
  destruct (mbind (processFieldCondition sqlBuilder key value) _ st)
    as [[part st1]|e]; [|reflexivity].
  unfold mbind at 1 2.
  fold (processEntries sqlBuilder recur). fold (processEntries sqlBuilder recur').
  rewrite (IH st1) by (intros entry Hin; apply Hkeys; right; exact Hin).
  reflexivity.
Qed.

(** [processCondition] as the source writes it: one loop over
    [Object.entries(condition)] with itself as the recursive call. *)
Lemma processCondition_unfold (condition : JsValue) (st : BuilderState) :
  processCondition host sqlBuilder condition st
  = match Object_entries condition with
    | Some entries =>
        mbind (processEntries sqlBuilder (processCondition host sqlBuilder) entries)
          (fun parts => lift (Array_join host " AND " (pushed parts))) st
    | None => Err TypeError
    end.
Proof.
  destruct condition as [| | b | n | z | s | t | elems | props];
    try reflexivity.
  - cbn [processCondition Object_entries]. unfold mbind.
    rewrite (processEntries_fields _ (processCondition host sqlBuilder));
      [reflexivity|]. apply index_entries_keys.
  - cbn [processCondition Object_entries]. unfold mbind.
    rewrite (processEntries_fields _ (processCondition host sqlBuilder));
      [reflexivity|]. intros entry. apply (index_entries_keys (fun x => x)).
Qed.

End WhereBuilderFacts.

(* ================================================================== *)
(** * The statements on concrete inputs *)

(** ** Type mapper *)

(** C1 fails as stated: FixedString without [length], Decimal and
    DateTime64 without [precision] are rendered with substituted defaults
    instead of being refused. *)
Lemma getClickHouseType_defaults_counterexample :
  missingRequiredParameter (Col.ofType DataType.FixedString) = true
  /\ getClickHouseType exampleHost (Col.ofType DataType.FixedString)
     = OK "FixedString(255)"
  /\ missingRequiredParameter (Col.ofType DataType.Decimal) = true
  /\ getClickHouseType exampleHost (Col.ofType DataType.Decimal)
     = OK "Decimal(10, 2)"
  /\ missingRequiredParameter (Col.ofType DataType.DateTime64) = true
  /\ getClickHouseType exampleHost (Col.ofType DataType.DateTime64)
     = OK "DateTime64(3)".
Proof. repeat split; reflexivity. Qed.

Lemma getClickHouseType_missing_parameter_witness :
  missingRequiredParameter (Col.ofType DataType.Array) = true
  /\ getClickHouseType exampleHost (Col.ofType DataType.Array)
     = Err (TypeMappingError "Array type requires elementType"
              (Some "Array") None (OfColumn (Col.ofType DataType.Array))).
Proof.
  split; [reflexivity|].
  exact (getClickHouseType_missing_parameter exampleHost
           (Col.ofType DataType.Array) eq_refl).
Defined.

Example getClickHouseType_decimal :
  getClickHouseType exampleHost
    (Col.mk DataType.Decimal None None None None None None None
       (Some (ofZ 10)) (Some (ofZ 2)) None None)
  = OK "Decimal(10, 2)"
  /\ getClickHouseType exampleHost
       (Col.mk DataType.Decimal (Some true) None None None None None None
          (Some (ofZ 10)) (Some (ofZ 2)) None None)
     = OK "Nullable(Decimal(10, 2))".
Proof. split; reflexivity. Qed.

Example getClickHouseType_enum :
  getClickHouseType exampleHost
    (Col.mk DataType.Enum8 None None None None None None None None None None
       (Some ["active"; "inactive"]))
  = OK "Enum8('active' = 1, 'inactive' = 2)"
  /\ isErr (getClickHouseType exampleHost
              (Col.mk DataType.Enum16 None None None None None None None None None None
                 (Some [])))
     = true.
Proof. split; reflexivity. Qed.


(** Mismatches that [validateValue] reports by returning [false]. *)
Example validateValue_mismatches :
  validateValue exampleHost (num 256) (Col.ofType DataType.UInt8) = OK false
  /\ validateValue exampleHost (num (-32769)) (Col.ofType DataType.Int16) = OK false
  /\ validateValue exampleHost (num 4294967296) (Col.ofType DataType.UInt32) = OK false
  /\ validateValue exampleHost (num 123) (Col.ofType DataType.String) = OK false
  /\ validateValue exampleHost (VString "toolongstring")
       (Col.mk DataType.FixedString None None None None None None None None None
          (Some (ofZ 5)) None)
     = OK false
  /\ validateValue exampleHost (VString "unknown")
       (Col.mk DataType.Enum8 None None None None None None None None None None
          (Some ["active"; "inactive"]))
     = OK false
  /\ validateValue exampleHost VNull (nullableColumn DataType.String) = OK true
  /\ isErr (validateValue exampleHost VNull (Col.ofType DataType.String)) = true
  /\ isErr (validateValue exampleHost VUndefined (Col.ofType DataType.UInt8)) = true.
Proof. repeat split; reflexivity. Qed.

Lemma fromClickHouseValue_int64_witness :
  ToBigInt exampleHost (VBigInt 9007199254740992) = OK 9007199254740992%Z
  /\ fromClickHouseValue exampleHost (VBigInt 9007199254740992) DataType.Int64
     = OK (VBigInt 9007199254740992).
Proof.
  split; [reflexivity|].
  exact (fromClickHouseValue_int64 exampleHost (VBigInt 9007199254740992)
           DataType.Int64 9007199254740992 (or_introl eq_refl) eq_refl).
Defined.

Example fromClickHouseValue_int64_values :
  fromClickHouseValue exampleHost (VBigInt 123) DataType.Int64 = OK (num 123)
  /\ fromClickHouseValue exampleHost (VBigInt 9007199254740991) DataType.UInt64
     = OK (num 9007199254740991)
  /\ fromClickHouseValue exampleHost (VBigInt (-9007199254740992)) DataType.Int64
     = OK (VBigInt (-9007199254740992))
  /\ fromClickHouseValue exampleHost (VString "18446744073709551615") DataType.UInt64
     = OK (VBigInt 18446744073709551615)
  /\ fromClickHouseValue exampleHost (num 42) DataType.Int64 = OK (num 42)
  /\ fromClickHouseValue exampleHost (VNumber (Finite (3 # 2))) DataType.Int64
     = Err RangeError
  /\ fromClickHouseValue exampleHost VNull DataType.Int64 = OK VNull.
Proof. repeat split; reflexivity. Qed.

Lemma validateValue_int64_witness :
  Col.type (Col.ofType DataType.Int64) = DataType.Int64
  /\ isNullish (VNumber (Finite (3 # 2))) = false
  /\ validateValue exampleHost (VNumber (Finite (3 # 2))) (Col.ofType DataType.Int64)
     = OK true.
Proof.
  split; [reflexivity|]. split; [reflexivity|].
  exact (validateValue_int64 exampleHost (VNumber (Finite (3 # 2)))
           (Col.ofType DataType.Int64) (or_introl eq_refl) eq_refl).
Defined.

Example validateValue_int64_unchecked :
  validateValue exampleHost (num (2 ^ 70)) (Col.ofType DataType.UInt64) = OK true
  /\ validateValue exampleHost (num (-1)) (Col.ofType DataType.UInt64) = OK true
  /\ validateValue exampleHost (VNumber NaN) (Col.ofType DataType.Int64) = OK true
  /\ validateValue exampleHost (VBigInt (2 ^ 70)) (Col.ofType DataType.Int64) = OK true
  /\ validateValue exampleHost (VString "12") (Col.ofType DataType.Int64) = OK false.
Proof. repeat split; reflexivity. Qed.

(** ** Validator and schema construction *)



Example validatePartialData_cases :
  validatePartialData exampleHost [("name", VNull)] usersSchema = OK tt
  /\ validatePartialData exampleHost [("id", VNull)] usersSchema
     = Err (ValidationError "Cannot update primary key field 'id'"
              (Some "id") VNull (Some "primaryKey"))
  /\ validatePartialData exampleHost [("age", num 300)] usersSchema
     = Err (ValidationError "Invalid value for field 'age': expected UInt8"
              (Some "age") (num 300) (Some "type"))
  /\ validatePartialData exampleHost [("age", num 30); ("name", VString "Ann")] usersSchema
     = OK tt.
Proof. repeat split; reflexivity. Qed.

Lemma duplicate_primary_keys_rejected_witness :
  NoDup (map fst twoKeysSchema)
  /\ 2 <= List.length (primaryKeyColumns twoKeysSchema)
  /\ validateSchema twoKeysSchema
     = Err (validationError
              "Multiple primary keys found: id, code. Only one primary key is allowed.").
Proof.
  assert (Hnd : NoDup (map fst twoKeysSchema)).
  { repeat constructor; simpl; intuition discriminate. }
  assert (Hlen : 2 <= List.length (primaryKeyColumns twoKeysSchema)).
  { apply le_n. }
  split; [exact Hnd|]. split; [exact Hlen|].
  exact (proj1 (duplicate_primary_keys_rejected twoKeysSchema Hnd Hlen)).
Defined.

Example TableSchema_new_cases :
  isErr (TableSchema_new "users" twoKeysSchema) = true
  /\ TableSchema_new "users" usersSchema
     = OK {| name := "users";
             schema := usersSchema;
             columnNames := ["id"; "name"; "age"];
             primaryKeyColumn := Some "id" |}.
Proof. split; reflexivity. Qed.

(** ** Condition compiler *)

Lemma build_empty_witness :
  Object_entries (VObject []) = Some []
  /\ build exampleHost specSQLBuilder 0 (VObject [])
     = OK {| sql := "1=1"; params := [] |}.
Proof.
  split; [reflexivity|].
  exact (build_empty exampleHost specSQLBuilder 0 (VObject []) eq_refl).
Defined.

Lemma in_notIn_parameters_witness :
  isCombinatorKey "id" = false
  /\ identifier specSQLBuilder "id" = OK "`id`"
  /\ build exampleHost specSQLBuilder 0
       (fieldOperator "id" "in" (VArray [num 1; num 2; num 3]))
     = OK {| sql := "`id` IN ({param0:Int32}, {param1:Int32}, {param2:Int32})";
             params := [("param0", num 1); ("param1", num 2); ("param2", num 3)] |}.
Proof.
  split; [reflexivity|]. split; [reflexivity|].
  exact (proj1 (in_notIn_parameters exampleHost specSQLBuilder 0 "id" "`id`"
                  [num 1; num 2; num 3] eq_refl eq_refl)).
Defined.

Example build_empty_arrays :
  build exampleHost specSQLBuilder 4 (fieldOperator "id" "in" (VArray []))
  = OK {| sql := "1=0"; params := [] |}
  /\ build exampleHost specSQLBuilder 4 (fieldOperator "id" "notIn" (VArray []))
     = OK {| sql := "1=1"; params := [] |}
  /\ build exampleHost specSQLBuilder 4
       (fieldOperator "id" "notIn" (VArray [VString "a"; VBool true]))
     = OK {| sql := "`id` NOT IN ({param4:String}, {param5:UInt8})";
             params := [("param4", VString "a"); ("param5", VBool true)] |}.
Proof. repeat split; reflexivity. Qed.

(** C3 fails as stated: an object with a vocabulary key and a key outside
    the vocabulary need not raise an error naming that key.  A malformed
    [in] entry before the key [foo] throws its own error; an object branded
    as a raw expression is returned as its [sql] and nothing is thrown. *)
Lemma operator_set_unknown_key_counterexample :
  isWhereOperator (VObject [("in", VString "x"); ("foo", num 1)]) = true
  /\ firstUnknownKey [("in", VString "x"); ("foo", num 1)] = Some "foo"
  /\ build exampleHost specSQLBuilder 0
       (VObject [("age", VObject [("in", VString "x"); ("foo", num 1)])])
     = Err (ValidationError "IN operator requires an array" None (VString "x") None)
  /\ isWhereOperator
       (VObject [("_brand", VString "RawExpression"); ("sql", VString "age > 1");
                 ("eq", num 1); ("foo", num 2)])
     = true
  /\ build exampleHost specSQLBuilder 0
       (VObject [("age",
                  VObject [("_brand", VString "RawExpression"); ("sql", VString "age > 1");
                           ("eq", num 1); ("foo", num 2)])])
     = OK {| sql := "age > 1"; params := [] |}.
Proof. repeat split; reflexivity. Qed.

Lemma operator_set_unknown_key_witness :
  isCombinatorKey "age" = false
  /\ identifier specSQLBuilder "age" = OK "`age`"
  /\ firstUnknownKey [("gt", num 18); ("foo", num 1)] = Some "foo"
  /\ build exampleHost specSQLBuilder 0
       (VObject [("age", VObject [("gt", num 18); ("foo", num 1)])])
     = Err (validationError "Unknown operator: foo").
Proof.
  split; [reflexivity|]. split; [reflexivity|]. split; [reflexivity|].
  exact (proj2 (proj2 (proj2 (operator_set_unknown_key exampleHost specSQLBuilder 0
                                "age" "`age`" [("gt", num 18); ("foo", num 1)] "foo"
                                eq_refl eq_refl eq_refl eq_refl))
                  eq_refl)).
Defined.

Example operator_set_cases :
  build exampleHost specSQLBuilder 0
    (VObject [("age", VObject [("gt", num 18); ("foo", num 1)])])
  = Err (validationError "Unknown operator: foo")
  /\ build exampleHost specSQLBuilder 0
       (VObject [("meta", VObject [("in", VString "x"); ("between", num 1)])])
     = Err (ValidationError "IN operator requires an array" None (VString "x") None)
  /\ build exampleHost specSQLBuilder 0
       (VObject [("meta", VObject [("color", VString "red")])])
     = OK {| sql := "`meta` = {param0:String}";
             params := [("param0", VObject [("color", VString "red")])] |}
  /\ build exampleHost specSQLBuilder 0
       (VObject [("age", VObject [("gt", num 18); ("lt", num 65)])])
     = OK {| sql := "`age` > {param0:Int32} AND `age` < {param1:Int32}";
             params := [("param0", num 18); ("param1", num 65)] |}.
Proof. repeat split; reflexivity. Qed.

Lemma isNull_notNull_complement_witness :
  isCombinatorKey "age" = false
  /\ identifier specSQLBuilder "age" = OK "`age`"
  /\ build exampleHost specSQLBuilder 0 (fieldOperator "age" "isNull" (VBool false))
     = OK {| sql := "`age` IS NOT NULL"; params := [] |}.
Proof.
  split; [reflexivity|]. split; [reflexivity|].
  exact (proj1 (isNull_notNull_complement exampleHost specSQLBuilder 0
                  "age" "`age`" false eq_refl eq_refl)).
Defined.

Example build_null_tests :
  build exampleHost specSQLBuilder 0 (fieldOperator "age" "isNull" (VBool true))
  = OK {| sql := "`age` IS NULL"; params := [] |}
  /\ build exampleHost specSQLBuilder 0 (fieldOperator "age" "notNull" (VBool false))
     = OK {| sql := "`age` IS NULL"; params := [] |}
  /\ build exampleHost specSQLBuilder 0 (fieldOperator "age" "notNull" (VBool true))
     = OK {| sql := "`age` IS NOT NULL"; params := [] |}
  /\ build exampleHost specSQLBuilder 0 (VObject [("age", VNull)])
     = OK {| sql := "`age` IS NULL"; params := [] |}.
Proof. repeat split; reflexivity. Qed.

Example build_groups :
  build exampleHost specSQLBuilder 0
    (VObject [("and", VArray [VObject [("age", VObject [("gt", num 18)])];
                              VObject [("age", VObject [("lt", num 65)])]])])
  = OK {| sql := "(`age` > {param0:Int32} AND `age` < {param1:Int32})";
          params := [("param0", num 18); ("param1", num 65)] |}
  /\ build exampleHost specSQLBuilder 0
       (VObject [("$or", VArray [VObject []; VObject [("id", num 1)]]);
                 ("not", VObject [("name", VString "x")])])
     = OK {| sql := "(`id` = {param0:Int32}) AND NOT (`name` = {param1:String})";
             params := [("param0", num 1); ("param1", VString "x")] |}.
Proof. split; reflexivity. Qed.

(* ================================================================== *)
(** * Type mapper: further properties *)



Section TypeMapperMoreFacts.

Variable host : Host.
Variable Date_toISOString : Q -> string.
Variable JSON_stringify : JsValue -> option string.

(** X3: a value checked against the kind inferred from it.  Every value
    that is neither [null] nor [undefined] passes, except [NaN] and the
    integers outside the signed 32-bit range, which are inferred as Int32
    and then refused. *)
Theorem inferClickHouseType_validates (value : JsValue) (column : ColumnDefinition) :
  isNullish value = false ->
  Col.type column = inferClickHouseType value ->
  validateValue host value column = OK (acceptedAsInferred value).
Proof.
  intros Hn Ht. unfold validateValue. rewrite Hn, Ht.
  destruct value as [| | b | n | z | s | t | elems | props];
    try discriminate Hn; try reflexivity.
  unfold inferClickHouseType, acceptedAsInferred; simpl.
  destruct (Number_isInteger n) eqn:Hi.
  - unfold integerInRange, isInteger. rewrite Hi. reflexivity.
  - reflexivity.
Qed.

Lemma positive_number_bounds (n : JsNumber) :
  number_truthy n = true -> num_le n (ofZ 0) = false -> num_le (ofZ 0) n = true.
Proof.
  destruct n as [q | | |]; simpl; try discriminate; try reflexivity.
  intros _ Hle. apply Qle_bool_iff. apply Qlt_le_weak, Qnot_le_lt.
  intros Hq. apply Qle_bool_iff in Hq. rewrite Hq in Hle. discriminate Hle.
Qed.

(** X4: the zero value of a kind passes the validity check of every column
    of that kind that [validateColumnDefinition] accepts, for the kinds that
    have one; for Enum8, Enum16, Tuple, Nested, Nullable and LowCardinality
    [getDefaultValue] gives [null], which a column that is not nullable
    refuses by throwing. *)
Theorem getDefaultValue_valid (fieldName : string) (column : ColumnDefinition) :
  validateColumnDefinition fieldName column = OK tt ->
  (hasZeroValue (Col.type column) = true ->
   validateValue host (getDefaultValue (Col.type column)) column = OK true)
  /\ (hasZeroValue (Col.type column) = false ->
      getDefaultValue (Col.type column) = VNull
      /\ isErr (validateValue host (getDefaultValue (Col.type column)) column)
         = negb (flag (Col.nullable column))).
Proof.
  intros Hvalid. split.
  - intros Hz. destruct column as [ty nu pk un de au co el pr sc le en].
    simpl in *. destruct ty; try discriminate Hz; try reflexivity.
    unfold validateColumnDefinition in Hvalid. simpl in Hvalid.
    destruct (isValidIdentifier fieldName); [|discriminate Hvalid].
    simpl in Hvalid.
    unfold validateValue; simpl.
    destruct le as [len|]; [|reflexivity].
    simpl in Hvalid.
    destruct (number_truthy len) eqn:Htruthy; [|reflexivity].
    simpl in Hvalid.
    destruct (num_le len (ofZ 0)) eqn:Hle; [discriminate Hvalid|].
    pose proof (positive_number_bounds len Htruthy Hle) as Hpos.
    f_equal. exact Hpos.
  - intros Hz. destruct (Col.type column) eqn:Ht; try discriminate Hz;
      (split; [reflexivity|]); unfold validateValue; simpl;
      destruct (flag (Col.nullable column)); reflexivity.
Qed.

Lemma Qtrunc_inject_Z (z : Z) : Qtrunc (inject_Z z) = z.
Proof. unfold Qtrunc, inject_Z; simpl. apply Z.quot_1_r. Qed.

Lemma Number_isInteger_ofZ (z : Z) : Number_isInteger (ofZ z) = true.
Proof. unfold Number_isInteger, ofZ, inject_Z; simpl. rewrite Z.mod_1_r. reflexivity. Qed.

(** X5: round trip.  Converting a value to its wire form and back gives
    the value itself when it is in the representation the kind keeps: a
    number for the 32-bit and floating kinds, a bigint beyond the safe range
    for the 64-bit kinds, a boolean, a string for the string-like and enum
    kinds, an array for Array. *)
Theorem wire_round_trip (value : JsValue) (dataType : DataType.t) :
  keptByConversions dataType value = true ->
  rbind (toClickHouseValue host Date_toISOString JSON_stringify value dataType)
    (fun wire => fromClickHouseValue host wire dataType)
  = OK value.
Proof.
  intros Hk. unfold toClickHouseValue, fromClickHouseValue.
  destruct dataType; simpl in Hk; try discriminate Hk;
    destruct value as [| | b | n | z | s | t | elems | props];
    try discriminate Hk; try reflexivity.
  - simpl. apply negb_true_iff in Hk.
    assert (Hs : ((z <=? MAX_SAFE_INTEGER) && (z >=? MIN_SAFE_INTEGER))%Z = false).
    { rewrite <- Hk. unfold isSafeInteger. rewrite Z.geb_leb. apply andb_comm. }
    rewrite Hs. reflexivity.
  - simpl. apply negb_true_iff in Hk.
    assert (Hs : ((z <=? MAX_SAFE_INTEGER) && (z >=? MIN_SAFE_INTEGER))%Z = false).
    { rewrite <- Hk. unfold isSafeInteger. rewrite Z.geb_leb. apply andb_comm. }
    rewrite Hs. reflexivity.
Qed.

(** X6: 64-bit integers in the safe range change representation on the way
    back: a safe bigint, and a safe integral number, both return as the
    plain number of the same value. *)
Theorem wire_round_trip_safe_integer (z : Z) (dataType : DataType.t) :
  dataType = DataType.Int64 \/ dataType = DataType.UInt64 ->
  isSafeInteger z = true ->
  rbind (toClickHouseValue host Date_toISOString JSON_stringify (VBigInt z) dataType)
    (fun wire => fromClickHouseValue host wire dataType)
  = OK (VNumber (ofZ z))
  /\ rbind (toClickHouseValue host Date_toISOString JSON_stringify (VNumber (ofZ z)) dataType)
       (fun wire => fromClickHouseValue host wire dataType)
     = OK (VNumber (ofZ z)).
Proof.
  intros Hk Hsafe.
  assert (Hs : ((z <=? MAX_SAFE_INTEGER) && (z >=? MIN_SAFE_INTEGER))%Z = true).
  { rewrite <- Hsafe. unfold isSafeInteger. rewrite Z.geb_leb. apply andb_comm. }
  assert (Hn : ToBigInt host (VNumber (ofZ z)) = OK z).
  { unfold ToBigInt. cbn [ToPrimitive_number ofZ rbind].
    change (Finite (inject_Z z)) with (ofZ z).
    rewrite Number_isInteger_ofZ, Qtrunc_inject_Z. reflexivity. }
  unfold toClickHouseValue, fromClickHouseValue.
  destruct Hk as [-> | ->]; cbn [isNullish rbind]; rewrite Hn; cbn [isNullish rbind];
    rewrite Hs, (BigInt_toNumber_safe host z Hsafe); split; reflexivity.
Qed.

Lemma ToBigInt_host_error (value : JsValue) (e : Error) :
  ToBigInt host value = Err e -> isTypeMappingError e = false.
Proof.
  unfold ToBigInt.
  destruct (ToPrimitive_number host value)
    as [[| | [] | [q| | |] | z | s | t | elems | props]|e1] eqn:Hp; cbn [rbind];
    try (intros H; injection H as <-; reflexivity); try discriminate.
  3: { intros H. injection H as <-.
       rewrite (ToPrimitive_number_error host value e1 Hp). reflexivity. }
  - destruct (Number_isInteger (Finite q)); [discriminate|].
    intros H; injection H as <-; reflexivity.
  - destruct (StringToBigInt host s); [discriminate|].
    intros H; injection H as <-; reflexivity.
Qed.

Lemma toISOString_host_error (t : JsNumber) (e : Error) :
  toISOString Date_toISOString t = Err e -> isTypeMappingError e = false.
Proof.
  destruct t; simpl; try discriminate; intros H; injection H as <-; reflexivity.
Qed.

(** X7: [toClickHouseValue] maps [null] and [undefined] to [null] for every
    kind, and on other values throws a [TypeMappingError] exactly when the
    value has the wrong shape for a structural kind (no array for Array, no
    object for JSON or Map). *)
Theorem toClickHouseValue_shape_errors (value : JsValue) (dataType : DataType.t) :
  (isNullish value = true ->
   toClickHouseValue host Date_toISOString JSON_stringify value dataType = OK VNull)
  /\ (isNullish value = false ->
      match toClickHouseValue host Date_toISOString JSON_stringify value dataType with
      | OK _ => wrongShape dataType value = false
      | Err e => isTypeMappingError e = wrongShape dataType value
      end).
Proof.
  unfold toClickHouseValue. split; intros Hn; rewrite Hn; [reflexivity|].
  assert (Hbig : forall v,
             match rbind (ToBigInt host v) (fun z => OK (VBigInt z)) with
             | OK _ => false = false
             | Err e => isTypeMappingError e = false
             end).
  { intros v. destruct (ToBigInt host v) as [z|e] eqn:Hz; simpl; [reflexivity|].
    exact (ToBigInt_host_error v e Hz). }
  assert (Hiso : forall t,
             match rbind (toISOString Date_toISOString t) (fun iso => OK (VString iso)) with
             | OK _ => false = false
             | Err e => isTypeMappingError e = false
             end).
  { intros t. destruct (toISOString Date_toISOString t) as [iso|e] eqn:Ht; simpl;
      [reflexivity|]. exact (toISOString_host_error t e Ht). }
  assert (Hdate : forall v,
             match rbind (Date_construct host v)
                     (fun date =>
                        match date with
                        | VDate t =>
                            rbind (toISOString Date_toISOString t)
                              (fun iso => OK (VString iso))
                        | _ => Err TypeError
                        end) with
             | OK _ => false = false
             | Err e => isTypeMappingError e = false
             end).
  { intros v. pose proof (Date_construct_cases host v) as Hcases.
    destruct Hcases as [[t Hd] | Hd]; rewrite Hd; simpl.
    - apply Hiso.
    - reflexivity. }
  assert (Hnum : match rbind (ToNumber host value) (fun n => OK (VNumber n)) with
                 | OK _ => false = false
                 | Err e => isTypeMappingError e = false
                 end).
  { destruct (ToNumber host value) as [n|e] eqn:Hv; simpl; [reflexivity|].
    rewrite (ToNumber_error host value e Hv). reflexivity. }
  assert (Hstr : match rbind (ToString host value) (fun s => OK (VString s)) with
                 | OK _ => false = false
                 | Err e => isTypeMappingError e = false
                 end).
  { destruct (ToString host value) as [text|e] eqn:Hv; simpl; [reflexivity|].
    rewrite (ToString_error host value e Hv). reflexivity. }
  destruct dataType; cbn [wrongShape]; try reflexivity;
    try exact Hnum; try exact Hstr;
    try (destruct value; first [reflexivity | apply Hbig | apply Hiso | apply Hdate]).
  - destruct (TypeTag_eqb (typeof value) TObject); simpl; [|reflexivity].
    destruct (JSON_stringify value); reflexivity.
  - destruct (TypeTag_eqb (typeof value) TObject); simpl; [|reflexivity].
    destruct (JSON_stringify value); reflexivity.
Qed.

End TypeMapperMoreFacts.

(** X8: the wire type a placeholder carries is the name of the kind
    [inferClickHouseType] infers exactly for numbers, bigints, strings and
    dates; for the other values ([null], booleans, arrays, objects) the two
    inferences differ. *)
Theorem inferParamType_agrees (value : JsValue) :
  inferParamType value = DataType.toString (inferClickHouseType value)
  <-> match value with
      | VNumber _ | VBigInt _ | VString _ | VDate _ => true
      | _ => false
      end = true.
Proof.
  destruct value as [| | b | n | z | s | t | elems | props];
    unfold inferParamType, inferClickHouseType; simpl;
    try destruct (Number_isInteger n);
    split; intros H; first [reflexivity | discriminate H].
Qed.

(* ================================================================== *)
(** * Validator: further properties *)

(** X9: [sanitizeInput] leaves no null byte, keeps input without null
    bytes as it is, and sanitizing twice changes nothing more. *)
Theorem sanitizeInput_removes_nulls (input : string) :
  ~ In Ascii.zero (charactersOf (sanitizeInput input))
  /\ (~ In Ascii.zero (charactersOf input) -> sanitizeInput input = input)
  /\ sanitizeInput (sanitizeInput input) = sanitizeInput input.
Proof.
  assert (Hno : forall s, ~ In Ascii.zero (charactersOf (sanitizeInput s))).
  { induction s as [|c rest IH]; simpl; [tauto|].
    destruct (Ascii.eqb_spec c Ascii.zero) as [-> | Hne]; [exact IH|].
    simpl. intros [Heq | Hin]; [exact (Hne Heq) | exact (IH Hin)]. }
  assert (Hid : forall s, ~ In Ascii.zero (charactersOf s) -> sanitizeInput s = s).
  { induction s as [|c rest IH]; simpl; [reflexivity|].
    intros Hnot. destruct (Ascii.eqb_spec c Ascii.zero) as [-> | Hne].
    - exfalso. apply Hnot. left; reflexivity.
    - rewrite IH; [reflexivity|]. intros Hin. apply Hnot. right; exact Hin. }
  split; [apply Hno|]. split; [apply Hid|]. apply Hid, Hno.
Qed.

(** X10: [applyValidationRules] applies the rules in order and throws for
    the first one the value fails, with that rule's message, the field name
    and the constraint [custom]; it returns when the value passes them
    all. *)
Theorem applyValidationRules_first_failure
        (value : JsValue) (rules : list Rule.ValidationRule) (fieldName : option string) :
  applyValidationRules value rules fieldName
  = match firstFailedRule value rules with
    | Some rule =>
        Err (ValidationError (Rule.message rule) fieldName value (Some "custom"))
    | None => OK tt
    end
  /\ (applyValidationRules value rules fieldName = OK tt
      <-> forall rule, In rule rules -> Rule.validate rule value = true).
Proof.
  unfold firstFailedRule. split.
  - induction rules as [|rule rest IH]; simpl; [reflexivity|].
    destruct (Rule.validate rule value); simpl; [exact IH | reflexivity].
  - induction rules as [|rule rest IH]; simpl.
    + split; [intros _ rule [] | reflexivity].
    + destruct (Rule.validate rule value) eqn:Hv; simpl.
      * rewrite IH. split.
        -- intros Hall r [<- | Hin]; [exact Hv | exact (Hall r Hin)].
        -- intros Hall r Hin. apply Hall. right; exact Hin.
      * split; [discriminate|]. intros Hall.
        rewrite (Hall rule (or_introl eq_refl)) in Hv. discriminate Hv.
Qed.

Lemma validOperators_are_identifiers (key : string) :
  includes validOperators key = true -> isValidIdentifier key = true.
Proof.
  intros H. apply includes_In in H. simpl in H.
  repeat destruct H as [H | H]; try contradiction; subst key; reflexivity.
Qed.

Lemma validateWhereCondition_loop (condition : JsValue) (keys : list string) :
  isErr
    (forEachKey
       (fun key =>
          if (key =? "and") || (key =? "or") || (key =? "not") then OK tt
          else
            check (negb (includes validOperators key) && negb (isValidIdentifier key))
              (ValidationError
                 ("Invalid WHERE condition operator or field: '" ++ key ++ "'")
                 (Some key) condition None))
       keys)
  = negb (forallb isValidIdentifier keys).
Proof.
  induction keys as [|key rest IH]; [reflexivity|].
  cbn [forEachKey forallb].
  destruct ((key =? "and") || (key =? "or") || (key =? "not")) eqn:Hlogical.
  - assert (Hid : isValidIdentifier key = true).
    { apply orb_prop in Hlogical as [Hlogical | Hnot].
      - apply orb_prop in Hlogical as [Hand | Hor].
        + apply String.eqb_eq in Hand. subst. reflexivity.
        + apply String.eqb_eq in Hor. subst. reflexivity.
      - apply String.eqb_eq in Hnot. subst. reflexivity. }
    rewrite Hid. cbn [rbind andb]. exact IH.
  - destruct (isValidIdentifier key) eqn:Hid.
    + rewrite andb_false_r. cbn [check rbind andb negb]. exact IH.
    + destruct (includes validOperators key) eqn:Hop.
      * rewrite (validOperators_are_identifiers key Hop) in Hid. discriminate Hid.
      * reflexivity.
Qed.

(** X11: on an object, [validateWhereCondition] throws exactly when some
    key is no valid identifier (every operator and the combinators [and],
    [or], [not] being identifiers themselves).  Hence it refuses every
    condition with a key [$and], [$or] or [$not], which [WhereBuilder]
    compiles as combinators. *)
Theorem validateWhereCondition_identifiers (props : list (string * JsValue)) :
  isErr (validateWhereCondition (VObject props))
  = negb (forallb isValidIdentifier (map fst props))
  /\ (forall key,
        In key ["$and"; "$or"; "$not"] -> In key (map fst props) ->
        isCombinatorKey key = true
        /\ isErr (validateWhereCondition (VObject props)) = true).
Proof.
  assert (Hloop : isErr (validateWhereCondition (VObject props))
                  = negb (forallb isValidIdentifier (map fst props))).
  { unfold validateWhereCondition. cbn [isNullish typeof TypeTag_eqb negb Object_keys
                                          Object_entries option_map].
    apply validateWhereCondition_loop. }
  split; [exact Hloop|].
  intros key Hkey Hin. split.
  - simpl in Hkey. repeat destruct Hkey as [Hkey | Hkey]; try contradiction;
      subst key; reflexivity.
  - rewrite Hloop. apply negb_true_iff.
    destruct (forallb isValidIdentifier (map fst props)) eqn:Hall; [|reflexivity].
    rewrite forallb_forall in Hall. specialize (Hall key Hin).
    simpl in Hkey. repeat destruct Hkey as [Hkey | Hkey]; try contradiction;
      subst key; discriminate Hall.
Qed.

Section ValidatorMoreFacts.

Variable host : Host.
(** the property names every object inherits from [Object.prototype] *)
Variable inheritedProperty : string -> bool.

Lemma validateData_loop (data : list (string * JsValue)) (columns : SchemaDefinition) :
  forEach (fun fieldName column =>
             let value := getField data fieldName in
             if isNullish value then
               check (negb (flag (Col.nullable column))
                      && match Col.default column with
                         | None => true
                         | Some _ => false
                         end
                      && negb (flag (Col.autoIncrement column)))
                 (ValidationError ("Field '" ++ fieldName ++ "' is required")
                    (Some fieldName) value (Some "required"))
             else
               rbind (validateValue host value column)
                 (fun valid => check (negb valid) (invalidValue fieldName column value)))
    columns = OK tt
  <-> forallb (columnSatisfied host data) columns = true.
Proof.
  induction columns as [|[k c] rest IH]; simpl; [tauto|].
  unfold columnSatisfied at 1; simpl fst; simpl snd. unfold mayBeOmitted.
  destruct (isNullish (getField data k)) eqn:Hn.
  - destruct (flag (Col.nullable c)), (Col.default c), (flag (Col.autoIncrement c));
      simpl; try exact IH; split; discriminate.
  - destruct (validateValue_not_null host (getField data k) c Hn)
      as [[Ht Hv] | [Ht [valid Hv]]]; rewrite Hv; simpl; [split; discriminate|].
    destruct valid; simpl; [exact IH | split; discriminate].
Qed.

Lemma unknown_fields_loop (schema : SchemaDefinition) (mkError : string -> Error)
      (entries : list (string * JsValue)) :
  forEach (fun field (_ : JsValue) => check (negb (hasField schema field)) (mkError field))
    entries = OK tt
  <-> forallb (hasField schema) (map fst entries) = true.
Proof.
  induction entries as [|[k v] rest IH]; simpl; [tauto|].
  destruct (hasField schema k); simpl; [exact IH | split; discriminate].
Qed.

Lemma checkUnknownFields_iff (data : list (string * JsValue)) (schema : SchemaDefinition) :
  checkUnknownFields data schema = OK tt
  <-> forallb (hasField schema) (map fst data) = true.
Proof. unfold checkUnknownFields. apply unknown_fields_loop. Qed.

(** When [validateData] returns: the unknown-field loop and the column
    loop both run through. *)
Lemma validateData_accepts (data : list (string * JsValue)) (schema : SchemaDefinition) :
  validateData host data schema = OK tt
  <-> forallb (hasField schema) (map fst data) = true
      /\ forallb (columnSatisfied host data) schema = true.
Proof.
  unfold validateData.
  destruct (checkUnknownFields data schema) as [[]|e] eqn:Hu; simpl.
  - rewrite validateData_loop. apply checkUnknownFields_iff in Hu. tauto.
  - split; [discriminate|]. intros [Hk _].
    apply checkUnknownFields_iff in Hk. rewrite Hk in Hu. discriminate Hu.
Qed.

Lemma lookup_Some_In {A : Type} (l : list (string * A)) (k : string) (v : A) :
  lookup k l = Some v -> In (k, v) l.
Proof.
  induction l as [|[k' v'] l IH]; simpl; [discriminate|].
  destruct (String.eqb_spec k' k) as [-> | Hne].
  - intros H; injection H as ->. left; reflexivity.
  - intros H. right. exact (IH H).
Qed.



Lemma getField_NoDup (data : list (string * JsValue)) (k : string) (v : JsValue) :
  NoDup (map fst data) -> In (k, v) data -> getField data k = v.
Proof.
  intros Hnd Hin. unfold getField. rewrite (lookup_NoDup_In data k v Hnd Hin). reflexivity.
Qed.

Lemma validatePartialData_isErr (data : list (string * JsValue)) (schema : SchemaDefinition) :
  forallb (hasField schema) (map fst data) = true ->
  isErr (validatePartialData host data schema)
  = existsb (refusedUpdate host schema) data.
Proof.
  intros Hall. unfold validatePartialData, checkUnknownFields.
  rewrite (checkUnknownFields_known schema _ data Hall); simpl.
  exact (proj1 (partial_loop_raises host schema data)).
Qed.

(** X13: a record that [validateData] accepts for creation and that names
    no primary-key column is accepted by [validatePartialData] for update
    (record keys distinct, no inherited property under the name of a
    column the record leaves out). *)
Theorem validateData_implies_partial
        (data : list (string * JsValue)) (schema : SchemaDefinition) :
  NoDup (map fst data) ->
  readsOwnFields inheritedProperty data schema = true ->
  validateData host data schema = OK tt ->
  (forall key column,
     In key (map fst data) -> lookup key schema = Some column ->
     flag (Col.primaryKey column) = false) ->
  validatePartialData host data schema = OK tt.
Proof.
  intros Hnd _ Hfull Hpk.
  apply validateData_accepts in Hfull as [Hkeys Hcols].
  assert (Hr := validatePartialData_isErr data schema Hkeys).
  destruct (existsb (refusedUpdate host schema) data) eqn:Hex.
  - exfalso. apply existsb_exists in Hex as [[k v] [Hin Href]].
    unfold refusedUpdate in Href; simpl in Href.
    destruct (lookup k schema) as [column|] eqn:Hl; [|discriminate Href].
    rewrite (Hpk k column (in_map fst _ _ Hin) Hl) in Href. simpl in Href.
    apply andb_prop in Href as [Hn Hfail]. apply negb_true_iff in Hn.
    rewrite forallb_forall in Hcols.
    specialize (Hcols (k, column) (lookup_Some_In schema k column Hl)).
    unfold columnSatisfied in Hcols; simpl in Hcols.
    rewrite (getField_NoDup data k v Hnd Hin), Hn in Hcols.
    unfold failsValidity in Hfail.
    destruct (validateValue_not_null host v column Hn) as [[Ht Hv] | [Ht [valid Hv]]];
      rewrite Hv in Hcols, Hfail; rewrite Ht in Hfail.
    + discriminate Hcols.
    + destruct valid; [discriminate Hfail | discriminate Hcols].
  - destruct (validatePartialData host data schema) as [[]|e]; [reflexivity|].
    discriminate Hr.
Qed.

End ValidatorMoreFacts.

(* ================================================================== *)
(** * Schema: properties *)

Lemma escapeQuotes_plain (text : string) :
  ~ In "'"%char (charactersOf text) -> escapeQuotes text = text.
Proof.
  induction text as [|c rest IH]; simpl; [reflexivity|].
  intros Hnot. destruct (Ascii.eqb_spec c "'"%char) as [-> | Hne].
  - exfalso. apply Hnot. left; reflexivity.
  - rewrite IH; [reflexivity|]. intros Hin. apply Hnot. right; exact Hin.
Qed.

(** X14: quote escaping loses nothing: two texts with the same escaped form
    are the same text, and a text without quotes is left as it is. *)
Theorem escapeQuotes_injective (a b : string) :
  (escapeQuotes a = escapeQuotes b -> a = b)
  /\ (~ In "'"%char (charactersOf a) -> escapeQuotes a = a).
Proof.
  split; [|apply escapeQuotes_plain].
  revert b. induction a as [|c a IH]; intros [|d b]; simpl.
  - reflexivity.
  - destruct (Ascii.eqb d "'"%char); discriminate.
  - destruct (Ascii.eqb c "'"%char); discriminate.
  - destruct (Ascii.eqb_spec c "'"%char) as [-> | Hc];
      destruct (Ascii.eqb_spec d "'"%char) as [-> | Hd].
    + intros H. injection H as H. rewrite (IH b H). reflexivity.
    + intros H. injection H as Hd' _. exfalso. apply Hd. symmetry. exact Hd'.
    + intros H. injection H as Hc' _. exfalso. apply Hc. exact Hc'.
    + intros H. injection H as -> H. rewrite (IH b H). reflexivity.
Qed.

Lemma forEach_ok {A : Type} (f : string -> A -> Result unit) (entries : list (string * A)) :
  forEach f entries = OK tt <-> forall k v, In (k, v) entries -> f k v = OK tt.
Proof.
  induction entries as [|[k v] rest IH]; simpl.
  - split; [intros _ k v [] | reflexivity].
  - destruct (f k v) as [[]|e] eqn:Hf; simpl.
    + rewrite IH. split.
      * intros Hall k' v' [Heq | Hin]; [injection Heq as <- <-; exact Hf | exact (Hall k' v' Hin)].
      * intros Hall k' v' Hin. apply Hall. right; exact Hin.
    + split; [discriminate|]. intros Hall.
      rewrite (Hall k v (or_introl eq_refl)) in Hf. discriminate Hf.
Qed.

Lemma check_ok (failed : bool) (e : Error) : check failed e = OK tt <-> failed = false.
Proof. destruct failed; simpl; split; (reflexivity || discriminate). Qed.

(** What an accepted column definition satisfies. *)
Lemma validateColumnDefinition_accepts (fieldName : string) (column : ColumnDefinition) :
  validateColumnDefinition fieldName column = OK tt ->
  isValidIdentifier fieldName = true
  /\ (flag (Col.primaryKey column) = true -> flag (Col.nullable column) = false)
  /\ (flag (Col.autoIncrement column) = true -> isIntegerType (Col.type column) = true).
Proof.
  unfold validateColumnDefinition.
  destruct (isValidIdentifier fieldName); [|discriminate]. cbn [negb check rbind].
  match goal with
  | |- rbind ?kind _ = _ -> _ => destruct kind as [[]|e]; [|discriminate]
  end.
  cbn [rbind].
  destruct (flag (Col.primaryKey column)), (flag (Col.nullable column));
    cbn [andb check rbind]; try discriminate;
    destruct (flag (Col.autoIncrement column)), (isIntegerType (Col.type column));
    cbn [andb negb check]; try discriminate; intros _;
    (split; [reflexivity|]); split; intros H; first [reflexivity | discriminate H].
Qed.

Section SchemaFacts.

Variable host : Host.
Variable inheritedProperty : string -> bool.

(** [getClickHouseType] does not throw on a column definition that passed
    [validateColumnDefinition]. *)
Lemma accepted_column_type (fieldName : string) (column : ColumnDefinition) :
  validateColumnDefinition fieldName column = OK tt ->
  exists typeStr, getClickHouseType host column = OK typeStr.
Proof.
  unfold validateColumnDefinition, getClickHouseType.
  destruct (isValidIdentifier fieldName); [|discriminate]. cbn [negb check rbind].
  destruct column as [ty nu pk un de au co el pr sc le en]; cbn [Col.type Col.length
    Col.precision Col.scale Col.elementType Col.enumValues Col.nullable].
  destruct ty; intros Hvalid; try (eexists; reflexivity).
  - destruct en as [[|v vs]|]; try discriminate Hvalid; eexists; reflexivity.
  - destruct en as [[|v vs]|]; try discriminate Hvalid; eexists; reflexivity.
  - destruct el; [eexists; reflexivity | discriminate Hvalid].
  - destruct el; [eexists; reflexivity | discriminate Hvalid].
Qed.

(** X15: a column definition that [validateColumnDefinition] accepts always
    renders: [getClickHouseType] does not throw on it, a FixedString column
    is rendered with its declared length and a Decimal column with its
    declared precision, not with the defaults 255 and 10. *)
Theorem accepted_column_renders (fieldName : string) (column : ColumnDefinition) :
  validateColumnDefinition fieldName column = OK tt ->
  (exists typeStr, getClickHouseType host column = OK typeStr)
  /\ (Col.type column = DataType.FixedString ->
      exists len,
        Col.length column = Some len
        /\ getClickHouseType host column
           = OK (wrapNullable column ("FixedString(" ++ Number_toString host len ++ ")")))
  /\ (Col.type column = DataType.Decimal ->
      exists p,
        Col.precision column = Some p
        /\ getClickHouseType host column
           = OK (wrapNullable column
                   ("Decimal(" ++ Number_toString host p ++ ", "
                    ++ Number_toString host (orNumber (Col.scale column) (ofZ 2))
                    ++ ")"))).
Proof.
  unfold validateColumnDefinition, getClickHouseType, wrapNullable.
  destruct (isValidIdentifier fieldName); [|discriminate]. cbn [negb check rbind].
  destruct column as [ty nu pk un de au co el pr sc le en]; cbn [Col.type Col.length
    Col.precision Col.scale Col.elementType Col.enumValues Col.nullable].
  destruct ty; intros Hvalid; (split; [|split]);
    try (intros Hkind; discriminate Hkind);
    try (eexists; reflexivity).
  - intros _. destruct pr as [p|]; [|discriminate Hvalid].
    exists p. split; [reflexivity|].
    unfold orNumber at 1. cbn [missingNumber] in Hvalid.
    destruct (number_truthy p); [reflexivity | discriminate Hvalid].
  - intros _. destruct le as [len|]; [|discriminate Hvalid].
    exists len. split; [reflexivity|].
    unfold orNumber. cbn [missingNumber] in Hvalid.
    destruct (number_truthy len); [reflexivity | discriminate Hvalid].
  - destruct en as [[|v vs]|]; try discriminate Hvalid; eexists; reflexivity.
  - destruct en as [[|v vs]|]; try discriminate Hvalid; eexists; reflexivity.
  - destruct el; [eexists; reflexivity | discriminate Hvalid].
  - destruct el; [eexists; reflexivity | discriminate Hvalid].
Qed.

(** X16: a Decimal column with scale 0 is accepted by
    [validateColumnDefinition] (given a valid name and a positive
    precision) and yet rendered with scale 2, since the rendering takes
    [scale || 2]. *)
Theorem decimal_scale_zero_rendered_as_two
        (fieldName : string) (column : ColumnDefinition) (p : JsNumber) :
  Col.type column = DataType.Decimal ->
  Col.precision column = Some p ->
  Col.scale column = Some (ofZ 0) ->
  isValidIdentifier fieldName = true ->
  num_gt p (ofZ 0) = true ->
  flag (Col.primaryKey column) && flag (Col.nullable column) = false ->
  flag (Col.autoIncrement column) = false ->
  validateColumnDefinition fieldName column = OK tt
  /\ getClickHouseType host column
     = OK (wrapNullable column
             ("Decimal(" ++ Number_toString host p ++ ", "
              ++ Number_toString host (ofZ 2) ++ ")")).
Proof.
  intros Ht Hp Hs Hid Hpos Hpk Hau.
  assert (Htruthy : number_truthy p = true).
  { destruct p as [q| | |]; simpl in *; try reflexivity; try discriminate Hpos.
    apply negb_true_iff in Hpos. apply negb_true_iff. apply Z.eqb_neq. intros Hq.
    destruct q as [qn qd]; simpl in *. subst qn.
    unfold Qle_bool in Hpos; simpl in Hpos. discriminate Hpos. }
  assert (Hle : num_le p (ofZ 0) = false).
  { destruct p as [q| | |]; simpl in *; try reflexivity; try discriminate Hpos.
    apply negb_true_iff in Hpos. exact Hpos. }
  assert (Hgt : num_gt (ofZ 0) p = false).
  { destruct p as [q| | |]; simpl in *; try reflexivity; try discriminate Hpos.
    apply negb_false_iff. apply Qle_bool_iff. apply Qlt_le_weak, Qnot_le_lt.
    intros Hq. apply Qle_bool_iff in Hq. apply negb_true_iff in Hpos.
    rewrite Hq in Hpos. discriminate Hpos. }
  split.
  - unfold validateColumnDefinition. rewrite Hid, Ht, Hp, Hs.
    cbn [negb check rbind missingNumber]. rewrite Htruthy, Hle.
    cbn [negb orb check rbind]. rewrite Hgt. cbn [num_lt ofZ].
    rewrite Hpk, Hau. reflexivity.
  - unfold getClickHouseType, wrapNullable. rewrite Ht, Hp, Hs.
    unfold orNumber. rewrite Htruthy. reflexivity.
Qed.

Lemma validateTableName_accepts (tableName : string) :
  validateTableName tableName = OK tt ->
  isValidIdentifier tableName = true /\ String.length tableName <= 64.
Proof.
  unfold validateTableName.
  destruct (tableName =? ""); [discriminate|]. cbn [check rbind].
  destruct (isValidIdentifier tableName); [|discriminate]. cbn [negb check rbind].
  destruct (64 <? String.length tableName)%nat eqn:Hlen; [discriminate|].
  intros _. split; [reflexivity|]. apply Nat.ltb_ge in Hlen. exact Hlen.
Qed.

(** X17: a [TableSchema] that exists satisfies the schema invariants: its
    table name is an identifier of at most 64 characters, it has at least
    one column and at most one primary key, which [getPrimaryKey] reports,
    and every column has a valid name, is not a nullable primary key and is
    auto-increment only on an integer kind. *)
Theorem TableSchema_new_invariants
        (tableName : string) (columns : SchemaDefinition) (ts : TableSchema) :
  NoDup (map fst columns) ->
  TableSchema_new tableName columns = OK ts ->
  name ts = tableName /\ schema ts = columns /\ columnNames ts = map fst columns
  /\ isValidIdentifier tableName = true /\ String.length tableName <= 64
  /\ columns <> []
  /\ List.length (primaryKeyColumns columns) <= 1
  /\ primaryKeyColumn ts = hd_error (primaryKeyColumns columns)
  /\ forall k c, In (k, c) columns ->
       validateColumnDefinition k c = OK tt
       /\ isValidIdentifier k = true
       /\ (flag (Col.primaryKey c) = true -> flag (Col.nullable c) = false)
       /\ (flag (Col.autoIncrement c) = true -> isIntegerType (Col.type c) = true).
Proof.
  intros Hnd. unfold TableSchema_new.
  destruct (validateTableName tableName) as [[]|e] eqn:Hname; [|discriminate].
  cbn [rbind].
  destruct (validateSchema columns) as [[]|e] eqn:Hschema; [|discriminate].
  cbn [rbind]. intros H. injection H as <-. cbn [name schema columnNames primaryKeyColumn].
  destruct (validateTableName_accepts tableName Hname) as [Hid Hlen].
  unfold validateSchema in Hschema.
  rewrite (primaryKeysOf_columns columns Hnd) in Hschema.
  destruct (List.length (map fst columns) =? 0)%nat eqn:Hempty; [discriminate Hschema|].
  cbn [check rbind] in Hschema.
  destruct (1 <? List.length (primaryKeyColumns columns))%nat eqn:Hkeys;
    [discriminate Hschema|].
  cbn [check rbind] in Hschema.
  rewrite (primaryKeysOf_columns columns Hnd).
  repeat split; try assumption; try reflexivity.
  - intros ->. discriminate Hempty.
  - apply Nat.ltb_ge in Hkeys. exact Hkeys.
  - apply (proj1 (forEach_ok _ _) Hschema k c H).
  - apply (validateColumnDefinition_accepts k c).
    apply (proj1 (forEach_ok _ _) Hschema k c H).
  - apply (validateColumnDefinition_accepts k c).
    apply (proj1 (forEach_ok _ _) Hschema k c H).
  - apply (validateColumnDefinition_accepts k c).
    apply (proj1 (forEach_ok _ _) Hschema k c H).
Qed.

Lemma mapResult_returns {A B : Type} (f : A -> Result B) (xs : list A) :
  (forall x, In x xs -> exists y, f x = OK y) -> exists ys, mapResult f xs = OK ys.
Proof.
  induction xs as [|x xs IH]; intros Hf; simpl.
  - eexists; reflexivity.
  - destruct (Hf x (or_introl eq_refl)) as [y Hy].
    destruct (IH (fun z Hz => Hf z (or_intror Hz))) as [ys Hys].
    rewrite Hy, Hys. eexists; reflexivity.
Qed.

Lemma settingPart_isErr (entry : string * JsValue) :
  isErr (settingPart host entry) = unprintable (snd entry).
Proof.
  unfold settingPart. rewrite <- (ToString_isErr host).
  destruct (snd entry) as [| | [] | n | z | s | t | elems | props]; try reflexivity;
    destruct (ToString host _); reflexivity.
Qed.

Lemma settingPart_error (entry : string * JsValue) (e : Error) :
  settingPart host entry = Err e -> e = TypeError.
Proof.
  unfold settingPart.
  destruct (snd entry) as [| | [] | n | z | s | t | elems | props]; try discriminate;
    destruct (ToString host _) as [text|e1] eqn:Hs; try discriminate;
    cbn [rbind]; intros H; injection H as <-; exact (ToString_error host _ _ Hs).
Qed.

Lemma settings_isErr (entries : list (string * JsValue)) :
  isErr (mapResult (settingPart host) entries)
  = existsb (fun entry => unprintable (snd entry)) entries.
Proof.
  rewrite mapResult_isErr.
  induction entries as [|entry rest IH]; [reflexivity|].
  cbn [existsb]. rewrite settingPart_isErr, IH. reflexivity.
Qed.

(** X18: for a [TableSchema] that exists, every column was validated at
    construction, so every column type renders: [toCreateTableSQL] throws
    only when a setting's value cannot be printed, and then the [TypeError]
    of the template literal.  With settings of the declared types (string,
    number, boolean) it always returns. *)
Theorem toCreateTableSQL_throws_iff
        (tableName : string) (columns : SchemaDefinition) (ts : TableSchema)
        (options : CreateTable.Options) :
  TableSchema_new tableName columns = OK ts ->
  isErr (toCreateTableSQL host ts options) = unprintableSetting options
  /\ (forall e, toCreateTableSQL host ts options = Err e -> e = TypeError).
Proof.
  unfold TableSchema_new.
  destruct (validateTableName tableName) as [[]|e]; [|discriminate]. cbn [rbind].
  destruct (validateSchema columns) as [[]|e] eqn:Hschema; [|discriminate].
  cbn [rbind]. intros H. injection H as <-.
  unfold toCreateTableSQL, unprintableSetting. cbn [schema].
  destruct (mapResult_returns (columnDef host) columns) as [defs Hdefs].
  - intros [k c] Hin. unfold columnDef. cbn [fst snd].
    unfold validateSchema in Hschema.
    destruct (check (List.length (map fst columns) =? 0)%nat _) as [[]|e];
      [|discriminate Hschema].
    cbn [rbind] in Hschema.
    destruct (check (1 <? _)%nat _) as [[]|e]; [|discriminate Hschema].
    cbn [rbind] in Hschema.
    destruct (accepted_column_type k c (proj1 (forEach_ok _ _) Hschema k c Hin))
      as [typeStr Ht].
    rewrite Ht. eexists; reflexivity.
  - rewrite Hdefs. cbn [rbind].
    destruct (CreateTable.settings options) as [[|entry rest]|];
      try (split; [reflexivity | discriminate]).
    rewrite <- settings_isErr.
    destruct (mapResult (settingPart host) (entry :: rest)) as [parts|e] eqn:Hparts;
      cbn [rbind isErr]; split; try reflexivity; try discriminate.
    intros e0 H. injection H as <-. revert Hparts.
    refine (mapResult_throws_only _ (fun e => e = TypeError) (entry :: rest) _ e).
    apply Forall_forall. intros x _. apply settingPart_error.
Qed.

Lemma hasField_In (columns : SchemaDefinition) (key : string) :
  hasField columns key = true <-> In key (map fst columns).
Proof.
  unfold hasField. rewrite existsb_exists. split.
  - intros [k [Hin Heq]]. apply String.eqb_eq in Heq. subst. exact Hin.
  - intros Hin. exists key. split; [exact Hin | apply String.eqb_refl].
Qed.

Lemma setKey_new {A : Type} (key : string) (value : A) (props : list (string * A)) :
  ~ In key (map fst props) -> setKey key value props = (props ++ [(key, value)])%list.
Proof.
  induction props as [|[k x] rest IH]; simpl; [reflexivity|].
  intros Hnot. destruct (String.eqb_spec k key) as [-> | Hne].
  - exfalso. apply Hnot. left; reflexivity.
  - rewrite IH; [reflexivity|]. intros Hin. apply Hnot. right; exact Hin.
Qed.

Lemma deleteKey_absent {A : Type} (key : string) (props : list (string * A)) :
  ~ In key (map fst props) -> deleteKey key props = props.
Proof.
  unfold deleteKey. induction props as [|[k x] rest IH]; simpl; [reflexivity|].
  intros Hnot. destruct (String.eqb_spec k key) as [-> | Hne].
  - exfalso. apply Hnot. left; reflexivity.
  - simpl. rewrite IH; [reflexivity|]. intros Hin. apply Hnot. right; exact Hin.
Qed.

Lemma deleteKey_added {A : Type} (key : string) (value : A) (props : list (string * A)) :
  ~ In key (map fst props) -> deleteKey key (setKey key value props) = props.
Proof.
  intros Hnot. rewrite (setKey_new key value props Hnot).
  unfold deleteKey. rewrite filter_app. simpl. rewrite String.eqb_refl. simpl.
  rewrite app_nil_r. apply (deleteKey_absent key props Hnot).
Qed.

Lemma hasField_setKey {A : Type} (key : string) (value : ColumnDefinition)
      (columns : SchemaDefinition) :
  hasField (setKey key value columns) key = true.
Proof.
  apply hasField_In. induction columns as [|[k x] rest IH]; simpl.
  - left; reflexivity.
  - destruct (String.eqb_spec k key) as [-> | Hne]; simpl; [left; reflexivity|].
    right; exact IH.
Qed.

(** X19: adding a column and then removing it gives back the schema one
    started from. *)
Theorem addColumn_removeColumn
        (tableName : string) (columns : SchemaDefinition) (ts ts' : TableSchema)
        (columnName : string) (definition : ColumnDefinition) :
  TableSchema_new tableName columns = OK ts ->
  addColumn inheritedProperty ts columnName definition = Done ts' ->
  removeColumn inheritedProperty ts' columnName = Done ts.
Proof.
  intros Hts Hadd.
  assert (Hfields : name ts = tableName /\ schema ts = columns).
  { unfold TableSchema_new in Hts.
    destruct (validateTableName tableName) as [[]|e]; [|discriminate Hts].
    cbn [rbind] in Hts.
    destruct (validateSchema columns) as [[]|e]; [|discriminate Hts].
    cbn [rbind] in Hts. injection Hts as <-. split; reflexivity. }
  destruct Hfields as [Hname Hschema].
  unfold addColumn in Hadd.
  destruct (hasColumn inheritedProperty ts columnName) eqn:Hhas; [discriminate Hadd|].
  destruct (validateColumnDefinition columnName definition) as [[]|e];
    [|discriminate Hadd].
  unfold construct in Hadd. rewrite Hname, Hschema in Hadd.
  destruct (TableSchema_new tableName (setKey columnName definition columns))
    as [built|e] eqn:Hbuilt; [|discriminate Hadd].
  injection Hadd as ->.
  assert (Hnot : ~ In columnName (map fst columns)).
  { unfold hasColumn in Hhas. apply orb_false_elim in Hhas as [Hown _].
    rewrite Hschema in Hown. intros Hin. apply hasField_In in Hin.
    rewrite Hin in Hown. discriminate Hown. }
  assert (Hbuilt_fields : name ts' = tableName
                          /\ schema ts' = setKey columnName definition columns).
  { unfold TableSchema_new in Hbuilt.
    destruct (validateTableName tableName) as [[]|e]; [|discriminate Hbuilt].
    cbn [rbind] in Hbuilt.
    destruct (validateSchema (setKey columnName definition columns)) as [[]|e];
      [|discriminate Hbuilt].
    cbn [rbind] in Hbuilt. injection Hbuilt as <-. split; reflexivity. }
  destruct Hbuilt_fields as [Hname' Hschema'].
  unfold removeColumn, hasColumn. rewrite Hschema', Hname'.
  rewrite (hasField_setKey (A := ColumnDefinition)). cbn [orb negb].
  rewrite (deleteKey_added columnName definition columns Hnot).
  unfold construct. rewrite Hts. reflexivity.
Qed.

(** X20: [addColumn] throws a [SchemaError] for a name the schema has, and
    also for a name every object inherits (such as [toString]) although no
    column has it; [removeColumn] throws a [SchemaError] for a name that is
    neither, and a [ValidationError] when asked to remove the only column,
    so that a schema never becomes empty. *)
Theorem addColumn_removeColumn_refusals
        (ts : TableSchema) (columnName : string) (definition : ColumnDefinition) :
  (In columnName (map fst (schema ts)) \/ inheritedProperty columnName = true ->
   exists message,
     addColumn inheritedProperty ts columnName definition
     = Failed (SchemaError message (Some (name ts)) (Some columnName)))
  /\ (~ In columnName (map fst (schema ts)) -> inheritedProperty columnName = false ->
      exists message,
        removeColumn inheritedProperty ts columnName
        = Failed (SchemaError message (Some (name ts)) (Some columnName)))
  /\ (map fst (schema ts) = [columnName] ->
      validateTableName (name ts) = OK tt ->
      removeColumn inheritedProperty ts columnName
      = Failed (Thrown (validationError "Schema must have at least one field"))).
Proof.
  split; [|split].
  - intros Hhas. unfold addColumn.
    assert (H : hasColumn inheritedProperty ts columnName = true).
    { unfold hasColumn. destruct Hhas as [Hown | Hinh].
      - apply hasField_In in Hown. rewrite Hown. reflexivity.
      - rewrite Hinh. apply orb_true_r. }
    rewrite H. eexists; reflexivity.
  - intros Hnot Hinh. unfold removeColumn.
    assert (H : hasColumn inheritedProperty ts columnName = false).
    { unfold hasColumn. rewrite Hinh, orb_false_r.
      destruct (hasField (schema ts) columnName) eqn:Hown; [|reflexivity].
      exfalso. apply Hnot. apply hasField_In. exact Hown. }
    rewrite H. eexists; reflexivity.
  - intros Honly Hname. unfold removeColumn.
    assert (H : hasColumn inheritedProperty ts columnName = true).
    { unfold hasColumn.
      assert (Hown : hasField (schema ts) columnName = true).
      { apply hasField_In. rewrite Honly. left; reflexivity. }
      rewrite Hown. reflexivity. }
    rewrite H. cbn [negb].
    assert (Hdel : deleteKey columnName (schema ts) = []).
    { destruct (schema ts) as [|[k c] [|entry rest]]; try discriminate Honly.
      injection Honly as ->. unfold deleteKey; simpl.
      rewrite String.eqb_refl. reflexivity. }
    rewrite Hdel. unfold construct, TableSchema_new. rewrite Hname. reflexivity.
Qed.




End SchemaFacts.

(** X22: [SchemaBuilder.enum(name, values)] picks Enum8 up to 256 values
    and Enum16 beyond, and so succeeds exactly when the name is a valid
    identifier and there are between 1 and 65536 values. *)
Theorem SchemaBuilder_enum_accepts
        (columns : SchemaDefinition) (columnName : string) (values : list string) :
  isErr (SchemaBuilder_enum columns columnName values)
  = negb (isValidIdentifier columnName
          && (1 <=? List.length values)%nat
          && (N.of_nat (List.length values) <=? 65536)%N).
Proof.
  unfold SchemaBuilder_enum, SchemaBuilder_column, validateColumnDefinition.
  destruct (isValidIdentifier columnName); [|reflexivity].
  cbn [negb check rbind andb Col.type Col.enumValues Col.primaryKey Col.nullable
       Col.autoIncrement flag].
  destruct values as [|v vs]; [reflexivity|].
  destruct (List.length (v :: vs) <=? 256)%nat eqn:Hsmall.
  - cbn [Col.type].
    apply Nat.leb_le in Hsmall.
    assert (H8 : (256 <? N.of_nat (List.length (v :: vs)))%N = false)
      by (apply N.ltb_ge; lia).
    assert (H16 : (N.of_nat (List.length (v :: vs)) <=? 65536)%N = true)
      by (apply N.leb_le; lia).
    rewrite H8, H16. reflexivity.
  - destruct (65536 <? N.of_nat (List.length (v :: vs)))%N eqn:Hbig.
    + apply N.ltb_lt in Hbig.
      assert (H16 : (N.of_nat (List.length (v :: vs)) <=? 65536)%N = false)
        by (apply N.leb_gt; exact Hbig).
      rewrite H16. reflexivity.
    + apply N.ltb_ge in Hbig.
      assert (H16 : (N.of_nat (List.length (v :: vs)) <=? 65536)%N = true)
        by (apply N.leb_le; exact Hbig).
      rewrite H16. reflexivity.
Qed.

(* ================================================================== *)
(** * Condition compiler: further properties *)

(** ** Parameter names *)

Lemma lookup_absent {A : Type} (key : string) (props : list (string * A)) :
  ~ In key (map fst props) -> lookup key props = None.
Proof.
  induction props as [|[k v] rest IH]; simpl; [reflexivity|].
  intros Hnot. destruct (String.eqb_spec k key) as [-> | Hne].
  - exfalso. apply Hnot. left; reflexivity.
  - apply IH. intros Hin. apply Hnot. right; exact Hin.
Qed.

Lemma keysFrom_In (start n : nat) (key : string) :
  In key (keysFrom start n) -> exists i, key = paramName i /\ start <= i < start + n.
Proof.
  unfold keysFrom. intros Hin. apply in_map_iff in Hin as [i [<- Hi]].
  apply in_seq in Hi. exists i. split; [reflexivity | exact Hi].
Qed.

Lemma keysFrom_succ (start n : nat) :
  keysFrom start (S n) = (keysFrom start n ++ [paramName (start + n)])%list.
Proof. unfold keysFrom. rewrite seq_S, map_app. reflexivity. Qed.

Lemma keysFrom_NoDup (start n : nat) : NoDup (keysFrom start n).
Proof.
  unfold keysFrom. generalize (seq_NoDup n start).
  induction (seq start n) as [|i l IH]; intros Hnd; cbn [map]; constructor.
  - inversion Hnd as [|? ? Hnot _]; subst. intros Hin.
    apply in_map_iff in Hin as [j [Heq Hj]]. apply paramName_inj in Heq. subst j.
    exact (Hnot Hj).
  - apply IH. inversion Hnd; assumption.
Qed.

Lemma tracked_fresh (start : nat) (st : BuilderState) : tracked start st -> fresh st.
Proof.
  intros [Hle Hkeys] j Hj. apply lookup_absent. rewrite Hkeys. intros Hin.
  apply keysFrom_In in Hin as [i [Heq Hi]]. apply paramName_inj in Heq. lia.
Qed.

Lemma tracked_initial (start : nat) : tracked start (initialState start).
Proof.
  split; simpl; [lia|]. rewrite Nat.sub_diag. reflexivity.
Qed.

Section Keeps.

Variable start : nat.

Lemma keeps_ret {A : Type} (a : A) : keeps start (ret a).
Proof. intros st b st' Ht H. injection H as _ <-. exact Ht. Qed.

Lemma keeps_throw {A : Type} (e : Error) : keeps start (@throw A e).
Proof. intros st b st' _ H. discriminate H. Qed.

Lemma keeps_lift {A : Type} (r : Result A) : keeps start (lift r).
Proof.
  intros st b st' Ht H. unfold lift in H. destruct r; [|discriminate H].
  injection H as _ <-. exact Ht.
Qed.

Lemma keeps_bind {A B : Type} (m : M A) (k : A -> M B) :
  keeps start m -> (forall a, keeps start (k a)) -> keeps start (mbind m k).
Proof.
  intros Hm Hk st b st' Ht H. unfold mbind in H.
  destruct (m st) as [[a st1]|e] eqn:Hst; [|discriminate H].
  exact (Hk a st1 b st' (Hm st a st1 Ht Hst) H).
Qed.

Lemma keeps_addParam (value : JsValue) : keeps start (addParam value).
Proof.
  intros [ps c] p st' Ht H. assert (Hf := tracked_fresh start _ Ht).
  destruct Ht as [Hle Hkeys]. cbn [this_params this_paramCounter] in *.
  unfold addParam in H. cbn [this_params this_paramCounter] in H.
  injection H as _ <-. split; cbn [this_params this_paramCounter]; [lia|].
  change ("param" ++ dec_nat c) with (paramName c).
  rewrite setProperty_fresh by (apply (Hf c); cbn; lia).
  rewrite map_app, Hkeys. cbn [map fst].
  replace (S c - start) with (S (c - start)) by lia.
  rewrite keysFrom_succ. replace (start + (c - start)) with c by lia. reflexivity.
Qed.

Lemma keeps_mapM {A B : Type} (f : A -> M B) (xs : list A) :
  Forall (fun x => keeps start (f x)) xs -> keeps start (mapM f xs).
Proof.
  induction 1 as [|x xs Hx _ IH]; cbn [mapM].
  - apply keeps_ret.
  - apply keeps_bind; [exact Hx|]. intros b.
    apply keeps_bind; [exact IH|]. intros bs. apply keeps_ret.
Qed.

Lemma keeps_addParams (values : list JsValue) : keeps start (mapM addParam values).
Proof.
  apply keeps_mapM. apply Forall_forall. intros v _. apply keeps_addParam.
Qed.

Ltac keeps_steps :=
  repeat first
    [ apply keeps_ret
    | apply keeps_throw
    | apply keeps_addParam
    | apply keeps_addParams
    | apply keeps_lift
    | apply keeps_bind; [|intro] ].

Lemma keeps_processOperator (fieldName op : string) (value : JsValue) :
  keeps start (processOperator fieldName op value).
Proof.
  unfold processOperator.
  repeat match goal with
         | |- context [op =? ?s] => destruct (op =? s)
         end.
  all: try (destruct value; keeps_steps; fail).
  all: destruct value as [| | b | n | z | s | t | elems | props]; keeps_steps.
  all: try (destruct elems as [|x xs]; keeps_steps; fail).
  destruct elems as [|x [|y [|w rest]]]; keeps_steps.
Qed.

Lemma keeps_processOperators (fieldName : string) (operators : list (string * JsValue)) :
  keeps start (processOperators fieldName operators).
Proof.
  unfold processOperators. apply keeps_bind; [|intro; apply keeps_ret].
  apply keeps_mapM. apply Forall_forall. intros entry _. apply keeps_processOperator.
Qed.

Variable host : Host.
Variable sqlBuilder : SQLBuilder.

Lemma keeps_processFieldCondition (field : string) (value : JsValue) :
  keeps start (processFieldCondition sqlBuilder field value).
Proof.
  unfold processFieldCondition. apply keeps_bind; [apply keeps_lift|]. intros fieldName.
  destruct (isRawExpression value); [apply keeps_ret|].
  destruct (isNullish value); [apply keeps_ret|].
  destruct (isWhereOperator value).
  - destruct (Object_entries value); [|apply keeps_throw].
    apply keeps_bind; [apply keeps_processOperators | intro; apply keeps_ret].
  - keeps_steps.
Qed.

Lemma keeps_processGroup (recur : JsValue -> M string) (op : string) (value : JsValue) :
  childrenKeep start recur value -> keeps start (processGroup recur op value).
Proof.
  intros [_ Hchildren]. unfold processGroup.
  destruct value; try apply keeps_throw.
  apply keeps_bind; [apply keeps_mapM; exact Hchildren | intro; apply keeps_ret].
Qed.

Lemma keeps_processEntries (recur : JsValue -> M string)
      (entries : list (string * JsValue)) :
  Forall (fun entry => childrenKeep start recur (snd entry)) entries ->
  keeps start (processEntries sqlBuilder recur entries).
Proof.
  induction 1 as [|[key value] rest Hentry _ IH]; cbn [processEntries].
  - apply keeps_ret.
  - cbn [snd] in Hentry. apply keeps_bind.
    + destruct (isAndKey key); [apply keeps_processGroup; exact Hentry|].
      destruct (isOrKey key); [apply keeps_processGroup; exact Hentry|].
      destruct (isNotKey key).
      * apply keeps_bind; [exact (proj1 Hentry) | intro; apply keeps_ret].
      * apply keeps_bind; [apply keeps_processFieldCondition | intro; apply keeps_ret].
    + intros part. apply keeps_bind; [exact IH | intro; apply keeps_ret].
Qed.

Lemma keeps_leaf_entries (entries : list (string * JsValue)) :
  keeps start (processEntries sqlBuilder (fun _ => throw TypeError) entries).
Proof.
  apply keeps_processEntries. apply Forall_forall. intros [k v] _. split.
  - apply keeps_throw.
  - destruct v; try exact I. apply Forall_forall. intros c _. apply keeps_throw.
Qed.

Lemma keeps_processCondition (condition : JsValue) :
  childrenKeep start (processCondition host sqlBuilder) condition.
Proof.
  induction condition as [| | b | n | z | s | t | elems IH | props IH]
    using JsValue_nested_ind;
    try (split; [|exact I]; cbn [processCondition Object_entries];
         first [apply keeps_throw
               | apply keeps_bind; [apply keeps_leaf_entries | intro; apply keeps_lift]]).
  - split.
    + cbn [processCondition Object_entries].
      apply keeps_bind; [apply keeps_leaf_entries | intro; apply keeps_lift].
    + apply Forall_forall. intros c Hin. rewrite Forall_forall in IH.
      exact (proj1 (IH c Hin)).
  - split; [|exact I]. cbn [processCondition].
    apply keeps_bind; [|intro; apply keeps_lift].
    apply keeps_processEntries. exact IH.
Qed.

End Keeps.

Section WhereBuilderMoreFacts.

Variable host : Host.
Variable sqlBuilder : SQLBuilder.

(** The parameter map that [build] returns is the builder's map at the
    end, which is tracked. *)
Lemma build_tracked (start : nat) (condition : JsValue) (built : BuildResult) :
  build host sqlBuilder start condition = OK built ->
  exists st, params built = this_params st /\ tracked start st.
Proof.
  unfold build. intros H.
  destruct (processCondition host sqlBuilder condition
              {| this_params := []; this_paramCounter := start |})
    as [[text st]|e] eqn:Hrun; [|discriminate H].
  injection H as <-. exists st. split; [reflexivity|].
  exact (proj1 (keeps_processCondition start host sqlBuilder condition)
           _ _ _ (tracked_initial start) Hrun).
Qed.

Lemma tracked_length (start : nat) (st : BuilderState) :
  tracked start st -> List.length (this_params st) = this_paramCounter st - start.
Proof.
  intros [_ Hkeys]. rewrite <- (length_map fst), Hkeys. unfold keysFrom.
  rewrite length_map, length_seq. reflexivity.
Qed.

(** X23: whatever the condition tree, the parameter map [build] returns
    holds the names [param<start>], [param<start+1>], ... without gap or
    repetition, in binding order, [start] being the starting count. *)
Theorem build_parameter_names (start : nat) (condition : JsValue) (built : BuildResult) :
  build host sqlBuilder start condition = OK built ->
  map fst (params built) = keysFrom start (List.length (params built))
  /\ NoDup (map fst (params built)).
Proof.
  intros Hbuild.
  destruct (build_tracked start condition built Hbuild) as [st [-> Htracked]].
  rewrite (tracked_length start st Htracked).
  destruct Htracked as [_ Hkeys].
  split; [exact Hkeys|]. rewrite Hkeys. apply keysFrom_NoDup.
Qed.

Lemma paramsArrayToObject_from_run (values : list JsValue) (index : nat)
      (result : list (string * JsValue)) :
  (forall j, index <= j -> lookup (paramName j) result = None) ->
  paramsArrayToObject_from index values result
  = (result ++ boundParams index values)%list.
Proof.
  revert index result. induction values as [|v vs IH]; intros index result Hfresh;
    cbn [paramsArrayToObject_from boundParams mapi_from].
  - rewrite app_nil_r. reflexivity.
  - change ("param" ++ dec_nat index) with (paramName index).
    rewrite setProperty_fresh by (apply Hfresh; lia).
    rewrite IH.
    + rewrite <- app_assoc. reflexivity.
    + intros j Hj. rewrite lookup_app, (Hfresh j) by lia. cbn [lookup].
      rewrite paramName_neq by lia. reflexivity.
Qed.

Lemma boundParams_keys (values : list JsValue) (start : nat) :
  map fst (boundParams start values) = keysFrom start (List.length values).
Proof.
  unfold boundParams, keysFrom. revert start.
  induction values as [|v vs IH]; intros start; cbn [mapi_from map List.length seq];
    [reflexivity|].
  rewrite IH. reflexivity.
Qed.

Lemma spread_disjoint (a b : list (string * JsValue)) :
  NoDup (map fst b) ->
  (forall key, In key (map fst b) -> ~ In key (map fst a)) ->
  spread a b = (a ++ b)%list.
Proof.
  unfold spread. revert a. induction b as [|[k v] rest IH]; intros a Hnd Hdisj;
    cbn [fold_left fst snd].
  - rewrite app_nil_r. reflexivity.
  - inversion Hnd as [|? ? Hk Hrest]; subst.
    rewrite setProperty_fresh
      by (apply lookup_absent; apply Hdisj; left; reflexivity).
    rewrite IH; [rewrite <- app_assoc; reflexivity | exact Hrest |].
    intros key Hin. rewrite map_app, in_app_iff. cbn [map fst In].
    intros [Ha | [<- | []]].
    + exact (Hdisj key (or_intror Hin) Ha).
    + exact (Hk Hin).
Qed.

Lemma keysFrom_app (start n m : nat) :
  (keysFrom start n ++ keysFrom (start + n) m)%list = keysFrom start (n + m).
Proof. unfold keysFrom. rewrite <- map_app, <- seq_app. reflexivity. Qed.

(** X24: the update path numbers the values of its SET clause
    [param0 .. param<n-1>] ([paramsArrayToObject]) and compiles the WHERE
    clause with starting count [n]; merging the two parameter maps then
    overwrites nothing: the merged map is the one followed by the other,
    with the names [param0], [param1], ... in order. *)
Theorem update_parameters_do_not_collide
        (values : list JsValue) (condition : JsValue) (built : BuildResult) :
  build host sqlBuilder (List.length values) condition = OK built ->
  spread (paramsArrayToObject values) (params built)
  = (paramsArrayToObject values ++ params built)%list
  /\ map fst (spread (paramsArrayToObject values) (params built))
     = keysFrom 0 (List.length values + List.length (params built))
  /\ map snd (paramsArrayToObject values) = values.
Proof.
  intros Hbuild.
  destruct (build_tracked _ _ _ Hbuild) as [st [Hparams Htracked]].
  assert (Hkeys : map fst (params built)
                  = keysFrom (List.length values) (List.length (params built))).
  { rewrite Hparams, (tracked_length _ st Htracked). exact (proj2 Htracked). }
  assert (Hnd : NoDup (map fst (params built))).
  { rewrite Hkeys. apply keysFrom_NoDup. }
  assert (Hset : paramsArrayToObject values = boundParams 0 values).
  { unfold paramsArrayToObject.
    rewrite paramsArrayToObject_from_run by (intros; reflexivity). reflexivity. }
  assert (Hmerge : spread (paramsArrayToObject values) (params built)
                   = (paramsArrayToObject values ++ params built)%list).
  { apply spread_disjoint; [exact Hnd|].
    intros key Hin. rewrite Hkeys in Hin. rewrite Hset, boundParams_keys.
    intros Hin'. apply keysFrom_In in Hin as [i [-> Hi]].
    apply keysFrom_In in Hin' as [j [Heq Hj]]. apply paramName_inj in Heq. lia. }
  split; [exact Hmerge|]. split.
  - rewrite Hmerge, map_app, Hset, boundParams_keys, Hkeys.
    apply (keysFrom_app 0).
  - rewrite Hset. apply boundParams_values.
Qed.

(** ** Spelling of the combinators *)

Lemma mapM_pointwise {A B : Type} (f g : A -> M B) (xs : list A) :
  Forall (fun x => forall st, f x st = g x st) xs ->
  forall st, mapM f xs st = mapM g xs st.
Proof.
  induction 1 as [|x xs Hx _ IH]; intros st; [reflexivity|].
  rewrite !mapM_cons, Hx. destruct (g x st) as [[b st1]|e]; [|reflexivity].
  rewrite IH. reflexivity.
Qed.

Lemma mapM_map {A B C : Type} (f : B -> M C) (g : A -> B) (xs : list A) (st : BuilderState) :
  mapM f (map g xs) st = mapM (fun x => f (g x)) xs st.
Proof.
  revert st. induction xs as [|x xs IH]; intros st; [reflexivity|].
  cbn [map]. rewrite !mapM_cons. destruct (f (g x) st) as [[b st1]|e]; [|reflexivity].
  rewrite IH. reflexivity.
Qed.

Lemma processEntries_cons (recur : JsValue -> M string) (key : string) (value : JsValue)
      (rest : list (string * JsValue)) (st : BuilderState) :
  processEntries sqlBuilder recur ((key, value) :: rest) st
  = match (if isAndKey key then processGroup recur " AND " value
           else if isOrKey key then processGroup recur " OR " value
           else if isNotKey key then
             mbind (recur value)
               (fun notCondition =>
                  ret (if nonEmpty notCondition
                       then Some (VString ("NOT (" ++ notCondition ++ ")"))
                       else None))
           else
             mbind (processFieldCondition sqlBuilder key value)
               (fun fieldCondition =>
                  ret (if truthy fieldCondition then Some fieldCondition else None)))
          st with
    | OK (part, st1) =>
        match processEntries sqlBuilder recur rest st1 with
        | OK (parts, st2) => OK (part :: parts, st2)
        | Err e => Err e
        end
    | Err e => Err e
    end.
Proof.
  cbn [processEntries]. unfold mbind at 1.
  match goal with
  | |- match ?m st with _ => _ end = _ => destruct (m st) as [[part st1]|e]
  end; [|reflexivity].
  unfold mbind at 1.
  destruct (processEntries sqlBuilder recur rest st1) as [[parts st2]|e];
    reflexivity.
Qed.

Lemma isCombinator_exclusive (key : string) :
  (isAndKey key = true -> isOrKey key = false /\ isNotKey key = false)
  /\ (isOrKey key = true -> isAndKey key = false /\ isNotKey key = false)
  /\ (isNotKey key = true -> isAndKey key = false /\ isOrKey key = false).
Proof.
  unfold isAndKey, isOrKey, isNotKey.
  split; [|split]; intros Hkey; apply orb_prop in Hkey as [Hk | Hk];
    apply String.eqb_eq in Hk; subst key; split; reflexivity.
Qed.

(** X25: the two spellings of a combinator are interchangeable throughout a
    tree: respelling combinator keys (each one staying a combinator of its
    kind, as when [and] and [$and] are swapped) changes neither the SQL nor
    the parameters nor a failure. *)
Theorem respell_same_result
        (spelling : string -> string) (start : nat) (condition : JsValue) :
  keepsCombinators spelling ->
  build host sqlBuilder start (respell spelling condition)
  = build host sqlBuilder start condition.
Proof.
  intros Hspell.
  set (pc := processCondition host sqlBuilder).
  assert (Hsame : forall c,
             (forall st, pc (respell spelling c) st = pc c st)
             /\ match c with
                | VArray cs =>
                    Forall (fun x => forall st, pc (respell spelling x) st = pc x st) cs
                | _ => True
                end).
  { induction c as [| | b | n | z | s | t | elems IH | props IH]
      using JsValue_nested_ind; try (split; [reflexivity | exact I]).
    - split; [reflexivity|]. apply Forall_forall. intros x Hin.
      rewrite Forall_forall in IH. exact (proj1 (IH x Hin)).
    - split; [|exact I]. intros st. unfold pc. cbn [respell processCondition].
      unfold mbind.
      assert (Hentries : forall st0,
                 processEntries sqlBuilder pc
                   (map (fun entry =>
                           let key := fst entry in
                           let value := snd entry in
                           if isAndKey key || isOrKey key then
                             (spelling key,
                              match value with
                              | VArray conditions =>
                                  VArray (map (respell spelling) conditions)
                              | _ => value
                              end)
                           else if isNotKey key then (spelling key, respell spelling value)
                           else (key, value)) props) st0
                 = processEntries sqlBuilder pc props st0).
      { induction IH as [|[key value] rest Hentry _ IHrest]; intros st0; [reflexivity|].
        cbn [map fst snd]. cbn [snd] in Hentry. destruct Hentry as [Hvalue Hchildren].
        destruct (Hspell key) as [Hand [Hor Hnot]].
        destruct (isCombinator_exclusive key) as [Xand [Xor Xnot]].
        destruct (isCombinator_exclusive (spelling key)) as [Yand [Yor Ynot]].
        assert (Hgroup : forall op st1,
                   processGroup pc op
                     match value with
                     | VArray conditions => VArray (map (respell spelling) conditions)
                     | _ => value
                     end st1
                   = processGroup pc op value st1).
        { intros op st1. destruct value; try reflexivity.
          unfold processGroup, mbind. rewrite mapM_map.
          rewrite (mapM_pointwise _ pc elems Hchildren). reflexivity. }
        destruct (isAndKey key) eqn:Ha; cbn [orb].
        - rewrite !processEntries_cons, (Hand eq_refl), Ha, Hgroup.
          destruct (processGroup pc " AND " value st0) as [[part st1]|e];
            [rewrite IHrest|]; reflexivity.
        - destruct (isOrKey key) eqn:Ho.
          + rewrite !processEntries_cons, Ha, Ho.
            rewrite (proj1 (Yor (Hor eq_refl))), (Hor eq_refl), Hgroup.
            destruct (processGroup pc " OR " value st0) as [[part st1]|e];
              [rewrite IHrest|]; reflexivity.
          + destruct (isNotKey key) eqn:Hn.
            * rewrite !processEntries_cons, Ha, Ho, Hn.
              rewrite (proj1 (Ynot (Hnot eq_refl))), (proj2 (Ynot (Hnot eq_refl))),
                (Hnot eq_refl).
              unfold mbind. rewrite Hvalue.
              destruct (pc value st0) as [[text st1]|e]; [|reflexivity].
              unfold ret. rewrite IHrest. reflexivity.
            * rewrite !processEntries_cons, Ha, Ho, Hn.
              destruct (mbind (processFieldCondition sqlBuilder key value) _ st0)
                as [[part st1]|e]; [rewrite IHrest|]; reflexivity. }
      fold pc. rewrite Hentries. reflexivity. }
  unfold build. fold pc. rewrite (proj1 (Hsame condition)). reflexivity.
Qed.

End WhereBuilderMoreFacts.

Section WhereBuilderOperatorFacts.

Variable host : Host.
Variable sqlBuilder : SQLBuilder.
Variable start : nat.

Lemma build_operator (field fieldName op : string) (value : JsValue) :
  isCombinatorKey field = false ->
  identifier sqlBuilder field = OK fieldName ->
  includes validKeys op = true ->
  build host sqlBuilder start (fieldOperator field op value)
  = match processOperator fieldName op value (initialState start) with
    | OK (fragment, st) =>
        OK {| sql := if nonEmpty fragment then fragment else "1=1";
              params := this_params st |}
    | Err e => Err e
    end.
Proof.
  intros Hc Hi Hop. unfold fieldOperator.
  assert (Hraw : isRawExpression (VObject [(op, value)]) = false).
  { unfold isRawExpression. cbn [lookup].
    destruct (String.eqb_spec op "_brand") as [-> | _]; [discriminate Hop | reflexivity]. }
  assert (Hw : isWhereOperator (VObject [(op, value)]) = true).
  { rewrite isWhereOperator_object. cbn [map fst existsb]. rewrite Hop. reflexivity. }
  rewrite (build_operator_set host sqlBuilder start field fieldName _ Hc Hi Hraw Hw).
  rewrite processOperators_single. reflexivity.
Qed.

Lemma processOperator_symbol (fieldName op symbol : string) (value : JsValue)
      (st : BuilderState) :
  operatorSymbol op = Some symbol ->
  isNull value = false ->
  processOperator fieldName op value st
  = mbind (addParam value) (fun p => ret (fieldName ++ " " ++ symbol ++ " " ++ p)) st.
Proof.
  intros Hsym Hnull. unfold operatorSymbol in Hsym. unfold processOperator.
  repeat match type of Hsym with
         | (if op =? ?lit then _ else _) = _ =>
             destruct (op =? lit) eqn:Heq;
             [apply String.eqb_eq in Heq; subst op; injection Hsym as <-;
              destruct value; first [discriminate Hnull | reflexivity]
             | clear Heq]
         end.
  discriminate Hsym.
Qed.

(** X26: values are bound, never written into the SQL.  For each of the
    nine operators that bind one value ([eq], [ne], [gt], [gte], [lt],
    [lte], [like], [notLike], [ilike]) and every value other than [null],
    the SQL is the quoted field, the operator's symbol and a placeholder
    that depends on the value only through its wire type, and the value
    itself is the one parameter. *)
Theorem comparison_binds_value
        (field fieldName op symbol : string) (value : JsValue) :
  isCombinatorKey field = false ->
  identifier sqlBuilder field = OK fieldName ->
  operatorSymbol op = Some symbol ->
  isNull value = false ->
  build host sqlBuilder start (fieldOperator field op value)
  = OK {| sql := fieldName ++ " " ++ symbol ++ " " ++ placeholder start value;
          params := [(paramName start, value)] |}.
Proof.
  intros Hc Hi Hsym Hnull.
  assert (Hop : includes validKeys op = true).
  { unfold operatorSymbol in Hsym. unfold includes, validKeys. cbn [existsb].
    repeat match type of Hsym with
           | (if ?b then _ else _) = _ =>
               destruct b eqn:?; [rewrite ?orb_true_r; reflexivity|]
           end.
    discriminate Hsym. }
  rewrite (build_operator field fieldName op value Hc Hi Hop).
  rewrite (processOperator_symbol fieldName op symbol value _ Hsym Hnull).
  unfold mbind, addParam, ret.
  cbn [initialState this_params this_paramCounter setProperty].
  rewrite nonEmpty_infix by reflexivity. reflexivity.
Qed.

(** X27: [eq] and [ne] against [null] compile to the null tests and bind
    nothing, exactly as a bare [null] field value does for [eq]; against
    [undefined] they bind a parameter of wire type [Nullable(String)]
    instead. *)
Theorem eq_ne_null (field fieldName : string) :
  isCombinatorKey field = false ->
  identifier sqlBuilder field = OK fieldName ->
  build host sqlBuilder start (fieldOperator field "eq" VNull)
  = OK {| sql := fieldName ++ " IS NULL"; params := [] |}
  /\ build host sqlBuilder start (VObject [(field, VNull)])
     = OK {| sql := fieldName ++ " IS NULL"; params := [] |}
  /\ build host sqlBuilder start (fieldOperator field "ne" VNull)
     = OK {| sql := fieldName ++ " IS NOT NULL"; params := [] |}
  /\ build host sqlBuilder start (fieldOperator field "eq" VUndefined)
     = OK {| sql := fieldName ++ " = {param" ++ dec_nat start ++ ":Nullable(String)}";
             params := [(paramName start, VUndefined)] |}.
Proof.
  intros Hc Hi.
  rewrite !(build_operator field fieldName _ _ Hc Hi) by reflexivity.
  rewrite (build_text host sqlBuilder start field VNull (ret (fieldName ++ " IS NULL")) Hc)
    by (unfold processFieldCondition, mbind, lift; rewrite Hi; reflexivity).
  cbn [ret].
  unfold processOperator; cbn [String.eqb Ascii.eqb Bool.eqb].
  unfold mbind, addParam, ret;
    cbn [initialState this_params this_paramCounter setProperty].
  rewrite !nonEmpty_append.
  repeat split. rewrite nonEmpty_infix by reflexivity. reflexivity.
Qed.

(** X28: [between] compiles exactly for an array of two elements, binding
    the two endpoints in order; any other value throws a
    [ValidationError]. *)
Theorem between_two_endpoints (field fieldName : string) (value : JsValue) :
  isCombinatorKey field = false ->
  identifier sqlBuilder field = OK fieldName ->
  isErr (build host sqlBuilder start (fieldOperator field "between" value))
  = negb (isPair value)
  /\ (forall e,
        build host sqlBuilder start (fieldOperator field "between" value) = Err e ->
        e = ValidationError "BETWEEN operator requires an array of 2 values"
              None value None)
  /\ (forall lo hi,
        value = VArray [lo; hi] ->
        build host sqlBuilder start (fieldOperator field "between" value)
        = OK {| sql := fieldName ++ " BETWEEN " ++ placeholder start lo
                       ++ " AND " ++ placeholder (S start) hi;
                params := [(paramName start, lo); (paramName (S start), hi)] |}).
Proof.
  intros Hc Hi.
  rewrite (build_operator field fieldName "between" value Hc Hi) by reflexivity.
  assert (Hpair : forall lo hi,
             match processOperator fieldName "between" (VArray [lo; hi])
                     (initialState start) with
             | OK (fragment, st) =>
                 OK {| sql := if nonEmpty fragment then fragment else "1=1";
                       params := this_params st |}
             | Err e => Err e
             end
             = OK {| sql := fieldName ++ " BETWEEN " ++ placeholder start lo
                            ++ " AND " ++ placeholder (S start) hi;
                     params := [(paramName start, lo); (paramName (S start), hi)] |}).
  { intros lo hi. unfold processOperator; cbn [String.eqb Ascii.eqb Bool.eqb].
    unfold mbind, addParam, ret;
      cbn [initialState this_params this_paramCounter setProperty].
    change ("param" ++ dec_nat start) with (paramName start).
    change ("param" ++ dec_nat (S start)) with (paramName (S start)).
    rewrite (paramName_neq start (S start)) by lia.
    rewrite nonEmpty_infix by reflexivity. reflexivity. }
  split; [|split].
  - destruct value as [| | b | n | z | s | t | [|x [|y [|w rest]]] | props];
      try reflexivity; rewrite Hpair; reflexivity.
  - intros e.
    destruct value as [| | b | n | z | s | t | [|x [|y [|w rest]]] | props];
      try (intros H; injection H as <-; reflexivity);
      rewrite Hpair; discriminate.
  - intros lo hi ->. apply Hpair.
Qed.

(** X2: a field value branded as a raw expression is compiled to its [sql]
    as it is: nothing is quoted, no parameter is bound, the other keys of
    the object are ignored (the field name must still be an identifier the
    builder accepts).  A [sql] that is no string is pushed if truthy and
    converted by the final [join], which throws on a value that cannot be
    printed; a falsy [sql] leaves the always-true predicate. *)
Theorem raw_expression_verbatim
        (field fieldName : string) (props : list (string * JsValue)) :
  isCombinatorKey field = false ->
  identifier sqlBuilder field = OK fieldName ->
  isRawExpression (VObject props) = true ->
  build host sqlBuilder start (VObject [(field, VObject props)])
  = (if truthy (rawSql (VObject props))
     then rbind (ToString host (rawSql (VObject props)))
            (fun text => OK {| sql := if nonEmpty text then text else "1=1";
                               params := [] |})
     else OK {| sql := "1=1"; params := [] |})
  /\ (forall text,
        lookup "sql" props = Some (VString text) ->
        build host sqlBuilder start (VObject [(field, VObject props)])
        = OK {| sql := if nonEmpty text then text else "1=1"; params := [] |}).
Proof.
  intros Hc Hi Hraw.
  assert (Hbuild :
            build host sqlBuilder start (VObject [(field, VObject props)])
            = if truthy (rawSql (VObject props))
              then rbind (ToString host (rawSql (VObject props)))
                     (fun text => OK {| sql := if nonEmpty text then text else "1=1";
                                        params := [] |})
              else OK {| sql := "1=1"; params := [] |}).
  { rewrite (build_single_field host sqlBuilder start _ _ Hc).
    unfold processFieldCondition, mbind, lift. rewrite Hi, Hraw. cbn [ret].
    destruct (truthy (rawSql (VObject props))) eqn:Ht; [|reflexivity].
    assert (Hn : isNullish (rawSql (VObject props)) = false)
      by (destruct (rawSql (VObject props)); first [discriminate Ht | reflexivity]).
    unfold Array_join. cbn [mapResult]. rewrite Hn.
    destruct (ToString host (rawSql (VObject props))) as [text|e]; reflexivity. }
  split; [exact Hbuild|].
  intros text Hsql. rewrite Hbuild. cbn [rawSql]. rewrite Hsql. cbn [truthy ToString rbind].
  change (negb (text =? "")) with (nonEmpty text).
  destruct (nonEmpty text); reflexivity.
Qed.

Lemma processCondition_no_entries (condition : JsValue) (st : BuilderState) :
  Object_entries condition = Some [] ->
  processCondition host sqlBuilder condition st = OK ("", st).
Proof.
  intros Hentries.
  destruct condition as [| | b | n | z | s | t | elems | props];
    try discriminate Hentries; try reflexivity.
  - destruct s; [reflexivity | discriminate Hentries].
  - destruct elems; [reflexivity | discriminate Hentries].
  - injection Hentries as ->. reflexivity.
Qed.

Lemma mapM_no_entries (conditions : list JsValue) (st : BuilderState) :
  (forall c, In c conditions -> Object_entries c = Some []) ->
  exists results,
    mapM (processCondition host sqlBuilder) conditions st = OK (results, st)
    /\ filter nonEmpty results = [].
Proof.
  induction conditions as [|c rest IH]; intros Hall.
  - exists []. split; reflexivity.
  - destruct (IH (fun x Hx => Hall x (or_intror Hx))) as [results [Hrun Hkept]].
    exists ("" :: results). rewrite mapM_cons.
    rewrite (processCondition_no_entries c st (Hall c (or_introl eq_refl))), Hrun.
    split; [reflexivity | exact Hkept].
Qed.

(** X29: [Model.buildWhereClause] on where-conditions that have no entries
    (none at all, one empty object, several) yields the always-true
    predicate [1=1] and binds nothing: an [and] group whose children are all
    empty contributes nothing. *)
Theorem buildWhereClause_empty_conditions (whereConditions : list JsValue) :
  (forall c, In c whereConditions -> Object_entries c = Some []) ->
  Model_buildWhereClause host sqlBuilder whereConditions start
  = OK {| sql := "1=1"; params := [] |}.
Proof.
  intros Hall. unfold Model_buildWhereClause.
  assert (Hgroup : build host sqlBuilder start (VObject [("and", VArray whereConditions)])
                   = OK {| sql := "1=1"; params := [] |}).
  { unfold build. cbn [processCondition processEntries isAndKey String.eqb Ascii.eqb
                         Bool.eqb orb].
    unfold mbind at 1 2. unfold processGroup, mbind at 1.
    destruct (mapM_no_entries whereConditions
                {| this_params := []; this_paramCounter := start |} Hall)
      as [results [Hrun Hkept]].
    rewrite Hrun, Hkept. reflexivity. }
  destruct whereConditions as [|c [|c' rest]]; try exact Hgroup.
  unfold build.
  rewrite (processCondition_no_entries c _ (Hall c (or_introl eq_refl))). reflexivity.
Qed.

End WhereBuilderOperatorFacts.

(* ================================================================== *)
(** * Validator: IPv4 addresses *)

Lemma string_of_uint_digits (digits : Decimal.uint) :
  allChars isDigit (NilEmpty.string_of_uint digits) = true.
Proof. induction digits; simpl; try reflexivity; exact IHdigits. Qed.

Lemma dec_nat_digits (n : nat) : allChars isDigit (dec_nat n) = true.
Proof. unfold dec_nat. apply string_of_uint_digits. Qed.

Lemma digit_is_no_dot (c : ascii) : isDigit c = true -> Ascii.eqb c "."%char = false.
Proof.
  intros Hd. destruct (Ascii.eqb_spec c "."%char) as [-> | _]; [|reflexivity].
  discriminate Hd.
Qed.

Lemma splitDots_digits (part : string) :
  allChars isDigit part = true -> splitDots part = [part].
Proof.
  induction part as [|c rest IH]; simpl; [reflexivity|].
  intros H. apply andb_prop in H as [Hc Hrest].
  rewrite (digit_is_no_dot c Hc), (IH Hrest). reflexivity.
Qed.

Lemma splitDots_group (part rest : string) :
  allChars isDigit part = true ->
  splitDots (part ++ "." ++ rest) = part :: splitDots rest.
Proof.
  change ("." ++ rest) with (String.String "."%char rest).
  induction part as [|c part IH]; simpl; [reflexivity|].
  intros H. apply andb_prop in H as [Hc Hpart].
  rewrite (digit_is_no_dot c Hc), (IH Hpart). reflexivity.
Qed.

Lemma digitsToNumber_dec_nat (n : nat) : digitsToNumber (dec_nat n) = n.
Proof.
  unfold digitsToNumber. rewrite uint_of_dec_nat. apply DecimalNat.Unsigned.of_to.
Qed.

Lemma octet_text (n : nat) : n <= 255 -> isOctetText (dec_nat n) = true.
Proof.
  intros Hn.
  assert (Hall : forallb (fun k => isOctetText (dec_nat k)) (seq 0 256) = true)
    by (vm_compute; reflexivity).
  rewrite forallb_forall in Hall. apply Hall. apply in_seq. lia.
Qed.

(** X30: [isValidIPv4] on a dotted quad written in decimal accepts it
    exactly when each of the four numbers is at most 255. *)
Theorem isValidIPv4_dotted_quad (a b c d : nat) :
  isValidIPv4 (dottedQuad a b c d)
  = ((a <=? 255) && (b <=? 255) && (c <=? 255) && (d <=? 255))%nat.
Proof.
  assert (Hsplit : splitDots (dottedQuad a b c d)
                   = [dec_nat a; dec_nat b; dec_nat c; dec_nat d]).
  { unfold dottedQuad.
    rewrite !splitDots_group by apply dec_nat_digits.
    rewrite splitDots_digits by apply dec_nat_digits. reflexivity. }
  unfold isValidIPv4, ipv4Regex_test. rewrite Hsplit.
  cbn [map forallb]. rewrite !digitsToNumber_dec_nat. cbn [Nat.leb andb].
  destruct (a <=? 255)%nat eqn:Ha; cbn [andb];
    [|destruct (isOctetText (dec_nat a) && isOctetText (dec_nat b)
               && isOctetText (dec_nat c) && isOctetText (dec_nat d)); reflexivity].
  destruct (b <=? 255)%nat eqn:Hb; cbn [andb];
    [|destruct (isOctetText (dec_nat a) && isOctetText (dec_nat b)
               && isOctetText (dec_nat c) && isOctetText (dec_nat d)); reflexivity].
  destruct (c <=? 255)%nat eqn:Hc; cbn [andb];
    [|destruct (isOctetText (dec_nat a) && isOctetText (dec_nat b)
               && isOctetText (dec_nat c) && isOctetText (dec_nat d)); reflexivity].
  destruct (d <=? 255)%nat eqn:Hd; cbn [andb];
    [|destruct (isOctetText (dec_nat a) && isOctetText (dec_nat b)
               && isOctetText (dec_nat c) && isOctetText (dec_nat d)); reflexivity].
  apply Nat.leb_le in Ha, Hb, Hc, Hd.
  rewrite !octet_text by assumption. reflexivity.
Qed.

(* ================================================================== *)
(** * The further properties on concrete inputs *)


Example areTypesCompatible_cases :
  areTypesCompatible DataType.Enum8 DataType.String = false
  /\ areTypesCompatible DataType.IPv4 DataType.String = false
  /\ areTypesCompatible DataType.UUID DataType.FixedString = true
  /\ areTypesCompatible DataType.UInt8 DataType.Date = false.
Proof. repeat split; reflexivity. Qed.

Lemma inferClickHouseType_validates_witness :
  inferClickHouseType (num (2 ^ 40)) = DataType.Int32
  /\ validateValue exampleHost (num (2 ^ 40)) (Col.ofType DataType.Int32) = OK false.
Proof.
  split; [reflexivity|].
  exact (inferClickHouseType_validates exampleHost (num (2 ^ 40))
           (Col.ofType DataType.Int32) eq_refl eq_refl).
Defined.

Lemma getDefaultValue_valid_witness :
  validateColumnDefinition "code" fixedString5 = OK tt
  /\ validateValue exampleHost (getDefaultValue DataType.FixedString) fixedString5
     = OK true.
Proof.
  split; [reflexivity|].
  exact (proj1 (getDefaultValue_valid exampleHost "code" fixedString5 eq_refl) eq_refl).
Defined.

Lemma wire_round_trip_witness :
  keptByConversions DataType.String (VString "abc") = true
  /\ rbind (toClickHouseValue exampleHost exampleISOString exampleStringify
              (VString "abc") DataType.String)
       (fun wire => fromClickHouseValue exampleHost wire DataType.String)
     = OK (VString "abc").
Proof.
  split; [reflexivity|].
  exact (wire_round_trip exampleHost exampleISOString exampleStringify
           (VString "abc") DataType.String eq_refl).
Defined.

Lemma wire_round_trip_safe_integer_witness :
  isSafeInteger 123 = true
  /\ rbind (toClickHouseValue exampleHost exampleISOString exampleStringify
              (VBigInt 123) DataType.Int64)
       (fun wire => fromClickHouseValue exampleHost wire DataType.Int64)
     = OK (num 123).
Proof.
  split; [reflexivity|].
  exact (proj1 (wire_round_trip_safe_integer exampleHost exampleISOString
                  exampleStringify 123 DataType.Int64 (or_introl eq_refl) eq_refl)).
Defined.

Lemma toClickHouseValue_shape_errors_witness :
  isNullish (VString "x") = false
  /\ wrongShape DataType.Array (VString "x") = true
  /\ toClickHouseValue exampleHost exampleISOString exampleStringify
       (VString "x") DataType.Array
     = Err (TypeMappingError "Expected array value" (Some "string") (Some "Array")
              (OfValue (VString "x")))
  /\ toClickHouseValue exampleHost exampleISOString exampleStringify
       VUndefined DataType.Array
     = OK VNull.
Proof.
  split; [reflexivity|]. split; [reflexivity|]. split; [reflexivity|].
  exact (proj1 (toClickHouseValue_shape_errors exampleHost exampleISOString
                  exampleStringify VUndefined DataType.Array) eq_refl).
Defined.

Lemma inferParamType_agrees_witness :
  inferParamType (VString "a") = "String"
  /\ inferParamType (VBool true) <> DataType.toString (inferClickHouseType (VBool true)).
Proof.
  split.
  - exact (proj2 (inferParamType_agrees (VString "a")) eq_refl).
  - intros H. apply (proj1 (inferParamType_agrees (VBool true))) in H. discriminate H.
Defined.

Lemma sanitizeInput_removes_nulls_witness :
  sanitizeInput (String.String "a" (String.String Ascii.zero "b")) = "ab"
  /\ sanitizeInput "ab" = "ab".
Proof.
  split; [reflexivity|].
  apply (proj1 (proj2 (sanitizeInput_removes_nulls "ab"))).
  simpl. intros [H | [H | []]]; discriminate H.
Defined.

Lemma applyValidationRules_first_failure_witness :
  applyValidationRules (VString "x") [numbersOnly; neverValid] (Some "age")
  = Err (ValidationError "must be a number" (Some "age") (VString "x") (Some "custom")).
Proof.
  exact (proj1 (applyValidationRules_first_failure (VString "x")
                  [numbersOnly; neverValid] (Some "age"))).
Defined.

Lemma validateWhereCondition_identifiers_witness :
  isErr (validateWhereCondition (VObject [("$and", VArray [])])) = true
  /\ build exampleHost specSQLBuilder 0 (VObject [("$and", VArray [])])
     = OK {| sql := "1=1"; params := [] |}.
Proof.
  split; [|reflexivity].
  exact (proj2 (proj2 (validateWhereCondition_identifiers [("$and", VArray [])])
                  "$and" (or_introl eq_refl) (or_introl eq_refl))).
Defined.


Lemma validateData_implies_partial_witness :
  validateData exampleHost [("name", VString "Ann")] autoKeySchema = OK tt
  /\ validatePartialData exampleHost [("name", VString "Ann")] autoKeySchema = OK tt.
Proof.
  split; [reflexivity|].
  apply (validateData_implies_partial exampleHost objectPrototypeNames
           [("name", VString "Ann")] autoKeySchema).
  - repeat constructor; simpl; intuition discriminate.
  - reflexivity.
  - reflexivity.
  - intros key column [<- | []] Hlookup. simpl in Hlookup.
    injection Hlookup as <-. reflexivity.
Defined.

Lemma escapeQuotes_injective_witness :
  escapeQuotes "it's" = "it''s" /\ escapeQuotes "plain" = "plain".
Proof.
  split; [reflexivity|].
  apply (proj2 (escapeQuotes_injective "plain" "")).
  simpl. intros [H | [H | [H | [H | [H | []]]]]]; discriminate H.
Defined.

Lemma accepted_column_renders_witness :
  validateColumnDefinition "code" fixedString5 = OK tt
  /\ exists typeStr, getClickHouseType exampleHost fixedString5 = OK typeStr.
Proof.
  split; [reflexivity|].
  exact (proj1 (accepted_column_renders exampleHost "code" fixedString5 eq_refl)).
Defined.

Lemma decimal_scale_zero_rendered_as_two_witness :
  validateColumnDefinition "price" decimal10_0 = OK tt
  /\ getClickHouseType exampleHost decimal10_0 = OK "Decimal(10, 2)".
Proof.
  exact (decimal_scale_zero_rendered_as_two exampleHost "price" decimal10_0 (ofZ 10)
           eq_refl eq_refl eq_refl eq_refl eq_refl eq_refl eq_refl).
Defined.

Lemma usersSchema_NoDup : NoDup (map fst usersSchema).
Proof. repeat constructor; simpl; intuition discriminate. Qed.

Lemma TableSchema_new_invariants_witness :
  TableSchema_new "users" usersSchema = OK usersTable
  /\ List.length (primaryKeyColumns usersSchema) <= 1
  /\ primaryKeyColumn usersTable = hd_error (primaryKeyColumns usersSchema).
Proof.
  split; [reflexivity|].
  pose proof (TableSchema_new_invariants "users" usersSchema usersTable
                usersSchema_NoDup eq_refl) as H.
  split; [exact (proj1 (proj2 (proj2 (proj2 (proj2 (proj2 (proj2 H)))))))|].
  exact (proj1 (proj2 (proj2 (proj2 (proj2 (proj2 (proj2 (proj2 H)))))))).
Defined.

Lemma toCreateTableSQL_throws_iff_witness :
  TableSchema_new "users" usersSchema = OK usersTable
  /\ isErr (toCreateTableSQL exampleHost usersTable CreateTable.none) = false.
Proof.
  split; [reflexivity|].
  exact (proj1 (toCreateTableSQL_throws_iff exampleHost "users" usersSchema usersTable
                  CreateTable.none eq_refl)).
Defined.

Example toCreateTableSQL_users :
  toCreateTableSQL exampleHost usersTable CreateTable.none
  = OK (join newline
          ["CREATE TABLE"; "`users`";
           "(" ++ newline ++ "  `id` UInt32," ++ newline ++ "  `name` String,"
           ++ newline ++ "  `age` Nullable(UInt8)" ++ newline ++ ")";
           "ENGINE = MergeTree()"; "ORDER BY `id`"])
  /\ toDropTableSQL usersTable true = "DROP TABLE IF EXISTS `users`".
Proof. split; reflexivity. Qed.

Lemma addColumn_removeColumn_witness :
  TableSchema_new "users" usersSchema = OK usersTable
  /\ addColumn objectPrototypeNames usersTable "email" (Col.ofType DataType.String)
     = Done usersTableWithEmail
  /\ removeColumn objectPrototypeNames usersTableWithEmail "email" = Done usersTable.
Proof.
  split; [reflexivity|]. split; [reflexivity|].
  exact (addColumn_removeColumn objectPrototypeNames "users" usersSchema usersTable
           usersTableWithEmail "email" (Col.ofType DataType.String) eq_refl eq_refl).
Defined.

Lemma addColumn_removeColumn_refusals_witness :
  objectPrototypeNames "toString" = true
  /\ exists message,
       addColumn objectPrototypeNames usersTable "toString" (Col.ofType DataType.String)
       = Failed (SchemaError message (Some "users") (Some "toString")).
Proof.
  split; [reflexivity|].
  exact (proj1 (addColumn_removeColumn_refusals objectPrototypeNames usersTable
                  "toString" (Col.ofType DataType.String))
           (or_intror eq_refl)).
Defined.


Lemma build_parameter_names_witness :
  map fst (params {| sql := "`id` IN ({param5:Int32}, {param6:Int32})";
                     params := [("param5", num 1); ("param6", num 2)] |})
  = keysFrom 5 2.
Proof.
  exact (proj1 (build_parameter_names exampleHost specSQLBuilder 5
                  (fieldOperator "id" "in" (VArray [num 1; num 2]))
                  {| sql := "`id` IN ({param5:Int32}, {param6:Int32})";
                     params := [("param5", num 1); ("param6", num 2)] |}
                  eq_refl)).
Defined.

Lemma update_parameters_do_not_collide_witness :
  spread (paramsArrayToObject [VString "Ann"; num 30])
    [("param2", num 7)]
  = [("param0", VString "Ann"); ("param1", num 30); ("param2", num 7)].
Proof.
  exact (proj1 (update_parameters_do_not_collide exampleHost specSQLBuilder
                  [VString "Ann"; num 30] (VObject [("id", num 7)])
                  {| sql := "`id` = {param2:Int32}"; params := [("param2", num 7)] |}
                  eq_refl)).
Defined.

Lemma otherSpelling_keepsCombinators : keepsCombinators otherSpelling.
Proof.
  intros key. unfold isAndKey, isOrKey, isNotKey.
  split; [|split]; intros H; apply orb_prop in H as [Hk | Hk];
    apply String.eqb_eq in Hk; subst key; reflexivity.
Qed.

Lemma respell_same_result_witness :
  build exampleHost specSQLBuilder 0
    (VObject [("$and", VArray [VObject [("id", num 1)];
                               VObject [("not", VObject [("age", num 2)])]])])
  = build exampleHost specSQLBuilder 0
      (VObject [("and", VArray [VObject [("id", num 1)];
                                VObject [("$not", VObject [("age", num 2)])]])]).
Proof.
  exact (respell_same_result exampleHost specSQLBuilder otherSpelling 0
           (VObject [("and", VArray [VObject [("id", num 1)];
                                     VObject [("$not", VObject [("age", num 2)])]])])
           otherSpelling_keepsCombinators).
Defined.

Lemma raw_expression_verbatim_witness :
  isRawExpression
    (VObject [("_brand", VString "RawExpression"); ("sql", VString "age > 1 OR 1=1")])
  = true
  /\ build exampleHost specSQLBuilder 0
       (VObject [("age", VObject [("_brand", VString "RawExpression");
                                  ("sql", VString "age > 1 OR 1=1")])])
     = OK {| sql := "age > 1 OR 1=1"; params := [] |}.
Proof.
  split; [reflexivity|].
  exact (proj2 (raw_expression_verbatim exampleHost specSQLBuilder 0 "age" "`age`"
                  [("_brand", VString "RawExpression"); ("sql", VString "age > 1 OR 1=1")]
                  eq_refl eq_refl eq_refl)
           "age > 1 OR 1=1" eq_refl).
Defined.

Example raw_expression_cases :
  build exampleHost specSQLBuilder 0
    (VObject [("age", VObject [("_brand", VString "RawExpression"); ("sql", num 5)])])
  = OK {| sql := "5"; params := [] |}
  /\ build exampleHost specSQLBuilder 0
       (VObject [("age", VObject [("_brand", VString "RawExpression")])])
     = OK {| sql := "1=1"; params := [] |}
  /\ build exampleHost specSQLBuilder 0
       (VObject [("age", VObject [("_brand", VString "RawExpression");
                                  ("sql", VObject [("toString", VNull)])])])
     = Err TypeError
  /\ build exampleHost specSQLBuilder 0
       (VObject [("age", VObject [("_brand", VString "RawExpression");
                                  ("sql", VObject [("toString", VNull)])]);
                 ("id", VObject [("in", VString "x")])])
     = Err (ValidationError "IN operator requires an array" None (VString "x") None)
  /\ isErr (build exampleHost specSQLBuilder 0
              (VObject [("a b", VObject [("_brand", VString "RawExpression");
                                         ("sql", VString "1")])]))
     = true.
Proof. repeat split; reflexivity. Qed.

Lemma comparison_binds_value_witness :
  build exampleHost specSQLBuilder 0 (fieldOperator "name" "like" (VString "%a'b%"))
  = OK {| sql := "`name` LIKE {param0:String}";
          params := [("param0", VString "%a'b%")] |}.
Proof.
  exact (comparison_binds_value exampleHost specSQLBuilder 0 "name" "`name`" "like" "LIKE"
           (VString "%a'b%") eq_refl eq_refl eq_refl eq_refl).
Defined.

Lemma eq_ne_null_witness :
  build exampleHost specSQLBuilder 3 (fieldOperator "age" "ne" VNull)
  = OK {| sql := "`age` IS NOT NULL"; params := [] |}.
Proof.
  exact (proj1 (proj2 (proj2 (eq_ne_null exampleHost specSQLBuilder 3 "age" "`age`"
                                eq_refl eq_refl)))).
Defined.

Lemma between_two_endpoints_witness :
  build exampleHost specSQLBuilder 0
    (fieldOperator "age" "between" (VArray [num 18; num 65]))
  = OK {| sql := "`age` BETWEEN {param0:Int32} AND {param1:Int32}";
          params := [("param0", num 18); ("param1", num 65)] |}
  /\ isErr (build exampleHost specSQLBuilder 0
              (fieldOperator "age" "between" (VArray [num 18])))
     = true.
Proof.
  split.
  - exact (proj2 (proj2 (between_two_endpoints exampleHost specSQLBuilder 0
                           "age" "`age`" (VArray [num 18; num 65]) eq_refl eq_refl))
             (num 18) (num 65) eq_refl).
  - reflexivity.
Defined.

Lemma buildWhereClause_empty_conditions_witness :
  Model_buildWhereClause exampleHost specSQLBuilder [VObject []; VObject []] 0
  = OK {| sql := "1=1"; params := [] |}.
Proof.
  apply (buildWhereClause_empty_conditions exampleHost specSQLBuilder 0
           [VObject []; VObject []]).
  intros c [<- | [<- | []]]; reflexivity.
Defined.

Example isValidIPv4_cases :
  isValidIPv4 "192.168.1.1" = true
  /\ isValidIPv4 "256.1.1.1" = false
  /\ isValidIPv4 "1.2.3" = false
  /\ isValidIPv4 "01.002.3.4" = true
  /\ isValidIPv4 "1.2.3.4." = false
  /\ isValidIPv4 "a.b.c.d" = false.
Proof. repeat split; reflexivity. Qed.

Example SchemaBuilder_enum_cases :
  SchemaBuilder_enum [] "status" ["active"; "inactive"]
  = OK [("status",
         Col.mk DataType.Enum8 None None None None None None None None None None
           (Some ["active"; "inactive"]))]
  /\ isErr (SchemaBuilder_enum [] "status" []) = true.
Proof. split; reflexivity. Qed.
